(** * PoolPal: the order / payment ledger

    A shallow embedding of the payment service ([payment-service.ts]),
    the order service ([order-service.ts]), the payment detail page and
    the order creation page, and the properties of their status state
    machines and of the payment-to-order reconciliation.

    Modelling conventions.
    - A Firestore collection is a finite map from document id to document
      ([gmap string _]); the store always answers (network and permission
      failures, which the services catch and report, are not modelled).
    - A JavaScript [number] is modelled as an integer ([Z]): amounts and
      prices in the smallest currency unit, timestamps in milliseconds.
    - Every reading of [Date.now()] is an explicit argument.
    - An optional field ([completedAt?: number]) is an [option]. *)

From stdpp Require Import gmap strings list fin_maps.
From Stdlib Require Import ZArith Lia.

Open Scope Z_scope.

(** ** Enumerations *)

(** [enum PaymentStatus] of the payment service. *)
Module PaymentStatus.
Inductive t : Set :=
| PENDING | PROCESSING | COMPLETED | FAILED | REFUNDED | CANCELLED.

(** The string value of each member. *)
Definition value (s : t) : string :=
  match s with
  | PENDING => "pending"
  | PROCESSING => "processing"
  | COMPLETED => "completed"
  | FAILED => "failed"
  | REFUNDED => "refunded"
  | CANCELLED => "cancelled"
  end.

#[global] Instance eq_dec : EqDecision t.
Proof. solve_decision. Defined.

(** [a === b] on two members of the enum. *)
Definition eqb (a b : t) : bool := bool_decide (a = b).

Definition all : list t :=
  [PENDING; PROCESSING; COMPLETED; FAILED; REFUNDED; CANCELLED].
End PaymentStatus.

(** [enum OrderStatus] of the order service.  It has seven members; there
    is no [RETURNED] member. *)
Module OrderStatus.
Inductive t : Set :=
| PENDING | PROCESSING | COMPLETED | CANCELLED | REFUNDED | SHIPPED
| DELIVERED.

Definition value (s : t) : string :=
  match s with
  | PENDING => "pending"
  | PROCESSING => "processing"
  | COMPLETED => "completed"
  | CANCELLED => "cancelled"
  | REFUNDED => "refunded"
  | SHIPPED => "shipped"
  | DELIVERED => "delivered"
  end.

#[global] Instance eq_dec : EqDecision t.
Proof. solve_decision. Defined.

Definition eqb (a b : t) : bool := bool_decide (a = b).

Definition all : list t :=
  [PENDING; PROCESSING; COMPLETED; CANCELLED; REFUNDED; SHIPPED; DELIVERED].
End OrderStatus.

(** ** Documents *)

(** [interface Payment]. *)
Module Payment.
Record t : Type := mk {
  id : string;
  orderId : string;
  userId : string;
  amount : Z;
  referenceCode : string;
  paymentMethod : string;
  status : PaymentStatus.t;
  createdAt : Z;
  updatedAt : option Z;
  completedAt : option Z
}.

(** [{ ...data, id }]: the document data with its [id] replaced by the
    document key. *)
Definition with_id (k : string) (p : t) : t :=
  mk k (orderId p) (userId p) (amount p) (referenceCode p)
     (paymentMethod p) (status p) (createdAt p) (updatedAt p)
     (completedAt p).
End Payment.

(** [interface OrderItem]. *)
Module OrderItem.
Record t : Type := mk {
  id : string;
  imageUrl : string;
  name : string;
  price : Z;
  quantity : Z;
  category : option string
}.
End OrderItem.

(** [interface Order]. *)
Module Order.
Record t : Type := mk {
  id : string;
  createdAt : Z;
  items : list OrderItem.t;
  notes : option string;
  orderNumber : string;
  paymentMethod : string;
  receiptNumber : string;
  shippingAddress : string;
  status : OrderStatus.t;
  total : Z;
  userId : string;
  isPaid : bool;
  paymentId : option string;
  paymentReferenceCode : option string;
  updatedAt : option Z
}.
End Order.

(** The two collections the services read and write. *)
Record Firestore : Type := mkFirestore {
  payments : gmap string Payment.t;
  orders : gmap string Order.t
}.

(** [!s] on a string: the empty string is falsy. *)
Definition falsy (s : string) : bool := bool_decide (s = "").

(** ** Payment service *)

Module PaymentService.
Import PaymentStatus.

(** The [validTransitions] record of [isValidStatusTransition]. *)
Definition validTransitions (currentStatus : PaymentStatus.t)
  : list PaymentStatus.t :=
  match currentStatus with
  | PENDING => [PROCESSING; COMPLETED; FAILED; CANCELLED]
  | PROCESSING => [COMPLETED; FAILED]
  | COMPLETED => [REFUNDED]
  | FAILED => [PENDING; CANCELLED]
  | REFUNDED => []
  | CANCELLED => [PENDING]
  end.

(** [validTransitions[currentStatus]?.includes(newStatus) || false]. *)
Definition isValidStatusTransition (currentStatus newStatus : PaymentStatus.t)
  : bool :=
  existsb (PaymentStatus.eqb newStatus) (validTransitions currentStatus).

(** [getPaymentById]: the document under key [id], with its [id] field
    set to the key.  (The defaults it fills in for missing timestamps are
    not used by the callers below.) *)
Definition getPaymentById (db : Firestore) (id : string) : option Payment.t :=
  if falsy id then None
  else Payment.with_id id <$> payments db !! id.

(** [getPaymentsByOrderId]: the query [where('orderId', '==', orderId)].
    The [orderBy] clause only fixes the order of the result, which the
    caller below does not observe. *)
Definition getPaymentsByOrderId (db : Firestore) (orderId : string)
  : list Payment.t :=
  if falsy orderId then []
  else
    (fun kp => Payment.with_id kp.1 kp.2) <$>
      filter (fun kp => Payment.orderId kp.2 = orderId)
             (map_to_list (payments db)).

(** [updateDoc(orderRef, { isPaid, status: isPaid ? 'processing' :
    'pending', updatedAt })] applied to an order document. *)
Definition order_payment_update (isPaid : bool) (now : Z) (o : Order.t)
  : Order.t :=
  Order.mk (Order.id o) (Order.createdAt o) (Order.items o) (Order.notes o)
    (Order.orderNumber o) (Order.paymentMethod o) (Order.receiptNumber o)
    (Order.shippingAddress o)
    (if isPaid then OrderStatus.PROCESSING else OrderStatus.PENDING)
    (Order.total o) (Order.userId o)
    isPaid
    (Order.paymentId o) (Order.paymentReferenceCode o)
    (Some now).

(** [updateOrderPaymentStatus(orderId, isPaid)]; [now] is the reading of
    [Date.now()] in the update. *)
Definition updateOrderPaymentStatus (now : Z) (db : Firestore)
    (orderId : string) (isPaid : bool) : Firestore * bool :=
  if falsy orderId then (db, false)
  else
    match orders db !! orderId with
    | None => (db, false)
    | Some o =>
        (mkFirestore (payments db)
           (<[orderId := order_payment_update isPaid now o]> (orders db)),
         true)
    end.

(** The [updateData] record merged into the payment document:
    [{ status, updatedAt }], and [completedAt] as well when the new
    status is [COMPLETED]. *)
Definition payment_status_update (status : PaymentStatus.t)
    (now_updated now_completed : Z) (p : Payment.t) : Payment.t :=
  Payment.mk (Payment.id p) (Payment.orderId p) (Payment.userId p)
    (Payment.amount p) (Payment.referenceCode p) (Payment.paymentMethod p)
    status
    (Payment.createdAt p)
    (Some now_updated)
    (if PaymentStatus.eqb status COMPLETED then Some now_completed
     else Payment.completedAt p).

(** The three readings of [Date.now()] during one [updatePaymentStatus]:
    for the payment's [updatedAt], for its [completedAt], and for the
    order's [updatedAt]. *)
Record Clock : Type := mkClock {
  now_updatedAt : Z;
  now_completedAt : Z;
  now_order : Z
}.

(** What [updatePaymentStatus] reports: the error toasts of its three
    early returns (each returns [false]), or success ([true]). *)
Inductive Outcome : Type :=
| Updated
| InvalidPaymentId
| PaymentNotFound
| InvalidStatusTransition (from to : PaymentStatus.t).

#[global] Instance Outcome_eq_dec : EqDecision Outcome.
Proof. solve_decision. Defined.

(** The boolean the function returns. *)
Definition returned (r : Outcome) : bool :=
  match r with Updated => true | _ => false end.

(** [hasCompletedPayment] of [updatePaymentStatus]:
    [orderPayments.some(p => p.id !== id && p.status === COMPLETED)]. *)
Definition hasCompletedPayment (db : Firestore) (orderId id : string) : bool :=
  existsb
    (fun p => negb (bool_decide (Payment.id p = id))
              && PaymentStatus.eqb (Payment.status p) COMPLETED)
    (getPaymentsByOrderId db orderId).

(** [updatePaymentStatus(id, status)]. *)
Definition updatePaymentStatus (clk : Clock) (db : Firestore) (id : string)
    (status : PaymentStatus.t) : Firestore * Outcome :=
  if falsy id then (db, InvalidPaymentId)
  else
    match getPaymentById db id with
    | None => (db, PaymentNotFound)
    | Some payment =>
        if negb (isValidStatusTransition (Payment.status payment) status)
        then (db, InvalidStatusTransition (Payment.status payment) status)
        else
          let db1 :=
            mkFirestore
              (alter (payment_status_update status (now_updatedAt clk)
                        (now_completedAt clk)) id (payments db))
              (orders db) in
          if PaymentStatus.eqb status COMPLETED then
            ((updateOrderPaymentStatus (now_order clk) db1
                (Payment.orderId payment) true).1, Updated)
          else if PaymentStatus.eqb status FAILED
                  || PaymentStatus.eqb status CANCELLED then
            if negb (hasCompletedPayment db1 (Payment.orderId payment) id)
            then
              ((updateOrderPaymentStatus (now_order clk) db1
                  (Payment.orderId payment) false).1, Updated)
            else (db1, Updated)
          else (db1, Updated)
    end.

(** [getTotalRevenue]: the query [where('status', '==', COMPLETED)],
    then [reduce((total, payment) => total + (payment.amount || 0), 0)]. *)
Definition getTotalRevenue (db : Firestore) : Z :=
  let docs :=
    filter (fun kp => Payment.status kp.2 = COMPLETED)
           (map_to_list (payments db)) in
  match docs with
  | [] => 0
  | _ =>
      foldl (fun total payment =>
               total + (if bool_decide (Payment.amount payment = 0) then 0
                        else Payment.amount payment))
            0
            ((fun kp => Payment.with_id kp.1 kp.2) <$> docs)
  end.
End PaymentService.

(** ** Payment detail page *)

Module PaymentDetailClient.
Import PaymentStatus.

(** [getValidStatusTransitions] of the payment detail page. *)
Definition getValidStatusTransitions (currentStatus : PaymentStatus.t)
  : list PaymentStatus.t :=
  match currentStatus with
  | PENDING => [PROCESSING; COMPLETED; FAILED; CANCELLED]
  | PROCESSING => [COMPLETED; FAILED]
  | COMPLETED => [REFUNDED]
  | FAILED => [PENDING; PROCESSING]
  | CANCELLED => [PENDING]
  | REFUNDED => []
  end.

(** The relation the page offers: [to] is listed for [from]. *)
Definition offers (from to : PaymentStatus.t) : bool :=
  existsb (PaymentStatus.eqb to) (getValidStatusTransitions from).
End PaymentDetailClient.

(** ** Order service *)

Module OrderService.
Import OrderStatus.

(** The [validTransitions] record of [isValidOrderStatusTransition].  Its
    entries are JavaScript values: [Some s] is a member of the enum, and
    [None] is [undefined], which is what the property read
    [OrderStatus.RETURNED] yields, the enum having no such member. *)
Definition validTransitions (currentStatus : OrderStatus.t)
  : list (option OrderStatus.t) :=
  match currentStatus with
  | PENDING => [Some PROCESSING; Some CANCELLED]
  | PROCESSING => [Some SHIPPED; Some COMPLETED; Some CANCELLED]
  | SHIPPED => [Some DELIVERED; None]
  | DELIVERED => [Some COMPLETED; None]
  | COMPLETED => [Some REFUNDED]
  | CANCELLED => []
  | REFUNDED => []
  end.

(** [validTransitions[currentStatus]?.includes(newStatus) || false]. *)
Definition isValidOrderStatusTransition
    (currentStatus newStatus : OrderStatus.t) : bool :=
  existsb (fun v => bool_decide (v = Some newStatus))
          (validTransitions currentStatus).

(** [getOrderById]. *)
Definition getOrderById (db : Firestore) (id : string) : option Order.t :=
  orders db !! id.

(** The three errors [updateOrderStatus] throws, one per message:
    ['Order not found'], ['Invalid status transition from .. to ..'] and
    ['Cannot set order to .. when payment is not completed']. *)
Inductive Error : Type :=
| OrderNotFound
| InvalidStatusTransition (from to : OrderStatus.t)
| PaymentNotCompleted (to : OrderStatus.t).

(** The message of the thrown [Error]. *)
Definition message (e : Error) : string :=
  match e with
  | OrderNotFound => "Order not found"
  | InvalidStatusTransition from to =>
      "Invalid status transition from " +:+ value from +:+ " to "
        +:+ value to
  | PaymentNotCompleted to =>
      "Cannot set order to " +:+ value to
        +:+ " when payment is not completed"
  end.

(** The payment-dependent statuses of the special validation. *)
Definition paymentDependent (status : OrderStatus.t) : bool :=
  OrderStatus.eqb status PROCESSING || OrderStatus.eqb status SHIPPED
  || OrderStatus.eqb status DELIVERED || OrderStatus.eqb status COMPLETED.

(** [updateDoc(orderRef, { status, updatedAt })]. *)
Definition order_status_update (status : OrderStatus.t) (now : Z)
    (o : Order.t) : Order.t :=
  Order.mk (Order.id o) (Order.createdAt o) (Order.items o) (Order.notes o)
    (Order.orderNumber o) (Order.paymentMethod o) (Order.receiptNumber o)
    (Order.shippingAddress o)
    status
    (Order.total o) (Order.userId o) (Order.isPaid o)
    (Order.paymentId o) (Order.paymentReferenceCode o)
    (Some now).

(** [updateOrderStatus(id, status)]: the new store, or the error thrown
    (the store is then as it was). *)
Definition updateOrderStatus (now : Z) (db : Firestore) (id : string)
    (status : OrderStatus.t) : Error + Firestore :=
  match getOrderById db id with
  | None => inl OrderNotFound
  | Some order =>
      if negb (isValidOrderStatusTransition (Order.status order) status)
      then inl (InvalidStatusTransition (Order.status order) status)
      else if paymentDependent status && negb (Order.isPaid order)
      then inl (PaymentNotCompleted status)
      else
        inr (mkFirestore (payments db)
               (alter (order_status_update status now) id (orders db)))
  end.

(** [calculateOrderTotal(items)]. *)
Definition calculateOrderTotal (items : list OrderItem.t) : Z :=
  foldl (fun total item => total + OrderItem.price item * OrderItem.quantity item)
        0 items.

(** [saveOrder(orderData)]: [fresh_id] is the rendering of
    [order_${Date.now()}] and [timestamp] the reading of [Date.now()].
    Returns the new store and the order id. *)
Definition saveOrder (fresh_id : string) (timestamp : Z) (db : Firestore)
    (orderData : Order.t) : Firestore * string :=
  let orderId := if falsy (Order.id orderData) then fresh_id
                 else Order.id orderData in
  let updatedOrder :=
    Order.mk orderId
      (if bool_decide (Order.createdAt orderData = 0) then timestamp
       else Order.createdAt orderData)
      (Order.items orderData) (Order.notes orderData)
      (Order.orderNumber orderData) (Order.paymentMethod orderData)
      (Order.receiptNumber orderData) (Order.shippingAddress orderData)
      (Order.status orderData) (Order.total orderData)
      (Order.userId orderData) (Order.isPaid orderData)
      (Order.paymentId orderData) (Order.paymentReferenceCode orderData)
      (Some timestamp) in
  (mkFirestore (payments db) (<[orderId := updatedOrder]> (orders db)),
   orderId).
End OrderService.

(** ** Order creation page *)

Module NewOrderPage.
(** [interface OrderFormData] (its [items] field is not read on submit:
    the page keeps the items in [selectedProducts]). *)
Record OrderFormData : Type := mkForm {
  notes : option string;
  paymentMethod : string;
  shippingAddress : string
}.

(** The values the submit handler draws from the clock and the random
    generator: [Date.now()] for [createdAt], the generated order number,
    the receipt number and the user id, and the id and timestamp used by
    [saveOrder]. *)
Record Fresh : Type := mkFresh {
  now : Z;
  orderNumber : string;
  receiptNumber : string;
  userId : string;
  save_id : string;
  save_now : Z
}.

(** How a submit ends: the order is saved (the store after [saveOrder] and
    the id of the order), the form is refused with an alert (no product, or
    no shipping address), or saving fails and the failure is alerted. *)
Inductive Submitted : Type :=
| Saved (db : Firestore) (orderId : string)
| Refused
| SaveFailed.

(** [handleSubmit].  The order data it builds has [notes] as an own key.
    When the form holds no notes that key holds [undefined], a value
    [setDoc] refuses: [saveOrder] rethrows and nothing is saved.  (The
    page's own state always holds the notes as a string.) *)
Definition handleSubmit (f : Fresh) (db : Firestore)
    (selectedProducts : list OrderItem.t) (formData : OrderFormData)
  : Submitted :=
  if bool_decide (length selectedProducts = 0%nat) then Refused
  else if falsy (shippingAddress formData) then Refused
  else
    match notes formData with
    | None => SaveFailed
    | Some text =>
        let total := OrderService.calculateOrderTotal selectedProducts in
        let orderData :=
          Order.mk "" (now f) selectedProducts (Some text)
            (orderNumber f) (paymentMethod formData) (receiptNumber f)
            (shippingAddress formData) OrderStatus.PENDING total (userId f)
            false None None None in
        let saved :=
          OrderService.saveOrder (save_id f) (save_now f) db orderData in
        Saved saved.1 saved.2
    end.
End NewOrderPage.

(** ** Order service: the status argument at run time *)

(** [updateOrderStatus] with the [status] argument as the value it is at
    run time: a string, or [undefined] ([None]).  A member of the enum is
    passed as its string value; the expression [OrderStatus.RETURNED], the
    enum having no such member, evaluates to [undefined]. *)
Module OrderStatusRequest.

(** The value of a member of the enum. *)
Definition of_member (s : OrderStatus.t) : option string :=
  Some (OrderStatus.value s).

(** The value of an entry of the [validTransitions] record. *)
Definition entry_value (e : option OrderStatus.t) : option string :=
  OrderStatus.value <$> e.

(** How a call fails: the three errors thrown by the function, with the
    requested value as the message shows it, and the error of [updateDoc],
    which refuses [undefined] as a field value. *)
Inductive Failure : Type :=
| OrderNotFound
| InvalidStatusTransition (from : OrderStatus.t) (to : option string)
| PaymentNotCompleted (to : option string)
| UnsupportedFieldValue.

(** [status === OrderStatus.PROCESSING || status === OrderStatus.SHIPPED ||
    status === OrderStatus.DELIVERED || status === OrderStatus.COMPLETED]. *)
Definition paymentDependent (status : option string) : bool :=
  bool_decide (status = of_member OrderStatus.PROCESSING)
  || bool_decide (status = of_member OrderStatus.SHIPPED)
  || bool_decide (status = of_member OrderStatus.DELIVERED)
  || bool_decide (status = of_member OrderStatus.COMPLETED).

(** [updateOrderStatus(id, status)].  The entry of the table that
    [includes] finds equal to [status] is the status written. *)
Definition updateOrderStatus (now : Z) (db : Firestore) (id : string)
    (status : option string) : Failure + Firestore :=
  match OrderService.getOrderById db id with
  | None => inl OrderNotFound
  | Some order =>
      match List.find (fun e => bool_decide (entry_value e = status))
                      (OrderService.validTransitions (Order.status order)) with
      | None => inl (InvalidStatusTransition (Order.status order) status)
      | Some entry =>
          if paymentDependent status && negb (Order.isPaid order)
          then inl (PaymentNotCompleted status)
          else
            match entry with
            | None => inl UnsupportedFieldValue
            | Some s =>
                inr (mkFirestore (payments db)
                       (alter (OrderService.order_status_update s now) id
                          (orders db)))
            end
      end
  end.

(** An error of the service as a failure of the call, the requested member
    shown as its value. *)
Definition of_error (e : OrderService.Error) : Failure :=
  match e with
  | OrderService.OrderNotFound => OrderNotFound
  | OrderService.InvalidStatusTransition from to =>
      InvalidStatusTransition from (of_member to)
  | OrderService.PaymentNotCompleted to => PaymentNotCompleted (of_member to)
  end.

End OrderStatusRequest.

(** ** The order transition table as the specification words it *)

(** The statuses the specification's order table names.  [RETURNED] is one
    of them, although the enum of the order service has no such member. *)
Module OrderTable.
Inductive status : Set :=
| PENDING | PROCESSING | SHIPPED | DELIVERED | COMPLETED | CANCELLED
| REFUNDED | RETURNED.

#[global] Instance status_eq_dec : EqDecision status.
Proof. solve_decision. Defined.

(** PENDING to PROCESSING or CANCELLED; PROCESSING to SHIPPED, COMPLETED
    or CANCELLED; SHIPPED to DELIVERED or RETURNED; DELIVERED to COMPLETED
    or RETURNED; COMPLETED to REFUNDED; CANCELLED and REFUNDED are
    terminal.  (The specification gives no row for RETURNED.) *)
Definition reachable (from : status) : list status :=
  match from with
  | PENDING => [PROCESSING; CANCELLED]
  | PROCESSING => [SHIPPED; COMPLETED; CANCELLED]
  | SHIPPED => [DELIVERED; RETURNED]
  | DELIVERED => [COMPLETED; RETURNED]
  | COMPLETED => [REFUNDED]
  | CANCELLED => []
  | REFUNDED => []
  | RETURNED => []
  end.

(** The statuses that require the order to be paid. *)
Definition paid_gated : list status :=
  [PROCESSING; SHIPPED; DELIVERED; COMPLETED].

(** A member of the service's enum, as a status of the table. *)
Definition of_enum (s : OrderStatus.t) : status :=
  match s with
  | OrderStatus.PENDING => PENDING
  | OrderStatus.PROCESSING => PROCESSING
  | OrderStatus.COMPLETED => COMPLETED
  | OrderStatus.CANCELLED => CANCELLED
  | OrderStatus.REFUNDED => REFUNDED
  | OrderStatus.SHIPPED => SHIPPED
  | OrderStatus.DELIVERED => DELIVERED
  end.
End OrderTable.

(** ** Sequences of payment status changes *)

Module PaymentHistory.
Import PaymentStatus.

(** [path] is a sequence of statuses a payment in status [from] goes
    through, every step being allowed by the payment service. *)
Fixpoint valid_path (from : PaymentStatus.t) (path : list PaymentStatus.t)
  : bool :=
  match path with
  | [] => true
  | s :: rest =>
      PaymentService.isValidStatusTransition from s && valid_path s rest
  end.

(** How many times the payment enters [COMPLETED] along [path].  A step
    into [COMPLETED] is an entry when the status before it is not
    [COMPLETED]. *)
Fixpoint entries_into_completed (from : PaymentStatus.t)
    (path : list PaymentStatus.t) : nat :=
  match path with
  | [] => 0%nat
  | s :: rest =>
      ((if PaymentStatus.eqb s COMPLETED && negb (PaymentStatus.eqb from COMPLETED)
        then 1 else 0) + entries_into_completed s rest)%nat
  end.

(** One call of [updatePaymentStatus]: its clock readings, the payment
    id and the requested status. *)
Record Call : Type := mkCall {
  clock : PaymentService.Clock;
  target_id : string;
  target_status : PaymentStatus.t
}.

(** The store after a sequence of calls, whatever each one reports. *)
Definition run (db : Firestore) (calls : list Call) : Firestore :=
  foldl (fun d c =>
           (PaymentService.updatePaymentStatus (clock c) d (target_id c)
              (target_status c)).1)
        db calls.
End PaymentHistory.

(** ** Consistency of orders and payments *)

Module Ledger.

(** Some payment whose [orderId] is [oid] has status COMPLETED. *)
Definition has_completed_payment (db : Firestore) (oid : string) : Prop :=
  ∃ pid p, payments db !! pid = Some p
           ∧ Payment.orderId p = oid
           ∧ Payment.status p = PaymentStatus.COMPLETED.

(** Every order is paid exactly when one of its payments is COMPLETED.
    The id of an order is the key of its document. *)
Definition paid_iff_completed (db : Firestore) : Prop :=
  ∀ oid o, orders db !! oid = Some o →
           (Order.isPaid o = true ↔ has_completed_payment db oid).

(** The same two predicates as boolean functions. *)
Definition has_completed_payment_b (db : Firestore) (oid : string) : bool :=
  existsb (fun kp => bool_decide (Payment.orderId kp.2 = oid)
                     && PaymentStatus.eqb (Payment.status kp.2)
                          PaymentStatus.COMPLETED)
          (map_to_list (payments db)).

Definition paid_iff_completed_b (db : Firestore) : bool :=
  forallb (fun ko => Bool.eqb (Order.isPaid ko.2)
                       (has_completed_payment_b db ko.1))
          (map_to_list (orders db)).

(** Some payment other than [id], linked to order [oid], is COMPLETED. *)
Definition other_completed_payment (db : Firestore) (oid id : string) : Prop :=
  ∃ pid p, pid ≠ id ∧ payments db !! pid = Some p
           ∧ Payment.orderId p = oid
           ∧ Payment.status p = PaymentStatus.COMPLETED.

(** A payment that is COMPLETED or REFUNDED, with the given [completedAt]. *)
Definition settled_at (db : Firestore) (id : string) (t : option Z) : Prop :=
  ∃ p, payments db !! id = Some p
       ∧ (Payment.status p = PaymentStatus.COMPLETED
          ∨ Payment.status p = PaymentStatus.REFUNDED)
       ∧ Payment.completedAt p = t.

(** The store in which the reconciliation runs: the payment has its new
    status, the orders are as they were. *)
Definition payment_written (clk : PaymentService.Clock) (db : Firestore)
    (id : string) (status : PaymentStatus.t) : Firestore :=
  mkFirestore
    (alter (PaymentService.payment_status_update status
              (PaymentService.now_updatedAt clk)
              (PaymentService.now_completedAt clk)) id (payments db))
    (orders db).

(** What a payment adds to the revenue. *)
Definition revenue_share (p : Payment.t) : Z :=
  if PaymentStatus.eqb (Payment.status p) PaymentStatus.COMPLETED
  then Payment.amount p else 0.

(** The amounts of the payments whose status is COMPLETED. *)
Definition completed_amounts (db : Firestore) : list Z :=
  (fun kp => Payment.amount kp.2) <$>
    filter (fun kp => Payment.status kp.2 = PaymentStatus.COMPLETED)
           (map_to_list (payments db)).

(** The sum of the numbers of a list. *)
Definition sumZ (l : list Z) : Z := foldr Z.add 0 l.

(** The sum of the revenue shares of all payments of a collection. *)
Definition total_share (m : gmap string Payment.t) : Z :=
  sumZ ((fun kp => revenue_share kp.2) <$> map_to_list m).

(** The sum over the items of price times quantity. *)
Fixpoint items_total (items : list OrderItem.t) : Z :=
  match items with
  | [] => 0
  | item :: rest =>
      OrderItem.price item * OrderItem.quantity item + items_total rest
  end.

End Ledger.

(** ** Sample data *)

Module Sample.

Definition clk : PaymentService.Clock := PaymentService.mkClock 9001 9002 9003.

Definition payment (id orderId : string) (amount : Z)
    (status : PaymentStatus.t) (completedAt : option Z) : Payment.t :=
  Payment.mk id orderId "user_1" amount "PAY-000001-0001" "cash" status 1000
    None completedAt.

Definition item (id : string) (price quantity : Z) : OrderItem.t :=
  OrderItem.mk id "" id price quantity None.

Definition cart : list OrderItem.t := [item "cue" 10 2; item "chalk" 5 1].

Definition order (id : string) (status : OrderStatus.t) (isPaid : bool)
    (paymentId : option string) : Order.t :=
  Order.mk id 1000 cart None "ORD-1000-1" "cash" "RCPT-001000" "12 Main St"
    status 25 "user_1" isPaid paymentId None None.

(** A new order with its pending payment. *)
Definition db_new : Firestore :=
  mkFirestore {[ "p1" := payment "p1" "o1" 25 PaymentStatus.PENDING None ]}
              {[ "o1" := order "o1" OrderStatus.PENDING false None ]}.

(** A paid order with its completed payment. *)
Definition db_paid : Firestore :=
  mkFirestore
    {[ "p1" := payment "p1" "o1" 25 PaymentStatus.COMPLETED (Some 2000) ]}
    {[ "o1" := order "o1" OrderStatus.PROCESSING true None ]}.

(** Order [o1] was paid by [p1], shipped, and [p1] was then refunded; its
    first payment [p2] is still pending.  Order [o2] was cancelled while
    its payment [p3] was pending. *)
Definition db_shipped_refunded : Firestore :=
  mkFirestore
    (<["p1" := payment "p1" "o1" 25 PaymentStatus.REFUNDED (Some 2000)]>
       (<["p2" := payment "p2" "o1" 25 PaymentStatus.PENDING None]>
          {[ "p3" := payment "p3" "o2" 25 PaymentStatus.PENDING None ]}))
    (<["o1" := order "o1" OrderStatus.SHIPPED true (Some "p1")]>
       {[ "o2" := order "o2" OrderStatus.CANCELLED false None ]}).

(** Order [o1] was paid by [p1] and shipped; its first payment [p2] is
    still pending.  Order [o2] is new, with its pending payment [p3]. *)
Definition db_shipped : Firestore :=
  mkFirestore
    (<["p1" := payment "p1" "o1" 25 PaymentStatus.COMPLETED (Some 2000)]>
       (<["p2" := payment "p2" "o1" 25 PaymentStatus.PENDING None]>
          {[ "p3" := payment "p3" "o2" 25 PaymentStatus.PENDING None ]}))
    (<["o1" := order "o1" OrderStatus.SHIPPED true (Some "p1")]>
       {[ "o2" := order "o2" OrderStatus.PENDING false None ]}).

(** A pending payment whose document already carries a [completedAt]. *)
Definition db_stamped : Firestore :=
  mkFirestore
    {[ "p1" := payment "p1" "o1" 25 PaymentStatus.PENDING (Some 2000) ]}
    {[ "o1" := order "o1" OrderStatus.PENDING false None ]}.

(** A refunded payment. *)
Definition db_refunded : Firestore :=
  mkFirestore
    {[ "p1" := payment "p1" "o1" 25 PaymentStatus.REFUNDED (Some 2000) ]}
    {[ "o1" := order "o1" OrderStatus.COMPLETED true None ]}.


Definition fresh : NewOrderPage.Fresh :=
  NewOrderPage.mkFresh 3000 "ORD-3000-7" "RCPT-003000" "user_3000"
    "order_3001" 3001.

End Sample.

(** ** Payment service: saving and deleting payments *)

Module PaymentWrites.
Import PaymentStatus.

(** [!n] on an optional number: an absent number and zero are falsy. *)
Definition falsy_num (n : option Z) : bool :=
  match n with
  | None => true
  | Some z => bool_decide (z = 0)
  end.

(** [savePayment(paymentData)]: [fresh_id] is the rendering of
    [payment_${Date.now()}] and [timestamp] the later reading of
    [Date.now()].  [setDoc] replaces the document under the id.  Returns
    the new store and the payment id. *)
Definition savePayment (fresh_id : string) (timestamp : Z) (db : Firestore)
    (paymentData : Payment.t) : Firestore * string :=
  let paymentId := if falsy (Payment.id paymentData) then fresh_id
                   else Payment.id paymentData in
  let updatedPayment :=
    Payment.mk paymentId (Payment.orderId paymentData)
      (Payment.userId paymentData) (Payment.amount paymentData)
      (Payment.referenceCode paymentData) (Payment.paymentMethod paymentData)
      (Payment.status paymentData)
      (if bool_decide (Payment.createdAt paymentData = 0) then timestamp
       else Payment.createdAt paymentData)
      (Some timestamp)
      (if PaymentStatus.eqb (Payment.status paymentData) COMPLETED
          && falsy_num (Payment.completedAt paymentData)
       then Some timestamp
       else Payment.completedAt paymentData) in
  (mkFirestore (<[paymentId := updatedPayment]> (payments db)) (orders db),
   paymentId).


(** What [deletePayment] reports: success ([true]), or one of the error
    toasts of its three early returns ([false]). *)
Inductive DeleteOutcome : Type :=
| Deleted
| DeleteInvalidId
| DeleteNotFound
| DeleteCompleted.

#[global] Instance DeleteOutcome_eq_dec : EqDecision DeleteOutcome.
Proof. solve_decision. Defined.

(** [deletePayment(id)]. *)
Definition deletePayment (db : Firestore) (id : string)
  : Firestore * DeleteOutcome :=
  if falsy id then (db, DeleteInvalidId)
  else
    match PaymentService.getPaymentById db id with
    | None => (db, DeleteNotFound)
    | Some payment =>
        if PaymentStatus.eqb (Payment.status payment) COMPLETED
        then (db, DeleteCompleted)
        else (mkFirestore (delete id (payments db)) (orders db), Deleted)
    end.

End PaymentWrites.

(** ** Order service: payment record, creation with payment, deletion *)

Module OrderWrites.

(** [updateDoc(orderRef, { isPaid: true, paymentId, paymentReferenceCode,
    status: OrderStatus.PROCESSING, updatedAt })] applied to an order. *)
Definition order_payment_record (paymentId paymentReferenceCode : string)
    (now : Z) (o : Order.t) : Order.t :=
  Order.mk (Order.id o) (Order.createdAt o) (Order.items o) (Order.notes o)
    (Order.orderNumber o) (Order.paymentMethod o) (Order.receiptNumber o)
    (Order.shippingAddress o)
    OrderStatus.PROCESSING
    (Order.total o) (Order.userId o)
    true
    (Some paymentId) (Some paymentReferenceCode)
    (Some now).

(** [updateOrderPayment(orderId, paymentId, paymentReferenceCode)].
    [updateDoc] fails on a document that does not exist; the function
    rethrows, which is the result [None]. *)
Definition updateOrderPayment (now : Z) (db : Firestore)
    (orderId paymentId paymentReferenceCode : string) : option Firestore :=
  match orders db !! orderId with
  | None => None
  | Some o =>
      Some (mkFirestore (payments db)
              (<[orderId := order_payment_record paymentId
                              paymentReferenceCode now o]> (orders db)))
  end.

(** The values [createOrderWithPayment] draws from the clock and the
    random generator: the generated order number and reference code, the
    renderings of [Date.now()] in the two ids, and the readings for the
    order's [createdAt], for [saveOrder] and for the payment's
    [createdAt]. *)
Record Fresh : Type := mkFresh {
  orderNumber : string;
  generatedReferenceCode : string;
  order_stamp : string;
  order_createdAt : Z;
  save_stamp : string;
  save_now : Z;
  payment_stamp : string;
  payment_createdAt : Z
}.

(** [createOrderWithPayment(orderData, paymentMethod,
    paymentReferenceCode?)].  Of [orderData] the fields [id],
    [orderNumber], [createdAt], [status], [isPaid] and
    [paymentReferenceCode] are not read: the function sets them.  Returns
    the new store and the pair of the order id and the payment id. *)
Definition createOrderWithPayment (f : Fresh) (db : Firestore)
    (orderData : Order.t) (paymentMethod : string)
    (paymentReferenceCode : option string) : Firestore * (string * string) :=
  let referenceCode :=
    match paymentReferenceCode with
    | Some code => if falsy code then generatedReferenceCode f else code
    | None => generatedReferenceCode f
    end in
  let saved :=
    OrderService.saveOrder ("order_" +:+ save_stamp f) (save_now f) db
      (Order.mk ("order_" +:+ order_stamp f) (order_createdAt f)
         (Order.items orderData) (Order.notes orderData)
         (orderNumber f) (Order.paymentMethod orderData)
         (Order.receiptNumber orderData) (Order.shippingAddress orderData)
         OrderStatus.PENDING (Order.total orderData) (Order.userId orderData)
         false (Order.paymentId orderData) (Some referenceCode)
         (Order.updatedAt orderData)) in
  let orderId := saved.2 in
  let paymentId := "payment_" +:+ payment_stamp f in
  (mkFirestore
     (<[paymentId :=
          Payment.mk paymentId orderId (Order.userId orderData)
            (Order.total orderData) referenceCode paymentMethod
            PaymentStatus.PENDING (payment_createdAt f) None None]>
        (payments saved.1))
     (orders saved.1),
   (orderId, paymentId)).

(** [deleteOrder(id)]. *)
Definition deleteOrder (db : Firestore) (id : string) : Firestore :=
  mkFirestore (payments db) (delete id (orders db)).

(** A sequence of [updateOrderStatus] calls on one order: the store after
    them and the number of calls that succeeded. *)
Fixpoint run_status_changes (db : Firestore) (id : string)
    (calls : list (Z * OrderStatus.t)) : Firestore * nat :=
  match calls with
  | [] => (db, 0%nat)
  | (now, status) :: rest =>
      match OrderService.updateOrderStatus now db id status with
      | inl _ => run_status_changes db id rest
      | inr db' =>
          let r := run_status_changes db' id rest in (r.1, S r.2)
      end
  end.

End OrderWrites.

(** ** Order creation page: the selected products *)

(** [interface Product] of the product service. *)
Module Product.
Record t : Type := mk {
  id : string;
  name : string;
  price : Z;
  description : string;
  category : string;
  imageUrl : string;
  isPopular : bool;
  isNewArrival : bool;
  isFeatured : bool;
  totalPurchases : option Z;
  createdAt : option Z;
  updatedAt : option Z
}.
End Product.

Module NewOrderCart.

(** [s.includes(needle)]: [needle] occurs in [s]. *)
Fixpoint includes (needle s : string) : bool :=
  String.prefix needle s
  || match s with
     | EmptyString => false
     | String _ rest => includes needle rest
     end.

(** [{ ...item, quantity }]. *)
Definition with_quantity (quantity : Z) (item : OrderItem.t) : OrderItem.t :=
  OrderItem.mk (OrderItem.id item) (OrderItem.imageUrl item)
    (OrderItem.name item) (OrderItem.price item) quantity
    (OrderItem.category item).

(** [handleAddProduct(productId)]: the new value of [selectedProducts]
    (unchanged on the early returns). *)
Definition handleAddProduct (products : list Product.t)
    (selectedProducts : list OrderItem.t) (productId : string)
  : list OrderItem.t :=
  if includes "$" productId then selectedProducts
  else
    match List.find (fun p => bool_decide (Product.id p = productId))
                    products with
    | None => selectedProducts
    | Some product =>
        match List.find (fun item => bool_decide (OrderItem.id item = productId))
                        selectedProducts with
        | Some existingItem =>
            (fun item =>
               if bool_decide (OrderItem.id item = productId)
               then with_quantity (OrderItem.quantity item + 1) item
               else item) <$> selectedProducts
        | None =>
            selectedProducts ++
              [OrderItem.mk (Product.id product)
                 (if falsy (Product.imageUrl product) then ""
                  else Product.imageUrl product)
                 (Product.name product) (Product.price product) 1
                 (Some (Product.category product))]
        end
    end.

(** [handleRemoveProduct(productId)]. *)
Definition handleRemoveProduct (selectedProducts : list OrderItem.t)
    (productId : string) : list OrderItem.t :=
  filter (fun item => OrderItem.id item ≠ productId) selectedProducts.

(** [handleQuantityChange(productId, quantity)]. *)
Definition handleQuantityChange (selectedProducts : list OrderItem.t)
    (productId : string) (quantity : Z) : list OrderItem.t :=
  if bool_decide (quantity < 1) then selectedProducts
  else
    (fun item =>
       if bool_decide (OrderItem.id item = productId)
       then with_quantity quantity item
       else item) <$> selectedProducts.

(** What the user does on the page. *)
Inductive Action : Type :=
| Add (productId : string)
| Remove (productId : string)
| SetQuantity (productId : string) (quantity : Z).

Definition step (products : list Product.t) (cart : list OrderItem.t)
    (a : Action) : list OrderItem.t :=
  match a with
  | Add productId => handleAddProduct products cart productId
  | Remove productId => handleRemoveProduct cart productId
  | SetQuantity productId quantity =>
      handleQuantityChange cart productId quantity
  end.

(** The selected products after a sequence of actions on the empty
    selection the page starts with. *)
Definition run (products : list Product.t) (actions : list Action)
  : list OrderItem.t :=
  foldl (step products) [] actions.

End NewOrderCart.

(** ** Payment detail page and order detail page: status changes *)

Module PaymentDetailPage.

(** [handleUpdateStatus]: the page holds the payment it loaded and the
    status picked in the selector ([None] for the empty selection).  The
    result of [updatePaymentStatus] is not read: the page's copy of the
    payment gets the new status whatever the service reports.
    [now_local] and [now_local_completed] are the two readings of
    [Date.now()] for the page's copy.  Returns the store, the page's
    payment and the selection. *)
Definition handleUpdateStatus (clk : PaymentService.Clock)
    (now_local now_local_completed : Z) (db : Firestore)
    (payment : option Payment.t) (newStatus : option PaymentStatus.t)
  : Firestore * option Payment.t * option PaymentStatus.t :=
  match payment, newStatus with
  | Some p, Some status =>
      let db' :=
        (PaymentService.updatePaymentStatus clk db (Payment.id p) status).1 in
      (db',
       Some (Payment.mk (Payment.id p) (Payment.orderId p) (Payment.userId p)
               (Payment.amount p) (Payment.referenceCode p)
               (Payment.paymentMethod p) status (Payment.createdAt p)
               (Some now_local)
               (if PaymentStatus.eqb status PaymentStatus.COMPLETED
                then Some now_local_completed else Payment.completedAt p)),
       None)
  | _, _ => (db, payment, newStatus)
  end.

End PaymentDetailPage.

Module OrderDetailPage.

(** [handleStatusChange(newStatus)]: the page's copy of the order gets the
    new status only when [updateOrderStatus] does not throw.  Returns the
    store and the page's order. *)
Definition handleStatusChange (now : Z) (db : Firestore)
    (order : option Order.t) (newStatus : OrderStatus.t)
  : Firestore * option Order.t :=
  match order with
  | None => (db, None)
  | Some o =>
      match OrderService.updateOrderStatus now db (Order.id o) newStatus with
      | inl _ => (db, Some o)
      | inr db' =>
          (db',
           Some (Order.mk (Order.id o) (Order.createdAt o) (Order.items o)
                   (Order.notes o) (Order.orderNumber o)
                   (Order.paymentMethod o) (Order.receiptNumber o)
                   (Order.shippingAddress o) newStatus (Order.total o)
                   (Order.userId o) (Order.isPaid o) (Order.paymentId o)
                   (Order.paymentReferenceCode o) (Order.updatedAt o)))
      end
  end.

End OrderDetailPage.

(** ** Payment creation page *)

Module NewPaymentPage.

(** The form of the page; [amount] is the text of the amount field. *)
Record FormData : Type := mkForm {
  orderId : string;
  amount : string;
  paymentMethod : string;
  notes : string
}.

(** The values the submit handler draws: the rendering of [Date.now()] in
    the payment id, the reference code built from the clock and the random
    generator, and the readings of [Date.now()] for the payment's
    [createdAt], inside [savePayment] (its id and its timestamp) and
    inside [updateOrderPayment]. *)
Record Fresh : Type := mkFresh {
  payment_stamp : string;
  referenceCode : string;
  now : Z;
  save_stamp : string;
  save_now : Z;
  order_now : Z
}.

(** How a submit ends: the four error toasts of the early returns, the
    error of [updateOrderPayment] caught after the payment was saved, or
    success with the id of the payment. *)
Inductive Outcome : Type :=
| RequiredFields
| NoValidOrder
| AlreadyPaid
| InvalidAmount
| OrderUpdateFailed
| Created (paymentId : string).

(** [handleSubmit].  [parseFloat] gives the number read from a text, or
    [None] for [NaN]; [selectedOrder] is the order the page loaded when
    the order was picked. *)
Definition handleSubmit (parseFloat : string → option Z) (f : Fresh)
    (db : Firestore) (formData : FormData) (selectedOrder : option Order.t)
  : Firestore * Outcome :=
  if falsy (orderId formData) || falsy (amount formData)
     || falsy (paymentMethod formData)
  then (db, RequiredFields)
  else
    match selectedOrder with
    | None => (db, NoValidOrder)
    | Some order =>
        if Order.isPaid order then (db, AlreadyPaid)
        else
          match parseFloat (amount formData) with
          | None => (db, InvalidAmount)
          | Some a =>
              if bool_decide (a ≤ 0) then (db, InvalidAmount)
              else
                let paymentData :=
                  Payment.mk ("payment_" +:+ payment_stamp f)
                    (orderId formData) (Order.userId order) a
                    (referenceCode f) (paymentMethod formData)
                    PaymentStatus.COMPLETED (now f) None None in
                let saved :=
                  PaymentWrites.savePayment ("payment_" +:+ save_stamp f)
                    (save_now f) db paymentData in
                match OrderWrites.updateOrderPayment (order_now f) saved.1
                        (orderId formData) saved.2 (referenceCode f) with
                | None => (saved.1, OrderUpdateFailed)
                | Some db' => (db', Created saved.2)
                end
          end
    end.

(** The payment document a valid submit saves. *)
Definition submitted_payment (f : Fresh) (formData : FormData)
    (selected : Order.t) (a : Z) : Payment.t :=
  Payment.mk ("payment_" +:+ payment_stamp f) (orderId formData)
    (Order.userId selected) a (referenceCode f) (paymentMethod formData)
    PaymentStatus.COMPLETED
    (if bool_decide (now f = 0) then save_now f else now f)
    (Some (save_now f)) (Some (save_now f)).

End NewPaymentPage.

(** ** User roles *)

Module UserRoles.

(** [Object.values(USER_ROLES)]. *)
Definition getAllUserRoles : list string :=
  ["admin"; "user"; "community_admin"; "player"; "fan"].

(** [isValidRole(role)]. *)
Definition isValidRole (role : string) : bool :=
  existsb (fun r => bool_decide (r = role)) getAllUserRoles.

(** [getUserRoleDisplayName(role)]. *)
Definition getUserRoleDisplayName (role : string) : string :=
  if bool_decide (role = "admin") then "Administrator"
  else if bool_decide (role = "user") then "Regular User"
  else if bool_decide (role = "community_admin") then "Community Admin"
  else if bool_decide (role = "player") then "Player"
  else if bool_decide (role = "fan") then "Fan"
  else "Unknown Role".

End UserRoles.

(** ** Analytics: orders by status *)

Module Analytics.

(** One step of the [forEach] of [getOrderStatusBreakdown] on the
    [statusData] object, whose entries are kept in insertion order: a
    status whose count is present and truthy gets one more, any other
    status gets the count 1. *)
Fixpoint count_status (status : OrderStatus.t)
    (statusData : list (OrderStatus.t * Z)) : list (OrderStatus.t * Z) :=
  match statusData with
  | [] => [(status, 1)]
  | (s, n) :: rest =>
      if OrderStatus.eqb s status
      then (s, if bool_decide (n = 0) then 1 else n + 1) :: rest
      else (s, n) :: count_status status rest
  end.

(** The grouping of a list of order documents by status. *)
Definition group_by_status (docs : list Order.t) : list (OrderStatus.t * Z) :=
  foldl (fun statusData order =>
           if falsy (OrderStatus.value (Order.status order)) then statusData
           else count_status (Order.status order) statusData)
        [] docs.

(** [getOrderStatusBreakdown]: the entries [{ name, value }]. *)
Definition getOrderStatusBreakdown (db : Firestore) : list (string * Z) :=
  (fun e => (OrderStatus.value e.1, e.2)) <$>
    group_by_status ((map_to_list (orders db)).*2).

End Analytics.

(** ** Further predicates on the store *)

Module Store.

(** The [id] field of every order document is the key of the document. *)
Definition order_ids_match (db : Firestore) : Prop :=
  ∀ k o, orders db !! k = Some o → Order.id o = k.

(** How far a status is along the life of an order. *)
Definition rank (s : OrderStatus.t) : nat :=
  match s with
  | OrderStatus.PENDING => 0
  | OrderStatus.PROCESSING => 1
  | OrderStatus.SHIPPED => 2
  | OrderStatus.DELIVERED => 3
  | OrderStatus.COMPLETED => 4
  | OrderStatus.CANCELLED => 5
  | OrderStatus.REFUNDED => 5
  end.

(** An action of an administrator on existing records. *)
Inductive AdminAction : Type :=
| SetPaymentStatus (clk : PaymentService.Clock) (id : string)
    (status : PaymentStatus.t)
| DeletePayment (id : string)
| SetOrderStatus (now : Z) (id : string) (status : OrderStatus.t).

(** The store after one action, whatever the action reports. *)
Definition admin_step (db : Firestore) (a : AdminAction) : Firestore :=
  match a with
  | SetPaymentStatus clk id status =>
      (PaymentService.updatePaymentStatus clk db id status).1
  | DeletePayment id => (PaymentWrites.deletePayment db id).1
  | SetOrderStatus now id status =>
      match OrderService.updateOrderStatus now db id status with
      | inl _ => db
      | inr db' => db'
      end
  end.

(** The action is not a refund. *)
Definition no_refund (a : AdminAction) : Prop :=
  match a with
  | SetPaymentStatus _ _ status => status ≠ PaymentStatus.REFUNDED
  | _ => True
  end.

(** The items with id [productId] get the quantity [g] computes. *)
Definition requantify (g : OrderItem.t → Z) (productId : string)
    (item : OrderItem.t) : OrderItem.t :=
  if bool_decide (OrderItem.id item = productId)
  then NewOrderCart.with_quantity (g item) item else item.

(** The count recorded for a status in the [statusData] object, 0 when the
    status has no entry. *)
Fixpoint recorded (statusData : list (OrderStatus.t * Z)) (s : OrderStatus.t)
  : Z :=
  match statusData with
  | [] => 0
  | (s', n) :: rest => if OrderStatus.eqb s' s then n else recorded rest s
  end.

(** The number of orders of a list that have the status [s]. *)
Definition orders_with_status (s : OrderStatus.t) (docs : list Order.t) : nat :=
  length (filter (fun o => Order.status o = s) docs).

(** The entries of [statusData] have distinct statuses and positive
    counts. *)
Definition status_data_ok (statusData : list (OrderStatus.t * Z)) : Prop :=
  NoDup statusData.*1 ∧ Forall (fun e => 0 < e.2) statusData.

(** The selected products have pairwise distinct ids and quantities of at
    least one. *)
Definition cart_ok (cart : list OrderItem.t) : Prop :=
  NoDup (OrderItem.id <$> cart) ∧ Forall (fun item => 1 ≤ OrderItem.quantity item) cart.

End Store.

(** ** More sample data *)

Module MoreSamples.

(** A payment entered as COMPLETED, without id and completion time. *)
Definition entered : Payment.t :=
  Payment.mk "" "o1" "user_1" 25 "PAY-000001-0001" "cash"
    PaymentStatus.COMPLETED 0 None None.

(** An order with its failed payment. *)
Definition db_failed : Firestore :=
  mkFirestore
    {[ "p1" := Sample.payment "p1" "o1" 25 PaymentStatus.FAILED None ]}
    {[ "o1" := Sample.order "o1" OrderStatus.PENDING false None ]}.

(** What an administrator does to the records of [Sample.db_shipped]. *)
Definition actions : list Store.AdminAction :=
  [Store.SetPaymentStatus Sample.clk "p2" PaymentStatus.FAILED;
   Store.DeletePayment "p2";
   Store.SetOrderStatus 9200 "o1" OrderStatus.DELIVERED;
   Store.SetPaymentStatus Sample.clk "p3" PaymentStatus.COMPLETED].

(** The values drawn by [createOrderWithPayment]. *)
Definition fresh : OrderWrites.Fresh :=
  OrderWrites.mkFresh "ORD-7000-3" "PAY-007000-0042" "7000" 7000 "7001" 7001
    "7002" 7002.

(** The order data handed to [createOrderWithPayment]. *)
Definition orderData : Order.t :=
  Order.mk "" 0 Sample.cart None "" "cash" "RCPT-007000" "12 Main St"
    OrderStatus.PENDING 25 "user_7" false None None None.

(** The payment form filled in for order [o1], and the values drawn on
    submit. *)
Definition paymentForm : NewPaymentPage.FormData :=
  NewPaymentPage.mkForm "o1" "25" "credit_card" "".

Definition paymentFresh : NewPaymentPage.Fresh :=
  NewPaymentPage.mkFresh "8000" "PAY-8000-007" 8000 "8001" 8001 8002.

(** A reading of the amount field that knows the text ["25"]. *)
Definition parseFloat (text : string) : option Z :=
  if bool_decide (text = "25") then Some 25 else None.

(** A store with the unpaid order [o1] and no payment. *)
Definition db_unpaid : Firestore :=
  mkFirestore ∅ {[ "o1" := Sample.order "o1" OrderStatus.PENDING false None ]}.

(** Status changes asked for an order, some of them out of turn. *)
Definition status_calls : list (Z * OrderStatus.t) :=
  [(9300, OrderStatus.SHIPPED); (9301, OrderStatus.PROCESSING);
   (9302, OrderStatus.DELIVERED); (9303, OrderStatus.COMPLETED);
   (9304, OrderStatus.REFUNDED); (9305, OrderStatus.PENDING)].

End MoreSamples.

(** * Properties *)

Import PaymentService Ledger.

(** ** Basic facts about the payment service *)

Lemma falsy_false (s : string) : s ≠ "" → falsy s = false.
Proof. intros H. unfold falsy. by rewrite bool_decide_eq_false_2. Qed.

Lemma falsy_true_iff (s : string) : falsy s = true ↔ s = "".
Proof. unfold falsy. by rewrite bool_decide_eq_true. Qed.

Lemma payment_eqb_eq (a b : PaymentStatus.t) :
  PaymentStatus.eqb a b = true ↔ a = b.
Proof. unfold PaymentStatus.eqb. by rewrite bool_decide_eq_true. Qed.

Lemma payment_eqb_refl (a : PaymentStatus.t) : PaymentStatus.eqb a a = true.
Proof. by apply payment_eqb_eq. Qed.

Lemma isValidStatusTransition_spec (from to : PaymentStatus.t) :
  isValidStatusTransition from to = true ↔ to ∈ validTransitions from.
Proof.
  unfold isValidStatusTransition. rewrite existsb_exists. split.
  - intros (x & Hin & Heq). apply payment_eqb_eq in Heq. subst x.
    by apply list_elem_of_In.
  - intros Hin. exists to. split; [by apply list_elem_of_In|].
    apply payment_eqb_refl.
Qed.

Lemma getPaymentById_Some (db : Firestore) (id : string) (p : Payment.t) :
  id ≠ "" → payments db !! id = Some p →
  getPaymentById db id = Some (Payment.with_id id p).
Proof.
  intros Hid Hp. unfold getPaymentById. rewrite (falsy_false _ Hid).
  by rewrite Hp.
Qed.

Lemma updateOrderPaymentStatus_payments now db orderId isPaid :
  payments (updateOrderPaymentStatus now db orderId isPaid).1 = payments db.
Proof.
  unfold updateOrderPaymentStatus.
  destruct (falsy orderId); [done|]. by destruct (orders db !! orderId).
Qed.

(** A rejected call leaves the whole store as it was. *)
Lemma updatePaymentStatus_rejected clk db id status :
  (updatePaymentStatus clk db id status).2 ≠ Updated →
  (updatePaymentStatus clk db id status).1 = db.
Proof.
  unfold updatePaymentStatus.
  destruct (falsy id); [done|].
  destruct (getPaymentById db id) as [payment|]; [|done].
  destruct (negb (isValidStatusTransition _ _)); [done|].
  destruct (PaymentStatus.eqb status PaymentStatus.COMPLETED); [done|].
  destruct (_ || _); [|done].
  by destruct (negb (hasCompletedPayment _ _ _)).
Qed.

(** What an accepted call does to the payments collection. *)
Lemma updatePaymentStatus_payments clk db id status :
  (updatePaymentStatus clk db id status).2 = Updated →
  payments (updatePaymentStatus clk db id status).1
  = alter (payment_status_update status (now_updatedAt clk)
             (now_completedAt clk)) id (payments db).
Proof.
  unfold updatePaymentStatus.
  destruct (falsy id); [done|].
  destruct (getPaymentById db id) as [payment|]; [|done].
  destruct (negb (isValidStatusTransition _ _)); [done|].
  destruct (PaymentStatus.eqb status PaymentStatus.COMPLETED).
  { intros _. cbn [fst]. by rewrite updateOrderPaymentStatus_payments. }
  destruct (_ || _); [|done].
  destruct (negb (hasCompletedPayment _ _ _)); [|done].
  intros _. cbn [fst]. by rewrite updateOrderPaymentStatus_payments.
Qed.

(** An accepted call was asked for a status the table allows. *)
Lemma updatePaymentStatus_accepted clk db id status :
  (updatePaymentStatus clk db id status).2 = Updated →
  id ≠ "" ∧ ∃ p, payments db !! id = Some p
                 ∧ isValidStatusTransition (Payment.status p) status = true.
Proof.
  unfold updatePaymentStatus, getPaymentById.
  destruct (falsy id) eqn:Hid; [done|].
  destruct (payments db !! id) as [p|] eqn:Hp; [|done]. cbn.
  destruct (isValidStatusTransition (Payment.status p) status) eqn:Hv; [|done].
  intros _. split; [|by exists p].
  intros ->. by rewrite (proj2 (falsy_true_iff "")) in Hid.
Qed.

(** ** Rejected payment transitions *)

(** C5. For a stored payment and a target status that the payment service's
    table does not list for the payment's current status,
    [updatePaymentStatus] reports the invalid-transition error and returns
    the store as it was, the payment record included; for a payment in
    status REFUNDED this happens for every target status. *)
Theorem updatePaymentStatus_unreachable_rejected
    (clk : Clock) (db : Firestore) (id : string) (p : Payment.t) :
  id ≠ "" →
  payments db !! id = Some p →
  (∀ target : PaymentStatus.t,
     target ∉ validTransitions (Payment.status p) →
     updatePaymentStatus clk db id target
     = (db, InvalidStatusTransition (Payment.status p) target)
     ∧ returned (updatePaymentStatus clk db id target).2 = false
     ∧ payments (updatePaymentStatus clk db id target).1 !! id = Some p)
  ∧ (Payment.status p = PaymentStatus.REFUNDED →
     ∀ target : PaymentStatus.t,
       updatePaymentStatus clk db id target
       = (db, InvalidStatusTransition PaymentStatus.REFUNDED target)).
Proof.
  intros Hid Hp.
  assert (Hrej : ∀ target, target ∉ validTransitions (Payment.status p) →
            updatePaymentStatus clk db id target
            = (db, InvalidStatusTransition (Payment.status p) target)).
  { intros target Hnot. unfold updatePaymentStatus.
    rewrite (falsy_false _ Hid), (getPaymentById_Some _ _ _ Hid Hp). cbn.
    destruct (isValidStatusTransition (Payment.status p) target) eqn:Hv; [|done].
    by apply isValidStatusTransition_spec in Hv. }
  split.
  - intros target Hnot. rewrite (Hrej target Hnot). by cbn.
  - intros Hst target. rewrite <- Hst. apply Hrej. rewrite Hst. cbn.
    apply not_elem_of_nil.
Qed.

(** ** The two payment transition tables *)

(** C9, as stated, fails: the service and the page also disagree on
    FAILED to CANCELLED, which the service allows and the page does not
    offer. *)
Lemma payment_tables_differ_beyond_failed_processing :
  ¬ (∀ from to : PaymentStatus.t,
       isValidStatusTransition from to ≠ PaymentDetailClient.offers from to →
       from = PaymentStatus.FAILED ∧ to = PaymentStatus.PROCESSING).
Proof.
  intros H.
  destruct (H PaymentStatus.FAILED PaymentStatus.CANCELLED) as [_ Hto];
    [by vm_compute | discriminate Hto].
Qed.

(** C9, amended. The payment service's table and the payment detail page's
    [getValidStatusTransitions] allow the same transitions, except for the
    two out of FAILED: the page offers FAILED to PROCESSING, which the
    service rejects, and the service allows FAILED to CANCELLED, which the
    page does not offer. *)
Theorem payment_tables_agree_except_from_failed :
  (∀ from to : PaymentStatus.t,
     isValidStatusTransition from to ≠ PaymentDetailClient.offers from to
     ↔ from = PaymentStatus.FAILED
       ∧ (to = PaymentStatus.PROCESSING ∨ to = PaymentStatus.CANCELLED))
  ∧ isValidStatusTransition PaymentStatus.FAILED PaymentStatus.PROCESSING = false
  ∧ PaymentDetailClient.offers PaymentStatus.FAILED PaymentStatus.PROCESSING = true
  ∧ isValidStatusTransition PaymentStatus.FAILED PaymentStatus.CANCELLED = true
  ∧ PaymentDetailClient.offers PaymentStatus.FAILED PaymentStatus.CANCELLED = false.
Proof.
  split; [|by vm_compute].
  intros from to. split.
  - destruct from, to; vm_compute; intros H; try (by destruct H); auto.
  - intros [-> [-> | ->]]; by vm_compute.
Qed.

(** ** Paths of the payment state machine *)

Section Paths.
Import PaymentStatus PaymentHistory.

Lemma no_entry_after_refunded path :
  valid_path REFUNDED path = true → entries_into_completed REFUNDED path = 0%nat.
Proof. destruct path as [|s rest]; [done|]. by destruct s. Qed.

Lemma no_entry_after_completed path :
  valid_path COMPLETED path = true → entries_into_completed COMPLETED path = 0%nat.
Proof.
  destruct path as [|s rest]; [done|].
  destruct s; try done. cbn. apply no_entry_after_refunded.
Qed.

Lemma at_most_one_entry from path :
  valid_path from path = true → (entries_into_completed from path ≤ 1)%nat.
Proof.
  revert from. induction path as [|s rest IH]; intros from; [cbn; lia|].
  cbn [valid_path entries_into_completed].
  intros [Hstep Hrest]%andb_true_iff.
  destruct (decide (s = COMPLETED)) as [->|Hs].
  - rewrite (no_entry_after_completed rest Hrest).
    destruct (_ && _); lia.
  - assert (PaymentStatus.eqb s COMPLETED = false) as ->
      by (unfold PaymentStatus.eqb; by rewrite bool_decide_eq_false_2).
    cbn. by apply IH.
Qed.

(** The only exit from COMPLETED is REFUNDED, and REFUNDED has none. *)
Lemma exits_of_completed :
  validTransitions COMPLETED = [REFUNDED] ∧ validTransitions REFUNDED = [].
Proof. done. Qed.
End Paths.

Lemma settled_at_step clk db id t id' status :
  settled_at db id t →
  settled_at (updatePaymentStatus clk db id' status).1 id t.
Proof.
  intros (p & Hp & Hst & Ht).
  destruct (decide ((updatePaymentStatus clk db id' status).2 = Updated))
    as [Hok|Hrej].
  2:{ rewrite (updatePaymentStatus_rejected _ _ _ _ Hrej). by exists p. }
  unfold settled_at. rewrite (updatePaymentStatus_payments _ _ _ _ Hok).
  destruct (decide (id' = id)) as [->|Hne].
  - apply updatePaymentStatus_accepted in Hok as (_ & q & Hq & Hv).
    rewrite Hp in Hq. injection Hq as <-.
    rewrite lookup_alter_eq, Hp. cbn. eexists. split; [done|]. cbn.
    destruct Hst as [Hst|Hst]; rewrite Hst in Hv; destruct status; try done.
    split; [by right|done].
  - rewrite lookup_alter_ne by done. by exists p.
Qed.

Lemma settled_at_run db id t calls :
  settled_at db id t → settled_at (PaymentHistory.run db calls) id t.
Proof.
  revert db. induction calls as [|c calls IH]; intros db H; [done|].
  cbn. apply IH. by apply settled_at_step.
Qed.

(** C10. Along every sequence of transitions the payment service allows,
    starting from PENDING, a payment enters COMPLETED at most once: the
    only status listed after COMPLETED is REFUNDED, which lists none.  So
    once a call of [updatePaymentStatus] has moved a payment into COMPLETED
    and written [completedAt], the payment keeps that [completedAt] through
    every later sequence of calls. *)
Theorem completedAt_written_once :
  (∀ path : list PaymentStatus.t,
     PaymentHistory.valid_path PaymentStatus.PENDING path = true →
     (PaymentHistory.entries_into_completed PaymentStatus.PENDING path ≤ 1)%nat)
  ∧ validTransitions PaymentStatus.COMPLETED = [PaymentStatus.REFUNDED]
  ∧ validTransitions PaymentStatus.REFUNDED = []
  ∧ (∀ (clk : Clock) (db : Firestore) (id : string)
       (calls : list PaymentHistory.Call),
       (updatePaymentStatus clk db id PaymentStatus.COMPLETED).2 = Updated →
       ∃ p, payments
              (PaymentHistory.run
                 (updatePaymentStatus clk db id PaymentStatus.COMPLETED).1
                 calls) !! id = Some p
            ∧ Payment.completedAt p = Some (now_completedAt clk)).
Proof.
  split; [intros path; apply at_most_one_entry|].
  split; [done|]. split; [done|].
  intros clk db id calls Hok.
  assert (Hset : settled_at (updatePaymentStatus clk db id PaymentStatus.COMPLETED).1
                   id (Some (now_completedAt clk))).
  { unfold settled_at. rewrite (updatePaymentStatus_payments _ _ _ _ Hok).
    apply updatePaymentStatus_accepted in Hok as (_ & q & Hq & _).
    rewrite lookup_alter_eq, Hq. cbn. eexists. split; [done|]. cbn. by split; [left|]. }
  destruct (settled_at_run _ _ _ calls Hset) as (p & Hp & _ & Ht).
  by exists p.
Qed.

(** ** Order status changes *)

Section OrderStatusChange.
Import OrderService.

Lemma isValidOrderStatusTransition_table (from to : OrderStatus.t) :
  isValidOrderStatusTransition from to = true
  ↔ OrderTable.of_enum to ∈ OrderTable.reachable (OrderTable.of_enum from).
Proof.
  rewrite <- (bool_decide_eq_true (_ ∈ _)).
  destruct from, to; by vm_compute.
Qed.

Lemma paymentDependent_table (to : OrderStatus.t) :
  paymentDependent to = true ↔ OrderTable.of_enum to ∈ OrderTable.paid_gated.
Proof.
  rewrite <- (bool_decide_eq_true (_ ∈ _)).
  destruct to; by vm_compute.
Qed.

Lemma updateOrderStatus_cases now db id order status :
  getOrderById db id = Some order →
  updateOrderStatus now db id status
  = if isValidOrderStatusTransition (Order.status order) status
    then if paymentDependent status && negb (Order.isPaid order)
         then inl (PaymentNotCompleted status)
         else inr (mkFirestore (payments db)
                     (alter (order_status_update status now) id (orders db)))
    else inl (InvalidStatusTransition (Order.status order) status).
Proof.
  intros Hget. unfold updateOrderStatus. rewrite Hget.
  by destruct (isValidOrderStatusTransition _ _).
Qed.

Lemma order_messages_distinct (from to to' : OrderStatus.t) :
  message (InvalidStatusTransition from to) ≠ message (PaymentNotCompleted to').
Proof. cbn. discriminate. Qed.

End OrderStatusChange.

(** Requests for a member of the enum.  For a stored order,
    [updateOrderStatus] succeeds exactly when the
    requested status is listed for the order's current status in the table
    PENDING to PROCESSING or CANCELLED, PROCESSING to SHIPPED, COMPLETED or
    CANCELLED, SHIPPED to DELIVERED or RETURNED, DELIVERED to COMPLETED or
    RETURNED, COMPLETED to REFUNDED, nothing from CANCELLED or REFUNDED,
    and the order is paid whenever the requested status is PROCESSING,
    SHIPPED, DELIVERED or COMPLETED.  A status outside the table is refused
    with the invalid-transition error; a status inside it that needs
    payment is refused, for an unpaid order, with the payment error, which
    is another error with another message.  On success the order carries
    the requested status.  The requested status ranges over the members of
    the service's enum, of which RETURNED is not one; requests for RETURNED
    are treated with the status argument at run time, further down. *)
Lemma updateOrderStatus_outcome
    (now : Z) (db : Firestore) (id : string) (order : Order.t)
    (status : OrderStatus.t) :
  OrderService.getOrderById db id = Some order →
  let from := OrderTable.of_enum (Order.status order) in
  let to := OrderTable.of_enum status in
  ((∃ db', OrderService.updateOrderStatus now db id status = inr db')
   ↔ to ∈ OrderTable.reachable from
     ∧ ¬ (to ∈ OrderTable.paid_gated ∧ Order.isPaid order = false))
  ∧ (to ∉ OrderTable.reachable from →
     OrderService.updateOrderStatus now db id status
     = inl (OrderService.InvalidStatusTransition (Order.status order) status))
  ∧ (to ∈ OrderTable.reachable from →
     to ∈ OrderTable.paid_gated → Order.isPaid order = false →
     OrderService.updateOrderStatus now db id status
     = inl (OrderService.PaymentNotCompleted status))
  ∧ (to ∈ OrderTable.reachable from →
     ¬ (to ∈ OrderTable.paid_gated ∧ Order.isPaid order = false) →
     ∃ db' o', OrderService.updateOrderStatus now db id status = inr db'
               ∧ orders db' !! id = Some o'
               ∧ Order.status o' = status
               ∧ Order.isPaid o' = Order.isPaid order
               ∧ payments db' = payments db)
  ∧ OrderService.message
      (OrderService.InvalidStatusTransition (Order.status order) status)
    ≠ OrderService.message (OrderService.PaymentNotCompleted status).
Proof.
  intros Hget from to.
  pose proof (isValidOrderStatusTransition_table (Order.status order) status) as Hv.
  pose proof (paymentDependent_table status) as Hg.
  fold from to in Hv, Hg.
  pose proof (updateOrderStatus_cases now db id order status Hget) as Hcases.
  destruct (OrderService.isValidOrderStatusTransition _ _) eqn:Ev.
  2:{ assert (Hn : to ∉ OrderTable.reachable from)
        by (intros Hin; apply Hv in Hin; discriminate).
      rewrite Hcases.
      split; [split; [intros [? ?]; discriminate | intros [? _]; done]|].
      split; [done|]. split; [done|]. split; [done|].
      apply order_messages_distinct. }
  assert (Hin : to ∈ OrderTable.reachable from) by (by apply Hv).
  destruct (OrderService.paymentDependent status && negb (Order.isPaid order))
    eqn:Eg.
  - apply andb_true_iff in Eg as [Eg Ep]. apply negb_true_iff in Ep.
    assert (Hgt : to ∈ OrderTable.paid_gated) by (by apply Hg).
    rewrite Hcases.
    split; [split; [intros [? ?]; discriminate | intros [_ Hc]; by destruct Hc]|].
    split; [done|]. split; [done|].
    split; [intros _ Hc; by destruct Hc|].
    apply order_messages_distinct.
  - assert (Hfree : ¬ (to ∈ OrderTable.paid_gated ∧ Order.isPaid order = false)).
    { intros [Hc Hp]. apply Hg in Hc. rewrite Hc, Hp in Eg. discriminate. }
    rewrite Hcases.
    split; [split; [done | intros _; by eexists]|].
    split; [done|]. split; [intros _ Hc Hp; by destruct Hfree|].
    split; [|apply order_messages_distinct].
    intros _ _. do 2 eexists. split; [done|]. cbn.
    unfold OrderService.getOrderById in Hget.
    by rewrite lookup_alter_eq, Hget.
Qed.

(** ** The status argument at run time *)

Section OrderStatusRequests.

Lemma find_member (from s : OrderStatus.t) :
  List.find
    (fun e => bool_decide (OrderStatusRequest.entry_value e
                           = OrderStatusRequest.of_member s))
    (OrderService.validTransitions from)
  = if OrderService.isValidOrderStatusTransition from s then Some (Some s)
    else None.
Proof. destruct from, s; vm_compute; reflexivity. Qed.

Lemma paymentDependent_member (s : OrderStatus.t) :
  OrderStatusRequest.paymentDependent (OrderStatusRequest.of_member s)
  = OrderService.paymentDependent s.
Proof. destruct s; vm_compute; reflexivity. Qed.

(** A request for a member of the enum does what [OrderService] says. *)
Lemma updateOrderStatus_member now db id (s : OrderStatus.t) :
  OrderStatusRequest.updateOrderStatus now db id
    (OrderStatusRequest.of_member s)
  = match OrderService.updateOrderStatus now db id s with
    | inl e => inl (OrderStatusRequest.of_error e)
    | inr db' => inr db'
    end.
Proof.
  unfold OrderStatusRequest.updateOrderStatus, OrderService.updateOrderStatus.
  destruct (OrderService.getOrderById db id) as [order|]; [|done].
  rewrite find_member, paymentDependent_member.
  destruct (OrderService.isValidOrderStatusTransition _ _); cbn; [|done].
  by destruct (_ && _).
Qed.

Lemma find_entry_value status entries entry :
  List.find (fun e => bool_decide (OrderStatusRequest.entry_value e = status))
    entries = Some entry →
  OrderStatusRequest.entry_value entry = status.
Proof.
  intros Hf. apply find_some in Hf as [_ Hf].
  by apply bool_decide_eq_true in Hf.
Qed.

(** Only a member of the enum is ever accepted. *)
Lemma updateOrderStatus_accepted_member now db id status db' :
  OrderStatusRequest.updateOrderStatus now db id status = inr db' →
  ∃ s, status = OrderStatusRequest.of_member s.
Proof.
  unfold OrderStatusRequest.updateOrderStatus.
  destruct (OrderService.getOrderById db id) as [order|]; [|done].
  destruct (List.find _ _) as [entry|] eqn:Hf; [|done].
  destruct (_ && _); [done|]. destruct entry as [s|]; [|done].
  intros _. exists s. apply find_entry_value in Hf. by rewrite <- Hf.
Qed.

Lemma returned_not_listed (from : OrderStatus.t) :
  List.find
    (fun e => bool_decide (OrderStatusRequest.entry_value e = Some "returned"))
    (OrderService.validTransitions from) = None.
Proof. destruct from; vm_compute; reflexivity. Qed.

Lemma undefined_listed (from : OrderStatus.t) (status : option string) :
  status = None →
  from = OrderStatus.SHIPPED ∨ from = OrderStatus.DELIVERED →
  List.find
    (fun e => bool_decide (OrderStatusRequest.entry_value e = status))
    (OrderService.validTransitions from) = Some None.
Proof. intros -> [-> | ->]; vm_compute; reflexivity. Qed.

End OrderStatusRequests.

(** C4. For a stored order and a request for one of the seven members of
    the enum, [updateOrderStatus] behaves as the claim says: it succeeds
    exactly when the requested status is listed for the order's current
    status in the claim's table and the order is paid whenever the
    requested status is PROCESSING, SHIPPED, DELIVERED or COMPLETED; a
    status outside the table is refused with the invalid-transition error,
    and a listed status that needs payment is refused, for an unpaid order,
    with the payment error.  For RETURNED the code departs from the claim.
    The claim's table lists RETURNED after SHIPPED and DELIVERED, and it
    needs no payment; the table of the code lists [OrderStatus.RETURNED]
    there too, but the enum has no such member.  So for an order that is
    SHIPPED or DELIVERED, the request for the string ['returned'] is
    refused with the invalid-transition error, the request for the value of
    [OrderStatus.RETURNED], which is [undefined], passes both checks and
    fails at the write, and no request whatever makes the order RETURNED:
    every accepted request is for one of the seven members. *)
Theorem updateOrderStatus_refuses_returned
    (now : Z) (db : Firestore) (id : string) (order : Order.t) :
  OrderService.getOrderById db id = Some order →
  let from := OrderTable.of_enum (Order.status order) in
  (∀ status,
     (∃ db', OrderStatusRequest.updateOrderStatus now db id status = inr db')
     ↔ ∃ s, status = OrderStatusRequest.of_member s
            ∧ OrderTable.of_enum s ∈ OrderTable.reachable from
            ∧ ¬ (OrderTable.of_enum s ∈ OrderTable.paid_gated
                 ∧ Order.isPaid order = false))
  ∧ (∀ s, OrderTable.of_enum s ∉ OrderTable.reachable from →
          OrderStatusRequest.updateOrderStatus now db id
            (OrderStatusRequest.of_member s)
          = inl (OrderStatusRequest.InvalidStatusTransition
                   (Order.status order) (OrderStatusRequest.of_member s)))
  ∧ (∀ s, OrderTable.of_enum s ∈ OrderTable.reachable from →
          OrderTable.of_enum s ∈ OrderTable.paid_gated →
          Order.isPaid order = false →
          OrderStatusRequest.updateOrderStatus now db id
            (OrderStatusRequest.of_member s)
          = inl (OrderStatusRequest.PaymentNotCompleted
                   (OrderStatusRequest.of_member s)))
  ∧ (Order.status order = OrderStatus.SHIPPED
     ∨ Order.status order = OrderStatus.DELIVERED →
     OrderTable.RETURNED ∈ OrderTable.reachable from
     ∧ (OrderTable.RETURNED ∉ OrderTable.paid_gated)
     ∧ None ∈ OrderService.validTransitions (Order.status order)
     ∧ OrderStatusRequest.updateOrderStatus now db id (Some "returned")
       = inl (OrderStatusRequest.InvalidStatusTransition
                (Order.status order) (Some "returned"))
     ∧ OrderStatusRequest.updateOrderStatus now db id None
       = inl OrderStatusRequest.UnsupportedFieldValue
     ∧ ∀ status db' o',
         OrderStatusRequest.updateOrderStatus now db id status = inr db' →
         orders db' !! id = Some o' →
         ∃ s, status = OrderStatusRequest.of_member s
              ∧ Order.status o' = s
              ∧ OrderTable.of_enum (Order.status o') ≠ OrderTable.RETURNED).
Proof.
  intros Hget from.
  assert (Hmember : ∀ s,
    OrderStatusRequest.updateOrderStatus now db id
      (OrderStatusRequest.of_member s)
    = if OrderService.isValidOrderStatusTransition (Order.status order) s
      then if OrderService.paymentDependent s && negb (Order.isPaid order)
           then inl (OrderStatusRequest.PaymentNotCompleted
                       (OrderStatusRequest.of_member s))
           else inr (mkFirestore (payments db)
                       (alter (OrderService.order_status_update s now) id
                          (orders db)))
      else inl (OrderStatusRequest.InvalidStatusTransition
                  (Order.status order) (OrderStatusRequest.of_member s))).
  { intros s.
    rewrite updateOrderStatus_member,
      (updateOrderStatus_cases now db id order s Hget).
    destruct (OrderService.isValidOrderStatusTransition _ _); [|done].
    by destruct (_ && _). }
  assert (Htable : ∀ s,
    OrderService.isValidOrderStatusTransition (Order.status order) s = true
    ↔ OrderTable.of_enum s ∈ OrderTable.reachable from)
    by (intros s; apply isValidOrderStatusTransition_table).
  assert (Hgate : ∀ s,
    OrderService.paymentDependent s && negb (Order.isPaid order) = true
    ↔ OrderTable.of_enum s ∈ OrderTable.paid_gated
      ∧ Order.isPaid order = false).
  { intros s. rewrite andb_true_iff, negb_true_iff.
    by rewrite paymentDependent_table. }
  split_and!.
  - intros status. split.
    + intros [db' Hrun].
      destruct (updateOrderStatus_accepted_member _ _ _ _ _ Hrun) as [s ->].
      exists s. split; [done|]. rewrite Hmember in Hrun.
      destruct (OrderService.isValidOrderStatusTransition _ _) eqn:Ev;
        [|done].
      split; [by apply Htable|].
      intros Hc. apply Hgate in Hc. by rewrite Hc in Hrun.
    + intros (s & -> & Hin & Hfree). rewrite Hmember.
      apply Htable in Hin. rewrite Hin.
      destruct (_ && _) eqn:Eg; [|by eexists].
      by apply Hgate in Eg.
  - intros s Hn. rewrite Hmember.
    destruct (OrderService.isValidOrderStatusTransition _ _) eqn:Ev; [|done].
    by apply Htable in Ev.
  - intros s Hin Hg Hp. rewrite Hmember.
    apply Htable in Hin. rewrite Hin.
    assert (Eg : OrderService.paymentDependent s && negb (Order.isPaid order)
                 = true) by (by apply Hgate).
    by rewrite Eg.
  - intros Hst. split_and!.
    + subst from. destruct Hst as [-> | ->]; compute_done.
    + compute_done.
    + destruct Hst as [-> | ->]; compute_done.
    + unfold OrderStatusRequest.updateOrderStatus.
      by rewrite Hget, returned_not_listed.
    + unfold OrderStatusRequest.updateOrderStatus.
      by rewrite Hget, (undefined_listed _ None eq_refl Hst).
    + intros status db' o' Hrun Ho'.
      destruct (updateOrderStatus_accepted_member _ _ _ _ _ Hrun) as [s ->].
      exists s. split; [done|]. rewrite Hmember in Hrun.
      destruct (OrderService.isValidOrderStatusTransition _ _); [|done].
      destruct (_ && _); [done|]. injection Hrun as <-.
      cbn in Ho'. unfold OrderService.getOrderById in Hget.
      rewrite lookup_alter_eq, Hget in Ho'. injection Ho' as <-. cbn.
      split; [done|]. by destruct s.
Qed.

(** ** Reconciliation of an order with its payments *)

Lemma has_completed_payment_b_spec db oid :
  has_completed_payment_b db oid = true ↔ has_completed_payment db oid.
Proof.
  unfold has_completed_payment_b, has_completed_payment.
  rewrite existsb_exists. split.
  - intros ([k p] & Hin & H). cbn in H.
    apply andb_true_iff in H as [Ho Hs].
    apply bool_decide_eq_true in Ho. apply payment_eqb_eq in Hs.
    exists k, p. split; [|done].
    by apply elem_of_map_to_list, list_elem_of_In.
  - intros (k & p & Hp & Ho & Hs). exists (k, p). split.
    + by apply list_elem_of_In, elem_of_map_to_list.
    + cbn. rewrite Hs, payment_eqb_refl, andb_true_r.
      by apply bool_decide_eq_true.
Qed.

Lemma paid_iff_completed_b_spec db :
  paid_iff_completed_b db = true ↔ paid_iff_completed db.
Proof.
  unfold paid_iff_completed_b, paid_iff_completed.
  rewrite forallb_forall. split.
  - intros H oid o Ho.
    specialize (H (oid, o)). cbn in H.
    rewrite <- has_completed_payment_b_spec.
    assert (Hin : In (oid, o) (map_to_list (orders db)))
      by (by apply list_elem_of_In, elem_of_map_to_list).
    apply H, eqb_prop in Hin. by rewrite Hin.
  - intros H [oid o] Hin. cbn.
    apply list_elem_of_In, elem_of_map_to_list in Hin.
    specialize (H oid o Hin). rewrite <- has_completed_payment_b_spec in H.
    destruct (Order.isPaid o), (has_completed_payment_b db oid); cbn;
      try done; by apply H.
Qed.

Lemma hasCompletedPayment_spec db oid id :
  oid ≠ "" →
  hasCompletedPayment db oid id = true ↔ other_completed_payment db oid id.
Proof.
  intros Hoid. unfold hasCompletedPayment, getPaymentsByOrderId.
  rewrite (falsy_false _ Hoid), existsb_exists. split.
  - intros (q & Hin & H).
    apply list_elem_of_In, list_elem_of_fmap in Hin as ([k p] & -> & Hin).
    apply list_elem_of_filter in Hin as [Ho Hin]. cbn in *.
    apply elem_of_map_to_list in Hin.
    apply andb_true_iff in H as [Hne Hs].
    apply negb_true_iff, bool_decide_eq_false in Hne.
    apply payment_eqb_eq in Hs. by exists k, p.
  - intros (k & p & Hne & Hp & Ho & Hs).
    exists (Payment.with_id k p). split.
    + apply list_elem_of_In, list_elem_of_fmap. exists (k, p). split; [done|].
      apply list_elem_of_filter. split; [done|]. by apply elem_of_map_to_list.
    + cbn. rewrite Hs, payment_eqb_refl, andb_true_r.
      by apply negb_true_iff, bool_decide_eq_false.
Qed.

Lemma hasCompletedPayment_no_order db id : hasCompletedPayment db "" id = false.
Proof. done. Qed.

Lemma updateOrderPaymentStatus_orders now db orderId isPaid :
  orders (updateOrderPaymentStatus now db orderId isPaid).1
  = if falsy orderId then orders db
    else match orders db !! orderId with
         | None => orders db
         | Some o => <[orderId := order_payment_update isPaid now o]> (orders db)
         end.
Proof.
  unfold updateOrderPaymentStatus.
  destruct (falsy orderId); [done|]. by destruct (orders db !! orderId).
Qed.

(** A call for a status the table allows is accepted, and this is what it
    computes. *)
Lemma updatePaymentStatus_valid clk db id p status :
  id ≠ "" → payments db !! id = Some p →
  isValidStatusTransition (Payment.status p) status = true →
  updatePaymentStatus clk db id status
  = (let db1 := payment_written clk db id status in
     if PaymentStatus.eqb status PaymentStatus.COMPLETED then
       (updateOrderPaymentStatus (now_order clk) db1 (Payment.orderId p) true).1
     else if PaymentStatus.eqb status PaymentStatus.FAILED
             || PaymentStatus.eqb status PaymentStatus.CANCELLED then
       if hasCompletedPayment db1 (Payment.orderId p) id then db1
       else (updateOrderPaymentStatus (now_order clk) db1
               (Payment.orderId p) false).1
     else db1,
     Updated).
Proof.
  intros Hid Hp Hv. unfold updatePaymentStatus.
  rewrite (falsy_false _ Hid), (getPaymentById_Some _ _ _ Hid Hp). cbn.
  rewrite Hv. cbn. fold (payment_written clk db id status).
  destruct (PaymentStatus.eqb status PaymentStatus.COMPLETED); [done|].
  destruct (_ || _); [|done].
  by destruct (hasCompletedPayment _ _ _).
Qed.

(** Writing the new status of payment [id] does not change which other
    payments are COMPLETED. *)
Lemma other_completed_payment_written clk db id status oid :
  other_completed_payment (payment_written clk db id status) oid id
  ↔ other_completed_payment db oid id.
Proof.
  unfold other_completed_payment, payment_written. cbn.
  split; intros (k & q & Hne & Hq & H); exists k, q; (split; [done|]);
    (split; [|done]).
  - by rewrite lookup_alter_ne in Hq.
  - by rewrite lookup_alter_ne.
Qed.

(** After the write, an order has a COMPLETED payment when another payment
    of it is COMPLETED, or the written payment is linked to it and the new
    status is COMPLETED. *)
Lemma has_completed_payment_written clk db id p status oid :
  payments db !! id = Some p →
  has_completed_payment (payment_written clk db id status) oid
  ↔ other_completed_payment db oid id
    ∨ (Payment.orderId p = oid ∧ status = PaymentStatus.COMPLETED).
Proof.
  intros Hp. unfold has_completed_payment, other_completed_payment,
    payment_written. cbn. split.
  - intros (k & q & Hq & Ho & Hs).
    destruct (decide (k = id)) as [->|Hne].
    + rewrite lookup_alter_eq, Hp in Hq. cbn in Hq. injection Hq as <-.
      cbn in *. by right.
    + rewrite lookup_alter_ne in Hq by done. left. by exists k, q.
  - intros [(k & q & Hne & Hq & H) | [Ho Hs]].
    + exists k, q. by rewrite lookup_alter_ne.
    + eexists id, _. rewrite lookup_alter_eq, Hp. cbn. by split.
Qed.

Lemma has_completed_payment_split db id p oid :
  payments db !! id = Some p →
  has_completed_payment db oid
  ↔ other_completed_payment db oid id
    ∨ (Payment.orderId p = oid ∧ Payment.status p = PaymentStatus.COMPLETED).
Proof.
  intros Hp. unfold has_completed_payment, other_completed_payment. split.
  - intros (k & q & Hq & Ho & Hs).
    destruct (decide (k = id)) as [->|Hne].
    + rewrite Hp in Hq. injection Hq as <-. by right.
    + left. by exists k, q.
  - intros [(k & q & Hne & Hq & H) | [Ho Hs]].
    + by exists k, q.
    + by exists id, p.
Qed.

Lemma updatePaymentStatus_either clk db id status :
  (updatePaymentStatus clk db id status).1 = db
  ∨ (id ≠ "" ∧ ∃ p, payments db !! id = Some p
                    ∧ isValidStatusTransition (Payment.status p) status = true).
Proof.
  destruct (decide ((updatePaymentStatus clk db id status).2 = Updated)).
  - right. by apply (updatePaymentStatus_accepted clk).
  - left. by apply updatePaymentStatus_rejected.
Qed.

Lemma has_completed_payment_ext db db' oid :
  payments db' = payments db →
  has_completed_payment db' oid ↔ has_completed_payment db oid.
Proof. intros H. unfold has_completed_payment. by rewrite H. Qed.

(** No transition the table allows both starts and ends in COMPLETED. *)
Lemma valid_into_completed from :
  isValidStatusTransition from PaymentStatus.COMPLETED = true →
  from ≠ PaymentStatus.COMPLETED.
Proof. by destruct from. Qed.

(** COMPLETED is left for REFUNDED only. *)
Lemma valid_from_completed to :
  isValidStatusTransition PaymentStatus.COMPLETED to = true →
  to = PaymentStatus.REFUNDED.
Proof. by destruct to. Qed.

(** A write that neither leaves nor enters COMPLETED does not change which
    orders have a COMPLETED payment. *)
Lemma has_completed_payment_unchanged clk db id p status oid :
  payments db !! id = Some p →
  (Payment.orderId p = oid → Payment.status p ≠ PaymentStatus.COMPLETED) →
  (Payment.orderId p = oid → status ≠ PaymentStatus.COMPLETED) →
  has_completed_payment (payment_written clk db id status) oid
  ↔ has_completed_payment db oid.
Proof.
  intros Hp Hold Hnew.
  rewrite (has_completed_payment_written _ _ _ _ _ _ Hp).
  rewrite (has_completed_payment_split _ _ _ _ Hp).
  split; (intros [Ho | [Ho Hc]]; [by left|]); exfalso.
  - by apply (Hnew Ho).
  - by apply (Hold Ho).
Qed.

Lemma paid_iff_completed_step clk db id status :
  paid_iff_completed db → orders db !! "" = None →
  status ≠ PaymentStatus.REFUNDED →
  paid_iff_completed (updatePaymentStatus clk db id status).1.
Proof.
  intros Hinv Hempty Hnot.
  destruct (updatePaymentStatus_either clk db id status)
    as [-> | (Hid & p & Hp & Hv)]; [done|].
  rewrite (updatePaymentStatus_valid _ _ _ _ _ Hid Hp Hv). cbn [fst].
  set (db1 := payment_written clk db id status).
  assert (Hold : Payment.status p ≠ PaymentStatus.COMPLETED).
  { intros Hc. rewrite Hc in Hv. by apply valid_from_completed in Hv. }
  assert (Hsame : ∀ oid o, orders db !! oid = Some o →
            (Payment.orderId p = oid → status ≠ PaymentStatus.COMPLETED) →
            Order.isPaid o = true ↔ has_completed_payment db1 oid).
  { intros oid o Ho Hn. unfold db1.
    rewrite (has_completed_payment_unchanged _ _ _ _ _ _ Hp); [|done..].
    by apply Hinv. }
  assert (Hrec : ∀ b,
            (b = true → status = PaymentStatus.COMPLETED) →
            (b = false → status ≠ PaymentStatus.COMPLETED
                         ∧ hasCompletedPayment db1 (Payment.orderId p) id = false) →
            paid_iff_completed
              (updateOrderPaymentStatus (now_order clk) db1 (Payment.orderId p) b).1).
  { intros b Htrue Hfalse oid o.
    rewrite updateOrderPaymentStatus_orders.
    rewrite (has_completed_payment_ext db1) by apply updateOrderPaymentStatus_payments.
    destruct (falsy (Payment.orderId p)) eqn:Hf.
    { apply falsy_true_iff in Hf. cbn. intros Ho. apply (Hsame _ _ Ho).
      intros <-. rewrite Hf, Hempty in Ho. discriminate. }
    assert (Hoid : Payment.orderId p ≠ "").
    { intros Hc. apply falsy_true_iff in Hc. congruence. }
    destruct (orders db1 !! Payment.orderId p) as [o0|] eqn:Ho0.
    2:{ cbn. intros Ho. apply (Hsame _ _ Ho). intros <-. cbn in Ho0. congruence. }
    destruct (decide (Payment.orderId p = oid)) as [<-|Hne].
    - rewrite lookup_insert_eq. intros [= <-]. cbn.
      unfold db1. rewrite (has_completed_payment_written _ _ _ _ _ _ Hp).
      destruct b.
      + split; [|done]. intros _. right. split; [done|]. by apply Htrue.
      + destruct (Hfalse eq_refl) as [Hn Hnone]. split; [done|].
        intros [Hother | [_ Hc]]; [|done].
        apply (other_completed_payment_written clk db id status) in Hother.
        apply hasCompletedPayment_spec in Hother; [|done].
        fold db1 in Hother. congruence.
    - rewrite lookup_insert_ne by done. intros Ho. by apply (Hsame _ _ Ho). }
  destruct (PaymentStatus.eqb status PaymentStatus.COMPLETED) eqn:Ec.
  { apply payment_eqb_eq in Ec. apply Hrec; [done|]. intros [=]. }
  assert (Hn : status ≠ PaymentStatus.COMPLETED).
  { intros Hc. apply payment_eqb_eq in Hc. congruence. }
  destruct (_ || _).
  - destruct (hasCompletedPayment db1 (Payment.orderId p) id) eqn:Eh.
    + intros oid o Ho. by apply (Hsame _ _ Ho).
    + apply Hrec; [intros [=]|done].
  - intros oid o Ho. by apply (Hsame _ _ Ho).
Qed.

(** C1, as stated, fails: refunding the only COMPLETED payment of a paid
    order is accepted and leaves the order paid, with no COMPLETED payment
    left for it. *)
Lemma refund_leaves_order_paid :
  paid_iff_completed Sample.db_paid
  ∧ (updatePaymentStatus Sample.clk Sample.db_paid "p1"
       PaymentStatus.REFUNDED).2 = Updated
  ∧ Order.isPaid <$>
      orders (updatePaymentStatus Sample.clk Sample.db_paid "p1"
                PaymentStatus.REFUNDED).1 !! "o1" = Some true
  ∧ has_completed_payment_b
      (updatePaymentStatus Sample.clk Sample.db_paid "p1"
         PaymentStatus.REFUNDED).1 "o1" = false
  ∧ ¬ paid_iff_completed
        (updatePaymentStatus Sample.clk Sample.db_paid "p1"
           PaymentStatus.REFUNDED).1.
Proof.
  split; [by apply paid_iff_completed_b_spec; vm_compute|].
  split; [by vm_compute|]. split; [by vm_compute|]. split; [by vm_compute|].
  intros H. apply paid_iff_completed_b_spec in H. vm_compute in H.
  discriminate.
Qed.

(** C1, amended. If every order is paid exactly when one of its payments is
    COMPLETED (and no order has the empty id), this still holds after any
    call of [updatePaymentStatus] for a status other than REFUNDED, accepted
    or not.  A call for REFUNDED leaves every order as it was, so the order
    of the refunded payment stays paid. *)
Theorem paid_iff_completed_preserved
    (clk : Clock) (db : Firestore) (id : string) (status : PaymentStatus.t) :
  paid_iff_completed db →
  orders db !! "" = None →
  (status ≠ PaymentStatus.REFUNDED →
   paid_iff_completed (updatePaymentStatus clk db id status).1)
  ∧ (status = PaymentStatus.REFUNDED →
     orders (updatePaymentStatus clk db id status).1 = orders db).
Proof.
  intros Hinv Hempty. split; [by apply paid_iff_completed_step|].
  intros ->.
  destruct (updatePaymentStatus_either clk db id PaymentStatus.REFUNDED)
    as [-> | (Hid & p & Hp & Hv)]; [done|].
  by rewrite (updatePaymentStatus_valid _ _ _ _ _ Hid Hp Hv).
Qed.

(** C2, as stated, fails.  Order [o1] has been shipped and its only
    completed payment refunded; when its other payment fails, no payment of
    the order is COMPLETED, and the order goes from SHIPPED back to
    PENDING.  Likewise order [o2], cancelled by hand, goes back to PENDING
    when its pending payment is cancelled. *)
Lemma failed_payment_resets_shipped_order :
  (updatePaymentStatus Sample.clk Sample.db_shipped_refunded "p2"
     PaymentStatus.FAILED).2 = Updated
  ∧ hasCompletedPayment Sample.db_shipped_refunded "o1" "p2" = false
  ∧ Order.status <$> orders Sample.db_shipped_refunded !! "o1"
    = Some OrderStatus.SHIPPED
  ∧ Order.status <$>
      orders (updatePaymentStatus Sample.clk Sample.db_shipped_refunded "p2"
                PaymentStatus.FAILED).1 !! "o1"
    = Some OrderStatus.PENDING
  ∧ (updatePaymentStatus Sample.clk Sample.db_shipped_refunded "p3"
       PaymentStatus.CANCELLED).2 = Updated
  ∧ Order.status <$> orders Sample.db_shipped_refunded !! "o2"
    = Some OrderStatus.CANCELLED
  ∧ Order.status <$>
      orders (updatePaymentStatus Sample.clk Sample.db_shipped_refunded "p3"
                PaymentStatus.CANCELLED).1 !! "o2"
    = Some OrderStatus.PENDING.
Proof. by vm_compute. Qed.

(** C2, amended. When a payment moves into FAILED or CANCELLED and no other
    payment of the same order is COMPLETED, the call is accepted and the
    parent order gets [isPaid = false], status PENDING and the current time
    as [updatedAt], whatever its status was before; every other field of
    the order is kept. *)
Theorem failed_payment_unmarks_order
    (clk : Clock) (db : Firestore) (id : string) (p : Payment.t)
    (o : Order.t) (status : PaymentStatus.t) :
  id ≠ "" →
  payments db !! id = Some p →
  status = PaymentStatus.FAILED ∨ status = PaymentStatus.CANCELLED →
  status ∈ validTransitions (Payment.status p) →
  Payment.orderId p ≠ "" →
  orders db !! Payment.orderId p = Some o →
  ¬ other_completed_payment db (Payment.orderId p) id →
  (updatePaymentStatus clk db id status).2 = Updated
  ∧ ∃ o', orders (updatePaymentStatus clk db id status).1
            !! Payment.orderId p = Some o'
          ∧ Order.isPaid o' = false
          ∧ Order.status o' = OrderStatus.PENDING
          ∧ Order.updatedAt o' = Some (now_order clk)
          ∧ Order.id o' = Order.id o
          ∧ Order.createdAt o' = Order.createdAt o
          ∧ Order.items o' = Order.items o
          ∧ Order.notes o' = Order.notes o
          ∧ Order.orderNumber o' = Order.orderNumber o
          ∧ Order.paymentMethod o' = Order.paymentMethod o
          ∧ Order.receiptNumber o' = Order.receiptNumber o
          ∧ Order.shippingAddress o' = Order.shippingAddress o
          ∧ Order.total o' = Order.total o
          ∧ Order.userId o' = Order.userId o
          ∧ Order.paymentId o' = Order.paymentId o
          ∧ Order.paymentReferenceCode o' = Order.paymentReferenceCode o.
Proof.
  intros Hid Hp Hst Hv Hoid Ho Hnone.
  apply isValidStatusTransition_spec in Hv.
  rewrite (updatePaymentStatus_valid _ _ _ _ _ Hid Hp Hv). cbn [fst snd].
  split; [done|].
  assert (Hh : hasCompletedPayment (payment_written clk db id status)
                 (Payment.orderId p) id = false).
  { apply not_true_is_false. intros Hc.
    apply hasCompletedPayment_spec in Hc; [|done].
    by apply other_completed_payment_written in Hc. }
  rewrite Hh.
  assert (PaymentStatus.eqb status PaymentStatus.COMPLETED = false) as ->
    by (by destruct Hst as [-> | ->]).
  assert (PaymentStatus.eqb status PaymentStatus.FAILED
          || PaymentStatus.eqb status PaymentStatus.CANCELLED = true) as ->
    by (by destruct Hst as [-> | ->]).
  rewrite updateOrderPaymentStatus_orders, (falsy_false _ Hoid). cbn.
  rewrite Ho, lookup_insert_eq. by eexists.
Qed.

(** C3, as stated, fails.  Order [o1] is paid and shipped; when its other
    payment is completed the order is updated all the same and goes from
    SHIPPED back to PROCESSING.  Order [o2] is new; when its payment is
    completed the order becomes paid and PROCESSING, but gets no
    [paymentId] and no [paymentReferenceCode]. *)
Lemma completed_payment_resets_shipped_order :
  (updatePaymentStatus Sample.clk Sample.db_shipped "p2"
     PaymentStatus.COMPLETED).2 = Updated
  ∧ orders Sample.db_shipped !! "o1"
    = Some (Sample.order "o1" OrderStatus.SHIPPED true (Some "p1"))
  ∧ Order.status <$>
      orders (updatePaymentStatus Sample.clk Sample.db_shipped "p2"
                PaymentStatus.COMPLETED).1 !! "o1"
    = Some OrderStatus.PROCESSING
  ∧ (updatePaymentStatus Sample.clk Sample.db_shipped "p3"
       PaymentStatus.COMPLETED).2 = Updated
  ∧ orders Sample.db_shipped !! "o2"
    = Some (Sample.order "o2" OrderStatus.PENDING false None)
  ∧ orders (updatePaymentStatus Sample.clk Sample.db_shipped "p3"
              PaymentStatus.COMPLETED).1 !! "o2"
    = Some (Order.mk "o2" 1000 Sample.cart None "ORD-1000-1" "cash"
              "RCPT-001000" "12 Main St" OrderStatus.PROCESSING 25 "user_1"
              true None None (Some 9003)).
Proof. by vm_compute. Qed.

(** C3, amended. When a payment moves into COMPLETED, the call is accepted
    and the parent order, paid already or not, gets [isPaid = true] and
    status PROCESSING, whatever its status was before; its [paymentId] and
    [paymentReferenceCode] are left as they were. *)
Theorem completed_payment_marks_order
    (clk : Clock) (db : Firestore) (id : string) (p : Payment.t)
    (o : Order.t) :
  id ≠ "" →
  payments db !! id = Some p →
  PaymentStatus.COMPLETED ∈ validTransitions (Payment.status p) →
  Payment.orderId p ≠ "" →
  orders db !! Payment.orderId p = Some o →
  (updatePaymentStatus clk db id PaymentStatus.COMPLETED).2 = Updated
  ∧ ∃ o', orders (updatePaymentStatus clk db id PaymentStatus.COMPLETED).1
            !! Payment.orderId p = Some o'
          ∧ Order.isPaid o' = true
          ∧ Order.status o' = OrderStatus.PROCESSING
          ∧ Order.paymentId o' = Order.paymentId o
          ∧ Order.paymentReferenceCode o' = Order.paymentReferenceCode o
          ∧ Order.items o' = Order.items o
          ∧ Order.total o' = Order.total o.
Proof.
  intros Hid Hp Hv Hoid Ho.
  apply isValidStatusTransition_spec in Hv.
  rewrite (updatePaymentStatus_valid _ _ _ _ _ Hid Hp Hv). cbn [fst snd].
  split; [done|]. rewrite payment_eqb_refl.
  rewrite updateOrderPaymentStatus_orders, (falsy_false _ Hoid). cbn.
  rewrite Ho, lookup_insert_eq. by eexists.
Qed.

(** C6, as stated, fails in its last part: a pending payment whose document
    already carries [completedAt = 2000] is completed at time 9002, and its
    [completedAt] is overwritten with 9002. *)
Lemma completedAt_overwritten_when_already_set :
  Payment.completedAt <$> payments Sample.db_stamped !! "p1" = Some (Some 2000)
  ∧ (updatePaymentStatus Sample.clk Sample.db_stamped "p1"
       PaymentStatus.COMPLETED).2 = Updated
  ∧ Payment.completedAt <$>
      payments (updatePaymentStatus Sample.clk Sample.db_stamped "p1"
                  PaymentStatus.COMPLETED).1 !! "p1"
    = Some (Some 9002).
Proof. by vm_compute. Qed.

(** C6, amended. A call for COMPLETED on a payment that is already COMPLETED
    is refused with the invalid-transition error and returns the store as it
    was, so nothing is applied to the order a second time and [completedAt]
    is kept.  A call for COMPLETED that the table allows is accepted and
    sets [completedAt] to the current time, whether or not the document
    already had one. *)
Theorem completed_twice_rejected
    (clk : Clock) (db : Firestore) (id : string) (p : Payment.t) :
  id ≠ "" →
  payments db !! id = Some p →
  (Payment.status p = PaymentStatus.COMPLETED →
   updatePaymentStatus clk db id PaymentStatus.COMPLETED
   = (db, InvalidStatusTransition PaymentStatus.COMPLETED
            PaymentStatus.COMPLETED))
  ∧ (PaymentStatus.COMPLETED ∈ validTransitions (Payment.status p) →
     (updatePaymentStatus clk db id PaymentStatus.COMPLETED).2 = Updated
     ∧ ∃ p', payments (updatePaymentStatus clk db id PaymentStatus.COMPLETED).1
               !! id = Some p'
             ∧ Payment.status p' = PaymentStatus.COMPLETED
             ∧ Payment.completedAt p' = Some (now_completedAt clk)).
Proof.
  intros Hid Hp. split.
  - intros Hst. unfold updatePaymentStatus.
    rewrite (falsy_false _ Hid), (getPaymentById_Some _ _ _ Hid Hp). cbn.
    by rewrite Hst.
  - intros Hv. apply isValidStatusTransition_spec in Hv.
    assert (Hok : (updatePaymentStatus clk db id PaymentStatus.COMPLETED).2
                  = Updated)
      by (by rewrite (updatePaymentStatus_valid _ _ _ _ _ Hid Hp Hv)).
    split; [done|].
    rewrite (updatePaymentStatus_payments _ _ _ _ Hok).
    rewrite lookup_alter_eq, Hp. cbn. by eexists.
Qed.

(** ** Revenue *)

Lemma sumZ_permutation (l1 l2 : list Z) : l1 ≡ₚ l2 → sumZ l1 = sumZ l2.
Proof.
  unfold sumZ.
  induction 1 as [|x l1 l2 _ IH|x y l|l1 l2 l3 _ IH1 _ IH2]; cbn in *; lia.
Qed.

Lemma foldl_revenue (acc : Z) (docs : list (string * Payment.t)) :
  foldl (fun total payment =>
           total + (if bool_decide (Payment.amount payment = 0) then 0
                    else Payment.amount payment))
        acc ((fun kp => Payment.with_id kp.1 kp.2) <$> docs)
  = acc + sumZ ((fun kp => Payment.amount kp.2) <$> docs).
Proof.
  unfold sumZ. revert acc.
  induction docs as [|[k p] docs IH]; intros acc; cbn; [lia|].
  rewrite IH. case_bool_decide; lia.
Qed.

Lemma completed_amounts_share (l : list (string * Payment.t)) :
  sumZ ((fun kp => Payment.amount kp.2) <$>
          filter (fun kp => Payment.status kp.2 = PaymentStatus.COMPLETED) l)
  = sumZ ((fun kp => revenue_share kp.2) <$> l).
Proof.
  unfold sumZ. induction l as [|[k p] l IH]; [done|].
  rewrite filter_cons. cbn. unfold revenue_share at 1, PaymentStatus.eqb.
  case_decide as Hc.
  - rewrite (bool_decide_eq_true_2 _ Hc). cbn. by rewrite IH.
  - rewrite (bool_decide_eq_false_2 _ Hc). rewrite IH. lia.
Qed.

Lemma getTotalRevenue_sum (db : Firestore) :
  getTotalRevenue db = sumZ (completed_amounts db).
Proof.
  unfold getTotalRevenue, completed_amounts.
  destruct (filter _ _) as [|d docs] eqn:E; [done|].
  by rewrite foldl_revenue.
Qed.

Lemma getTotalRevenue_share (db : Firestore) :
  getTotalRevenue db = total_share (payments db).
Proof.
  rewrite getTotalRevenue_sum. apply completed_amounts_share.
Qed.

Lemma total_share_insert m k p :
  m !! k = None → total_share (<[k := p]> m) = revenue_share p + total_share m.
Proof.
  intros Hk. unfold total_share.
  rewrite (sumZ_permutation _ ((fun kp => revenue_share kp.2) <$>
                                 ((k, p) :: map_to_list m))); [done|].
  apply fmap_Permutation. by apply map_to_list_insert.
Qed.

Lemma total_share_alter m k p f :
  m !! k = Some p →
  total_share (alter f k m)
  = total_share m - revenue_share p + revenue_share (f p).
Proof.
  intros Hk.
  rewrite <- (insert_delete_id m k p Hk) at 1 2.
  rewrite alter_insert_eq.
  rewrite !total_share_insert by apply lookup_delete_eq. lia.
Qed.

(** C7. [getTotalRevenue] returns the sum of the amounts of exactly the
    payments whose status is COMPLETED.  It is a function of the current
    payment documents alone, so after an accepted status change of a
    payment the next call returns the former total, plus the payment's
    amount if it entered COMPLETED, minus its amount if it left
    COMPLETED. *)
Theorem getTotalRevenue_completed_sum :
  (∀ db : Firestore, getTotalRevenue db = sumZ (completed_amounts db))
  ∧ (∀ (clk : Clock) (db : Firestore) (id : string) (p : Payment.t)
       (status : PaymentStatus.t),
       payments db !! id = Some p →
       (updatePaymentStatus clk db id status).2 = Updated →
       getTotalRevenue (updatePaymentStatus clk db id status).1
       = getTotalRevenue db
         + (if bool_decide (status = PaymentStatus.COMPLETED)
            then Payment.amount p else 0)
         - (if bool_decide (Payment.status p = PaymentStatus.COMPLETED)
            then Payment.amount p else 0)).
Proof.
  split; [apply getTotalRevenue_sum|].
  intros clk db id p status Hp Hok.
  rewrite !getTotalRevenue_share.
  rewrite (updatePaymentStatus_payments _ _ _ _ Hok).
  rewrite (total_share_alter _ _ _ _ Hp).
  unfold revenue_share, PaymentStatus.eqb. cbn. lia.
Qed.

(** ** Order totals *)

Lemma foldl_order_total (acc : Z) (items : list OrderItem.t) :
  foldl (fun total item =>
           total + OrderItem.price item * OrderItem.quantity item) acc items
  = acc + items_total items.
Proof.
  revert acc. induction items as [|item items IH]; intros acc; cbn; [lia|].
  rewrite IH. lia.
Qed.


(** ** The theorems at sample data *)

Lemma updatePaymentStatus_unreachable_rejected_witness :
  "p1" ≠ ""
  ∧ payments Sample.db_refunded !! "p1"
    = Some (Sample.payment "p1" "o1" 25 PaymentStatus.REFUNDED (Some 2000))
  ∧ updatePaymentStatus Sample.clk Sample.db_refunded "p1"
      PaymentStatus.COMPLETED
    = (Sample.db_refunded,
       InvalidStatusTransition PaymentStatus.REFUNDED PaymentStatus.COMPLETED).
Proof.
  assert (H1 : "p1" ≠ "") by discriminate.
  assert (H2 : payments Sample.db_refunded !! "p1"
               = Some (Sample.payment "p1" "o1" 25 PaymentStatus.REFUNDED
                         (Some 2000))) by (vm_compute; reflexivity).
  split; [exact H1|]. split; [exact H2|].
  exact (proj2 (updatePaymentStatus_unreachable_rejected Sample.clk
                  Sample.db_refunded "p1" _ H1 H2)
               eq_refl PaymentStatus.COMPLETED).
Defined.

Lemma completedAt_written_once_witness :
  PaymentHistory.valid_path PaymentStatus.PENDING
    [PaymentStatus.PROCESSING; PaymentStatus.COMPLETED; PaymentStatus.REFUNDED]
  = true
  ∧ (PaymentHistory.entries_into_completed PaymentStatus.PENDING
       [PaymentStatus.PROCESSING; PaymentStatus.COMPLETED;
        PaymentStatus.REFUNDED] ≤ 1)%nat
  ∧ (updatePaymentStatus Sample.clk Sample.db_new "p1"
       PaymentStatus.COMPLETED).2 = Updated
  ∧ ∃ p, payments
           (PaymentHistory.run
              (updatePaymentStatus Sample.clk Sample.db_new "p1"
                 PaymentStatus.COMPLETED).1
              [PaymentHistory.mkCall (mkClock 9011 9012 9013) "p1"
                 PaymentStatus.COMPLETED;
               PaymentHistory.mkCall (mkClock 9021 9022 9023) "p1"
                 PaymentStatus.REFUNDED]) !! "p1" = Some p
         ∧ Payment.completedAt p = Some 9002.
Proof.
  assert (H1 : PaymentHistory.valid_path PaymentStatus.PENDING
                 [PaymentStatus.PROCESSING; PaymentStatus.COMPLETED;
                  PaymentStatus.REFUNDED] = true) by (vm_compute; reflexivity).
  assert (H2 : (updatePaymentStatus Sample.clk Sample.db_new "p1"
                  PaymentStatus.COMPLETED).2 = Updated)
    by (vm_compute; reflexivity).
  split; [exact H1|].
  split; [exact (proj1 completedAt_written_once _ H1)|].
  split; [exact H2|].
  exact (proj2 (proj2 (proj2 completedAt_written_once))
           Sample.clk Sample.db_new "p1" _ H2).
Defined.

Lemma updateOrderStatus_outcome_witness :
  OrderService.getOrderById Sample.db_new "o1"
  = Some (Sample.order "o1" OrderStatus.PENDING false None)
  ∧ OrderService.updateOrderStatus 9100 Sample.db_new "o1"
      OrderStatus.PROCESSING
    = inl (OrderService.PaymentNotCompleted OrderStatus.PROCESSING)
  ∧ OrderService.updateOrderStatus 9100 Sample.db_new "o1"
      OrderStatus.SHIPPED
    = inl (OrderService.InvalidStatusTransition OrderStatus.PENDING
             OrderStatus.SHIPPED).
Proof.
  assert (H1 : OrderService.getOrderById Sample.db_new "o1"
               = Some (Sample.order "o1" OrderStatus.PENDING false None))
    by (vm_compute; reflexivity).
  split; [exact H1|]. split.
  - refine (proj1 (proj2 (proj2 (updateOrderStatus_outcome 9100 Sample.db_new
                                   "o1" _ OrderStatus.PROCESSING H1))) _ _ _);
      [compute_done | compute_done | reflexivity].
  - refine (proj1 (proj2 (updateOrderStatus_outcome 9100 Sample.db_new
                            "o1" _ OrderStatus.SHIPPED H1)) _).
    compute_done.
Defined.

Lemma updateOrderStatus_refuses_returned_witness :
  OrderService.getOrderById Sample.db_shipped "o1"
  = Some (Sample.order "o1" OrderStatus.SHIPPED true (Some "p1"))
  ∧ (Order.status (Sample.order "o1" OrderStatus.SHIPPED true (Some "p1"))
     = OrderStatus.SHIPPED
     ∨ Order.status (Sample.order "o1" OrderStatus.SHIPPED true (Some "p1"))
       = OrderStatus.DELIVERED)
  ∧ OrderTable.RETURNED ∈ OrderTable.reachable OrderTable.SHIPPED
  ∧ OrderStatusRequest.updateOrderStatus 9100 Sample.db_shipped "o1"
      (Some "returned")
    = inl (OrderStatusRequest.InvalidStatusTransition OrderStatus.SHIPPED
             (Some "returned"))
  ∧ OrderStatusRequest.updateOrderStatus 9100 Sample.db_shipped "o1" None
    = inl OrderStatusRequest.UnsupportedFieldValue.
Proof.
  assert (H1 : OrderService.getOrderById Sample.db_shipped "o1"
               = Some (Sample.order "o1" OrderStatus.SHIPPED true (Some "p1")))
    by (vm_compute; reflexivity).
  assert (H2 : Order.status
                 (Sample.order "o1" OrderStatus.SHIPPED true (Some "p1"))
               = OrderStatus.SHIPPED
               ∨ Order.status
                   (Sample.order "o1" OrderStatus.SHIPPED true (Some "p1"))
                 = OrderStatus.DELIVERED) by (left; reflexivity).
  split; [exact H1|]. split; [exact H2|].
  destruct (proj2 (proj2 (proj2
              (updateOrderStatus_refuses_returned 9100 Sample.db_shipped "o1"
                 _ H1))) H2)
    as (Hspec & _ & _ & Hstring & Hundefined & _).
  split; [exact Hspec|]. split; [exact Hstring|exact Hundefined].
Defined.

Lemma paid_iff_completed_preserved_witness :
  paid_iff_completed Sample.db_new
  ∧ orders Sample.db_new !! "" = None
  ∧ paid_iff_completed
      (updatePaymentStatus Sample.clk Sample.db_new "p1"
         PaymentStatus.COMPLETED).1.
Proof.
  assert (H1 : paid_iff_completed Sample.db_new)
    by (apply paid_iff_completed_b_spec; vm_compute; reflexivity).
  assert (H2 : orders Sample.db_new !! "" = None) by (vm_compute; reflexivity).
  split; [exact H1|]. split; [exact H2|].
  apply (proj1 (paid_iff_completed_preserved Sample.clk Sample.db_new "p1"
                  PaymentStatus.COMPLETED H1 H2)).
  discriminate.
Defined.

Lemma failed_payment_unmarks_order_witness :
  (updatePaymentStatus Sample.clk Sample.db_shipped_refunded "p2"
     PaymentStatus.FAILED).2 = Updated
  ∧ ∃ o', orders (updatePaymentStatus Sample.clk Sample.db_shipped_refunded
                    "p2" PaymentStatus.FAILED).1 !! "o1" = Some o'
          ∧ Order.isPaid o' = false
          ∧ Order.status o' = OrderStatus.PENDING
          ∧ Order.updatedAt o' = Some 9003
          ∧ Order.id o' = "o1"
          ∧ Order.createdAt o' = 1000
          ∧ Order.items o' = Sample.cart
          ∧ Order.notes o' = None
          ∧ Order.orderNumber o' = "ORD-1000-1"
          ∧ Order.paymentMethod o' = "cash"
          ∧ Order.receiptNumber o' = "RCPT-001000"
          ∧ Order.shippingAddress o' = "12 Main St"
          ∧ Order.total o' = 25
          ∧ Order.userId o' = "user_1"
          ∧ Order.paymentId o' = Some "p1"
          ∧ Order.paymentReferenceCode o' = None.
Proof.
  apply (failed_payment_unmarks_order Sample.clk Sample.db_shipped_refunded
           "p2" (Sample.payment "p2" "o1" 25 PaymentStatus.PENDING None)
           (Sample.order "o1" OrderStatus.SHIPPED true (Some "p1"))
           PaymentStatus.FAILED).
  - discriminate.
  - vm_compute; reflexivity.
  - by left.
  - apply isValidStatusTransition_spec. vm_compute; reflexivity.
  - discriminate.
  - vm_compute; reflexivity.
  - intros H. apply hasCompletedPayment_spec in H; [|discriminate].
    vm_compute in H. discriminate.
Defined.

Lemma completed_payment_marks_order_witness :
  (updatePaymentStatus Sample.clk Sample.db_shipped "p2"
     PaymentStatus.COMPLETED).2 = Updated
  ∧ ∃ o', orders (updatePaymentStatus Sample.clk Sample.db_shipped "p2"
                    PaymentStatus.COMPLETED).1 !! "o1" = Some o'
          ∧ Order.isPaid o' = true
          ∧ Order.status o' = OrderStatus.PROCESSING
          ∧ Order.paymentId o' = Some "p1"
          ∧ Order.paymentReferenceCode o' = None
          ∧ Order.items o' = Sample.cart
          ∧ Order.total o' = 25.
Proof.
  apply (completed_payment_marks_order Sample.clk Sample.db_shipped "p2"
           (Sample.payment "p2" "o1" 25 PaymentStatus.PENDING None)
           (Sample.order "o1" OrderStatus.SHIPPED true (Some "p1"))).
  - discriminate.
  - vm_compute; reflexivity.
  - apply isValidStatusTransition_spec. vm_compute; reflexivity.
  - discriminate.
  - vm_compute; reflexivity.
Defined.

Lemma completed_twice_rejected_witness :
  updatePaymentStatus Sample.clk Sample.db_paid "p1" PaymentStatus.COMPLETED
  = (Sample.db_paid,
     InvalidStatusTransition PaymentStatus.COMPLETED PaymentStatus.COMPLETED)
  ∧ (updatePaymentStatus Sample.clk Sample.db_new "p1"
       PaymentStatus.COMPLETED).2 = Updated
  ∧ ∃ p', payments (updatePaymentStatus Sample.clk Sample.db_new "p1"
                      PaymentStatus.COMPLETED).1 !! "p1" = Some p'
          ∧ Payment.status p' = PaymentStatus.COMPLETED
          ∧ Payment.completedAt p' = Some 9002.
Proof.
  split.
  - apply (proj1 (completed_twice_rejected Sample.clk Sample.db_paid "p1"
                    (Sample.payment "p1" "o1" 25 PaymentStatus.COMPLETED
                       (Some 2000))
                    ltac:(discriminate) ltac:(vm_compute; reflexivity))).
    reflexivity.
  - apply (proj2 (completed_twice_rejected Sample.clk Sample.db_new "p1"
                    (Sample.payment "p1" "o1" 25 PaymentStatus.PENDING None)
                    ltac:(discriminate) ltac:(vm_compute; reflexivity))).
    apply isValidStatusTransition_spec. vm_compute; reflexivity.
Defined.

Lemma getTotalRevenue_completed_sum_witness :
  payments Sample.db_new !! "p1"
  = Some (Sample.payment "p1" "o1" 25 PaymentStatus.PENDING None)
  ∧ (updatePaymentStatus Sample.clk Sample.db_new "p1"
       PaymentStatus.COMPLETED).2 = Updated
  ∧ getTotalRevenue
      (updatePaymentStatus Sample.clk Sample.db_new "p1"
         PaymentStatus.COMPLETED).1
    = getTotalRevenue Sample.db_new + 25 - 0.
Proof.
  assert (H1 : payments Sample.db_new !! "p1"
               = Some (Sample.payment "p1" "o1" 25 PaymentStatus.PENDING None))
    by (vm_compute; reflexivity).
  assert (H2 : (updatePaymentStatus Sample.clk Sample.db_new "p1"
                  PaymentStatus.COMPLETED).2 = Updated)
    by (vm_compute; reflexivity).
  split; [exact H1|]. split; [exact H2|].
  exact (proj2 getTotalRevenue_completed_sum Sample.clk Sample.db_new "p1" _
           PaymentStatus.COMPLETED H1 H2).
Defined.


(** * Further properties of the services and pages *)

(** ** Saving and deleting payments *)

Section PaymentWritesFacts.
Import PaymentWrites.

Lemma falsy_num_false (n : option Z) :
  falsy_num n = false ↔ ∃ t, n = Some t ∧ t ≠ 0.
Proof.
  destruct n as [t|]; cbn.
  - rewrite bool_decide_eq_false. split; [by exists t|].
    by intros (? & [= <-] & ?).
  - split; [done|]. by intros (? & ? & ?).
Qed.

Lemma savePayment_id fresh_id timestamp db p :
  (savePayment fresh_id timestamp db p).2
  = if falsy (Payment.id p) then fresh_id else Payment.id p.
Proof. done. Qed.


Lemma total_share_delete m k p :
  m !! k = Some p → total_share (delete k m) = total_share m - revenue_share p.
Proof.
  intros Hk. rewrite <- (insert_delete_id m k p Hk) at 2.
  rewrite total_share_insert by apply lookup_delete_eq. lia.
Qed.

Lemma deletePayment_cases db id :
  deletePayment db id
  = if falsy id then (db, DeleteInvalidId)
    else match payments db !! id with
         | None => (db, DeleteNotFound)
         | Some p =>
             if PaymentStatus.eqb (Payment.status p) PaymentStatus.COMPLETED
             then (db, DeleteCompleted)
             else (mkFirestore (delete id (payments db)) (orders db), Deleted)
         end.
Proof.
  unfold deletePayment, getPaymentById.
  destruct (falsy id); [done|]. by destruct (payments db !! id).
Qed.

End PaymentWritesFacts.

(** X1. [savePayment] stores the payment under the id it returns, with the
    status, order, amount it was given.  A payment saved as COMPLETED
    carries a completion time afterwards; a completion time already present
    (and not zero) is never replaced, and a payment that is not COMPLETED
    keeps its [completedAt] as given.  No order is touched: saving a
    COMPLETED payment does not mark its order paid. *)
Theorem savePayment_stores_and_stamps
    (fresh_id : string) (timestamp : Z) (db : Firestore) (p : Payment.t) :
  timestamp ≠ 0 →
  ∃ p', payments (PaymentWrites.savePayment fresh_id timestamp db p).1
          !! (PaymentWrites.savePayment fresh_id timestamp db p).2 = Some p'
        ∧ Payment.id p' = (PaymentWrites.savePayment fresh_id timestamp db p).2
        ∧ Payment.status p' = Payment.status p
        ∧ Payment.orderId p' = Payment.orderId p
        ∧ Payment.amount p' = Payment.amount p
        ∧ Payment.updatedAt p' = Some timestamp
        ∧ (Payment.status p = PaymentStatus.COMPLETED →
           ∃ t, Payment.completedAt p' = Some t ∧ t ≠ 0)
        ∧ (∀ t, Payment.completedAt p = Some t → t ≠ 0 →
                Payment.completedAt p' = Some t)
        ∧ (Payment.status p ≠ PaymentStatus.COMPLETED →
           Payment.completedAt p' = Payment.completedAt p)
        ∧ orders (PaymentWrites.savePayment fresh_id timestamp db p).1
          = orders db
        ∧ ∀ k, k ≠ (PaymentWrites.savePayment fresh_id timestamp db p).2 →
               payments (PaymentWrites.savePayment fresh_id timestamp db p).1
                 !! k = payments db !! k.
Proof.
  intros Hts. unfold PaymentWrites.savePayment. cbn [fst snd payments orders].
  eexists. split; [apply lookup_insert_eq|]. cbn.
  repeat (split; [done|]).
  split; [|split; [|split; [|split; [done|]]]].
  - intros ->. rewrite payment_eqb_refl. cbn.
    destruct (PaymentWrites.falsy_num (Payment.completedAt p)) eqn:Hf.
    + by exists timestamp.
    + by apply falsy_num_false in Hf.
  - intros t Ht Hne.
    assert (PaymentWrites.falsy_num (Payment.completedAt p) = false) as ->
      by (apply falsy_num_false; by exists t).
    by rewrite andb_false_r.
  - intros Hst.
    assert (PaymentStatus.eqb (Payment.status p) PaymentStatus.COMPLETED = false)
      as -> by (unfold PaymentStatus.eqb; by rewrite bool_decide_eq_false_2).
    done.
  - intros k Hk. by rewrite lookup_insert_ne.
Qed.


(** X3. [deletePayment] succeeds exactly for a stored payment that is not
    COMPLETED; it then removes that document and nothing else.  A COMPLETED
    payment is refused, and every refusal leaves the store as it was. *)
Theorem deletePayment_outcome (db : Firestore) (id : string) :
  ((PaymentWrites.deletePayment db id).2 = PaymentWrites.Deleted
   ↔ id ≠ "" ∧ ∃ p, payments db !! id = Some p
                    ∧ Payment.status p ≠ PaymentStatus.COMPLETED)
  ∧ ((PaymentWrites.deletePayment db id).2 = PaymentWrites.Deleted →
     payments (PaymentWrites.deletePayment db id).1 !! id = None
     ∧ ∀ k, k ≠ id → payments (PaymentWrites.deletePayment db id).1 !! k
                     = payments db !! k)
  ∧ ((PaymentWrites.deletePayment db id).2 ≠ PaymentWrites.Deleted →
     (PaymentWrites.deletePayment db id).1 = db)
  ∧ (∀ p, id ≠ "" → payments db !! id = Some p →
          Payment.status p = PaymentStatus.COMPLETED →
          PaymentWrites.deletePayment db id
          = (db, PaymentWrites.DeleteCompleted))
  ∧ orders (PaymentWrites.deletePayment db id).1 = orders db.
Proof.
  rewrite deletePayment_cases.
  destruct (falsy id) eqn:Hf.
  { apply falsy_true_iff in Hf. split_and!; try done.
    split; [done | by intros [? _]]. }
  assert (Hid : id ≠ "") by (intros ->; by vm_compute in Hf).
  destruct (payments db !! id) as [p|] eqn:Hp.
  2:{ split_and!; try done. split; [done | by intros (_ & ? & ? & _)]. }
  destruct (PaymentStatus.eqb (Payment.status p) PaymentStatus.COMPLETED) eqn:Hc.
  - apply payment_eqb_eq in Hc. split_and!; try done.
    split; [done|]. by intros (_ & q & [= <-] & Hq).
  - assert (Hn : Payment.status p ≠ PaymentStatus.COMPLETED).
    { intros Hs. apply payment_eqb_eq in Hs. congruence. }
    cbn. split_and!; try done.
    + split; [intros _; split; [done|by exists p] | done].
    + intros _. split; [apply lookup_delete_eq|].
      intros k Hk. by rewrite lookup_delete_ne.
    + intros q _ [= <-] Hq. done.
Qed.

(** X4. [deletePayment] never changes the total revenue: the payments it
    agrees to delete are not COMPLETED. *)
Theorem deletePayment_keeps_revenue (db : Firestore) (id : string) :
  getTotalRevenue (PaymentWrites.deletePayment db id).1 = getTotalRevenue db.
Proof.
  rewrite deletePayment_cases.
  destruct (falsy id); [done|].
  destruct (payments db !! id) as [p|] eqn:Hp; [|done].
  destruct (PaymentStatus.eqb (Payment.status p) PaymentStatus.COMPLETED) eqn:Hc;
    [done|].
  rewrite !getTotalRevenue_share. cbn.
  rewrite (total_share_delete _ _ _ Hp). unfold revenue_share. rewrite Hc. lia.
Qed.

(** ** More on [updatePaymentStatus] *)

Lemma updatePaymentStatus_orders_dom clk db id status k :
  orders (updatePaymentStatus clk db id status).1 !! k = None
  ↔ orders db !! k = None.
Proof.
  destruct (updatePaymentStatus_either clk db id status)
    as [-> | (Hid & p & Hp & Hv)]; [done|].
  rewrite (updatePaymentStatus_valid _ _ _ _ _ Hid Hp Hv). cbn [fst].
  assert (Hrec : ∀ b,
            orders (updateOrderPaymentStatus (now_order clk)
                      (payment_written clk db id status)
                      (Payment.orderId p) b).1 !! k = None
            ↔ orders db !! k = None).
  { intros b. rewrite updateOrderPaymentStatus_orders.
    destruct (falsy (Payment.orderId p)); [done|]. cbn.
    destruct (orders db !! Payment.orderId p) as [o|] eqn:Ho; [|done].
    destruct (decide (Payment.orderId p = k)) as [<-|Hne].
    - rewrite lookup_insert_eq, Ho. done.
    - by rewrite lookup_insert_ne. }
  destruct (PaymentStatus.eqb status PaymentStatus.COMPLETED); [apply Hrec|].
  destruct (_ || _); [|done].
  destruct (hasCompletedPayment _ _ _); [done | apply Hrec].
Qed.

(** Orders other than the parent of the payment are never written. *)
Lemma updatePaymentStatus_other_orders clk db id status p k :
  payments db !! id = Some p → k ≠ Payment.orderId p →
  orders (updatePaymentStatus clk db id status).1 !! k = orders db !! k.
Proof.
  intros Hp Hk.
  destruct (updatePaymentStatus_either clk db id status)
    as [-> | (Hid & q & Hq & Hv)]; [done|].
  rewrite Hp in Hq. injection Hq as <-.
  rewrite (updatePaymentStatus_valid _ _ _ _ _ Hid Hp Hv). cbn [fst].
  assert (Hrec : ∀ b,
            orders (updateOrderPaymentStatus (now_order clk)
                      (payment_written clk db id status)
                      (Payment.orderId p) b).1 !! k = orders db !! k).
  { intros b. rewrite updateOrderPaymentStatus_orders.
    destruct (falsy (Payment.orderId p)); [done|]. cbn.
    destruct (orders db !! Payment.orderId p) as [o|] eqn:Ho; [|done].
    by rewrite lookup_insert_ne. }
  destruct (PaymentStatus.eqb status PaymentStatus.COMPLETED); [apply Hrec|].
  destruct (_ || _); [|done].
  destruct (hasCompletedPayment _ _ _); [done | apply Hrec].
Qed.

(** X6. [updatePaymentStatus] is accepted exactly for a non-empty id of a
    stored payment and a status its current status lists.  An empty id and
    an unknown id are reported as such, and both leave the store as it
    was. *)
Theorem updatePaymentStatus_outcome
    (clk : Clock) (db : Firestore) (id : string) (status : PaymentStatus.t) :
  ((updatePaymentStatus clk db id status).2 = Updated
   ↔ id ≠ "" ∧ ∃ p, payments db !! id = Some p
                    ∧ status ∈ validTransitions (Payment.status p))
  ∧ (id = "" → updatePaymentStatus clk db id status = (db, InvalidPaymentId))
  ∧ (id ≠ "" → payments db !! id = None →
     updatePaymentStatus clk db id status = (db, PaymentNotFound)).
Proof.
  split_and!.
  - split.
    + intros Hok.
      apply updatePaymentStatus_accepted in Hok as (Hid & p & Hp & Hv).
      split; [done|]. exists p. split; [done|].
      by apply isValidStatusTransition_spec.
    + intros (Hid & p & Hp & Hv). apply isValidStatusTransition_spec in Hv.
      by rewrite (updatePaymentStatus_valid _ _ _ _ _ Hid Hp Hv).
  - by intros ->.
  - intros Hid Hp. unfold updatePaymentStatus, getPaymentById.
    by rewrite (falsy_false _ Hid), Hp.
Qed.

(** X7. Whatever [updatePaymentStatus] reports, it writes at most the
    payment it was called for and the parent order of that payment: every
    other payment and every other order is as before.  Of the payment it
    keeps the id, order, user, amount, reference code, method and creation
    time; of the parent order it keeps the items, total, user and payment
    references. *)
Theorem updatePaymentStatus_frame
    (clk : Clock) (db : Firestore) (id : string) (status : PaymentStatus.t)
    (p : Payment.t) :
  payments db !! id = Some p →
  (∀ k, k ≠ id →
        payments (updatePaymentStatus clk db id status).1 !! k
        = payments db !! k)
  ∧ (∃ p', payments (updatePaymentStatus clk db id status).1 !! id = Some p'
           ∧ Payment.id p' = Payment.id p
           ∧ Payment.orderId p' = Payment.orderId p
           ∧ Payment.userId p' = Payment.userId p
           ∧ Payment.amount p' = Payment.amount p
           ∧ Payment.referenceCode p' = Payment.referenceCode p
           ∧ Payment.paymentMethod p' = Payment.paymentMethod p
           ∧ Payment.createdAt p' = Payment.createdAt p)
  ∧ (∀ k, k ≠ Payment.orderId p →
        orders (updatePaymentStatus clk db id status).1 !! k
        = orders db !! k)
  ∧ (∀ o, orders db !! Payment.orderId p = Some o →
        ∃ o', orders (updatePaymentStatus clk db id status).1
                !! Payment.orderId p = Some o'
              ∧ Order.id o' = Order.id o
              ∧ Order.items o' = Order.items o
              ∧ Order.total o' = Order.total o
              ∧ Order.userId o' = Order.userId o
              ∧ Order.paymentId o' = Order.paymentId o
              ∧ Order.paymentReferenceCode o' = Order.paymentReferenceCode o).
Proof.
  intros Hp.
  destruct (decide ((updatePaymentStatus clk db id status).2 = Updated))
    as [Hok|Hrej].
  2:{ rewrite (updatePaymentStatus_rejected _ _ _ _ Hrej).
      split_and!; try done; [by exists p | intros o Ho; by exists o]. }
  split_and!.
  - intros k Hk. rewrite (updatePaymentStatus_payments _ _ _ _ Hok).
    by rewrite lookup_alter_ne.
  - rewrite (updatePaymentStatus_payments _ _ _ _ Hok).
    rewrite lookup_alter_eq, Hp. cbn. by eexists.
  - intros k Hk. by apply (updatePaymentStatus_other_orders _ _ _ _ p).
  - intros o Ho.
    apply updatePaymentStatus_accepted in Hok as (Hid & q & Hq & Hv).
    rewrite Hp in Hq. injection Hq as <-.
    rewrite (updatePaymentStatus_valid _ _ _ _ _ Hid Hp Hv). cbn [fst].
    assert (Hrec : ∀ b,
              ∃ o', orders (updateOrderPaymentStatus (now_order clk)
                              (payment_written clk db id status)
                              (Payment.orderId p) b).1
                      !! Payment.orderId p = Some o'
                    ∧ Order.id o' = Order.id o
                    ∧ Order.items o' = Order.items o
                    ∧ Order.total o' = Order.total o
                    ∧ Order.userId o' = Order.userId o
                    ∧ Order.paymentId o' = Order.paymentId o
                    ∧ Order.paymentReferenceCode o'
                      = Order.paymentReferenceCode o).
    { intros b. rewrite updateOrderPaymentStatus_orders.
      destruct (falsy (Payment.orderId p)); [by exists o|]. cbn.
      rewrite Ho, lookup_insert_eq. by eexists. }
    destruct (PaymentStatus.eqb status PaymentStatus.COMPLETED); [apply Hrec|].
    destruct (_ || _); [|by exists o].
    destruct (hasCompletedPayment _ _ _); [by exists o | apply Hrec].
Qed.

(** X8. When another payment of the same order is COMPLETED, a payment that
    moves into FAILED or CANCELLED is accepted and no order is written: the
    order stays paid and keeps its status. *)
Theorem failed_payment_shielded_by_completed
    (clk : Clock) (db : Firestore) (id : string) (p : Payment.t)
    (status : PaymentStatus.t) :
  id ≠ "" →
  payments db !! id = Some p →
  status = PaymentStatus.FAILED ∨ status = PaymentStatus.CANCELLED →
  status ∈ validTransitions (Payment.status p) →
  Payment.orderId p ≠ "" →
  other_completed_payment db (Payment.orderId p) id →
  (updatePaymentStatus clk db id status).2 = Updated
  ∧ orders (updatePaymentStatus clk db id status).1 = orders db.
Proof.
  intros Hid Hp Hst Hv Hoid Hother.
  apply isValidStatusTransition_spec in Hv.
  rewrite (updatePaymentStatus_valid _ _ _ _ _ Hid Hp Hv). cbn [fst snd].
  split; [done|].
  assert (hasCompletedPayment (payment_written clk db id status)
            (Payment.orderId p) id = true) as ->.
  { apply hasCompletedPayment_spec; [done|].
    by apply other_completed_payment_written. }
  by destruct Hst as [-> | ->].
Qed.

(** X9. After [deleteOrder], the payments of the order are still stored.  A
    status change of such a payment is accepted as usual and writes the
    payment, and no order is created or changed: the missing order is
    passed over in silence. *)
Theorem payment_of_deleted_order
    (clk : Clock) (db : Firestore) (id : string) (p : Payment.t)
    (status : PaymentStatus.t) :
  id ≠ "" →
  payments db !! id = Some p →
  status ∈ validTransitions (Payment.status p) →
  payments (OrderWrites.deleteOrder db (Payment.orderId p)) !! id = Some p
  ∧ orders (OrderWrites.deleteOrder db (Payment.orderId p))
      !! Payment.orderId p = None
  ∧ (updatePaymentStatus clk (OrderWrites.deleteOrder db (Payment.orderId p))
       id status).2 = Updated
  ∧ orders (updatePaymentStatus clk
              (OrderWrites.deleteOrder db (Payment.orderId p)) id status).1
    = delete (Payment.orderId p) (orders db)
  ∧ ∃ p', payments (updatePaymentStatus clk
                      (OrderWrites.deleteOrder db (Payment.orderId p))
                      id status).1 !! id = Some p'
          ∧ Payment.status p' = status.
Proof.
  intros Hid Hp Hv.
  set (db0 := OrderWrites.deleteOrder db (Payment.orderId p)).
  assert (Hp0 : payments db0 !! id = Some p) by done.
  assert (Ho0 : orders db0 !! Payment.orderId p = None)
    by apply lookup_delete_eq.
  split; [done|]. split; [done|].
  apply isValidStatusTransition_spec in Hv.
  assert (Hok : (updatePaymentStatus clk db0 id status).2 = Updated)
    by (by rewrite (updatePaymentStatus_valid _ _ _ _ _ Hid Hp0 Hv)).
  split; [done|]. split.
  - rewrite (updatePaymentStatus_valid _ _ _ _ _ Hid Hp0 Hv). cbn [fst].
    assert (Hrec : ∀ b,
              orders (updateOrderPaymentStatus (now_order clk)
                        (payment_written clk db0 id status)
                        (Payment.orderId p) b).1 = orders db0).
    { intros b. rewrite updateOrderPaymentStatus_orders.
      destruct (falsy (Payment.orderId p)); [done|]. cbn.
      cbn in Ho0. by rewrite Ho0. }
    destruct (PaymentStatus.eqb status PaymentStatus.COMPLETED); [apply Hrec|].
    destruct (_ || _); [|done].
    destruct (hasCompletedPayment _ _ _); [done | apply Hrec].
  - rewrite (updatePaymentStatus_payments _ _ _ _ Hok).
    rewrite lookup_alter_eq, Hp0. cbn. by eexists.
Qed.

(** ** What the actions on existing records keep *)

Section AdminActions.
Import Store.

Lemma deletePayment_has_completed db id oid :
  has_completed_payment (PaymentWrites.deletePayment db id).1 oid
  ↔ has_completed_payment db oid.
Proof.
  rewrite deletePayment_cases.
  destruct (falsy id); [done|].
  destruct (payments db !! id) as [p|] eqn:Hp; [|done].
  destruct (PaymentStatus.eqb (Payment.status p) PaymentStatus.COMPLETED) eqn:Hc;
    [done|].
  unfold has_completed_payment. cbn. split.
  - intros (k & q & Hq & H). exists k, q. split; [|done].
    by apply lookup_delete_Some in Hq as [_ Hq].
  - intros (k & q & Hq & Ho & Hs). exists k, q. split; [|done].
    apply lookup_delete_Some. split; [|done]. intros <-.
    rewrite Hp in Hq. injection Hq as <-.
    apply payment_eqb_eq in Hs. congruence.
Qed.

Lemma deletePayment_orders db id :
  orders (PaymentWrites.deletePayment db id).1 = orders db.
Proof.
  rewrite deletePayment_cases.
  destruct (falsy id); [done|].
  destruct (payments db !! id) as [p|]; [|done].
  by destruct (PaymentStatus.eqb _ _).
Qed.

(** The store after a status change of an order, accepted or not: the
    payments are as before and every order keeps all but its status and
    [updatedAt]. *)
Lemma updateOrderStatus_lookup now db id status db' k :
  OrderService.updateOrderStatus now db id status = inr db' →
  payments db' = payments db
  ∧ (orders db' !! k = None ↔ orders db !! k = None)
  ∧ ∀ o', orders db' !! k = Some o' →
          ∃ o, orders db !! k = Some o
               ∧ Order.id o' = Order.id o
               ∧ Order.isPaid o' = Order.isPaid o
               ∧ (k ≠ id → o' = o).
Proof.
  unfold OrderService.updateOrderStatus, OrderService.getOrderById.
  destruct (orders db !! id) as [order|] eqn:Ho; [|done].
  destruct (negb _); [done|]. destruct (_ && _); [done|].
  intros [= <-]. cbn. split; [done|].
  destruct (decide (id = k)) as [->|Hne].
  - rewrite lookup_alter_eq, Ho. cbn. split; [done|].
    intros o' [= <-]. by exists order.
  - rewrite lookup_alter_ne by done. split; [done|].
    intros o' Ho'. by exists o'.
Qed.

Lemma updatePaymentStatus_order_ids clk db id status :
  order_ids_match db →
  order_ids_match (updatePaymentStatus clk db id status).1.
Proof.
  intros Hm.
  destruct (updatePaymentStatus_either clk db id status)
    as [-> | (Hid & p & Hp & Hv)]; [done|].
  rewrite (updatePaymentStatus_valid _ _ _ _ _ Hid Hp Hv). cbn [fst].
  assert (Hrec : ∀ b,
            order_ids_match
              (updateOrderPaymentStatus (now_order clk)
                 (payment_written clk db id status) (Payment.orderId p) b).1).
  { intros b k o. rewrite updateOrderPaymentStatus_orders.
    destruct (falsy (Payment.orderId p)); [apply Hm|]. cbn.
    destruct (orders db !! Payment.orderId p) as [o0|] eqn:Ho0; [|apply Hm].
    destruct (decide (Payment.orderId p = k)) as [<-|Hne].
    - rewrite lookup_insert_eq. intros [= <-]. cbn. by apply Hm.
    - rewrite lookup_insert_ne by done. apply Hm. }
  destruct (PaymentStatus.eqb status PaymentStatus.COMPLETED); [apply Hrec|].
  destruct (_ || _); [|done].
  destruct (hasCompletedPayment _ _ _); [done | apply Hrec].
Qed.

Lemma admin_step_keeps db a :
  no_refund a →
  paid_iff_completed db ∧ orders db !! "" = None ∧ order_ids_match db →
  paid_iff_completed (admin_step db a)
  ∧ orders (admin_step db a) !! "" = None
  ∧ order_ids_match (admin_step db a).
Proof.
  intros Hno (Hinv & Hempty & Hm).
  destruct a as [clk id status | id | now id status]; cbn [admin_step].
  - split_and!.
    + by apply paid_iff_completed_step.
    + by apply updatePaymentStatus_orders_dom.
    + by apply updatePaymentStatus_order_ids.
  - split_and!.
    + intros oid o Ho. rewrite deletePayment_orders in Ho.
      rewrite deletePayment_has_completed. by apply Hinv.
    + by rewrite deletePayment_orders.
    + intros k o. rewrite deletePayment_orders. apply Hm.
  - destruct (OrderService.updateOrderStatus now db id status)
      as [e|db'] eqn:Hu; [done|].
    split_and!.
    + intros oid o' Ho'.
      destruct (updateOrderStatus_lookup _ _ _ _ _ oid Hu) as (Hpay & _ & Hl).
      destruct (Hl _ Ho') as (o & Ho & _ & Hpaid & _).
      rewrite Hpaid, (has_completed_payment_ext db db') by done.
      by apply Hinv.
    + by apply (updateOrderStatus_lookup _ _ _ _ _ "" Hu).
    + intros k o' Ho'.
      destruct (updateOrderStatus_lookup _ _ _ _ _ k Hu) as (_ & _ & Hl).
      destruct (Hl _ Ho') as (o & Ho & Hid & _). rewrite Hid. by apply Hm.
Qed.

End AdminActions.

(** X5. Take a store in which every order is paid exactly when one of its
    payments is COMPLETED, no order has the empty id, and every order
    document carries its key as [id].  All three still hold after any
    sequence of payment status changes to a status other than REFUNDED,
    payment deletions and order status changes, whether each one is
    accepted or refused. *)
Theorem admin_actions_keep_ledger
    (db : Firestore) (actions : list Store.AdminAction) :
  paid_iff_completed db →
  orders db !! "" = None →
  Store.order_ids_match db →
  Forall Store.no_refund actions →
  paid_iff_completed (foldl Store.admin_step db actions)
  ∧ orders (foldl Store.admin_step db actions) !! "" = None
  ∧ Store.order_ids_match (foldl Store.admin_step db actions).
Proof.
  intros Hinv Hempty Hm Hall. revert db Hinv Hempty Hm.
  induction Hall as [|a actions Ha _ IH]; intros db Hinv Hempty Hm; [done|].
  cbn [foldl].
  destruct (admin_step_keeps db a Ha) as (H1 & H2 & H3); [done|].
  by apply IH.
Qed.

(** ** The life of an order *)

Lemma OrderService_updateOrderStatus_unfold now db id order status :
  orders db !! id = Some order →
  OrderService.updateOrderStatus now db id status
  = if OrderService.isValidOrderStatusTransition (Order.status order) status
    then if OrderService.paymentDependent status && negb (Order.isPaid order)
         then inl (OrderService.PaymentNotCompleted status)
         else inr (mkFirestore (payments db)
                     (alter (OrderService.order_status_update status now) id
                        (orders db)))
    else inl (OrderService.InvalidStatusTransition (Order.status order) status).
Proof. intros Ho. by apply updateOrderStatus_cases. Qed.

Lemma order_transition_rank (from to : OrderStatus.t) :
  OrderService.isValidOrderStatusTransition from to = true →
  (Store.rank from < Store.rank to)%nat.
Proof. destruct from, to; cbn; (discriminate || lia). Qed.

Lemma run_status_changes_bound db id calls o :
  orders db !! id = Some o →
  ((OrderWrites.run_status_changes db id calls).2
   + Store.rank (Order.status o) ≤ 5)%nat
  ∧ ∃ o', orders (OrderWrites.run_status_changes db id calls).1 !! id = Some o'
          ∧ (Store.rank (Order.status o) ≤ Store.rank (Order.status o'))%nat.
Proof.
  revert db o. induction calls as [|[now status] calls IH]; intros db o Ho.
  { cbn. split; [destruct (Order.status o); cbn; lia|]. by exists o. }
  cbn [OrderWrites.run_status_changes].
  rewrite (OrderService_updateOrderStatus_unfold now db id o status Ho).
  destruct (OrderService.isValidOrderStatusTransition _ _) eqn:Hv;
    [|by apply IH].
  destruct (_ && _); [by apply IH|].
  apply order_transition_rank in Hv.
  set (db' := mkFirestore _ _).
  assert (Ho' : orders db' !! id
                = Some (OrderService.order_status_update status now o))
    by (cbn; by rewrite lookup_alter_eq, Ho).
  destruct (IH db' _ Ho') as (Hb & o' & Hl & Hr). cbn in Hb, Hr.
  cbn [fst snd]. split; [lia|]. exists o'. split; [done|]. lia.
Qed.

(** X15. Through [updateOrderStatus] the status of an order only moves
    forward: an order accepts at most five status changes in its life,
    none once it is CANCELLED or REFUNDED, and never comes back to a status
    it has left. *)
Theorem order_status_only_moves_forward
    (db : Firestore) (id : string) (o : Order.t)
    (calls : list (Z * OrderStatus.t)) :
  orders db !! id = Some o →
  ((OrderWrites.run_status_changes db id calls).2 ≤ 5)%nat
  ∧ (Order.status o = OrderStatus.CANCELLED
     ∨ Order.status o = OrderStatus.REFUNDED →
     (OrderWrites.run_status_changes db id calls).2 = 0%nat)
  ∧ ∃ o', orders (OrderWrites.run_status_changes db id calls).1 !! id = Some o'
          ∧ ((OrderWrites.run_status_changes db id calls).2 = 0%nat →
             Order.status o' = Order.status o)
          ∧ ((0 < (OrderWrites.run_status_changes db id calls).2)%nat →
             Order.status o' ≠ Order.status o
             ∧ OrderService.isValidOrderStatusTransition
                 (Order.status o') (Order.status o) = false).
Proof.
  intros Ho.
  destruct (run_status_changes_bound db id calls o Ho) as (Hb & _).
  split; [lia|]. split.
  { intros [Hs | Hs]; rewrite Hs in Hb; cbn in Hb; lia. }
  clear Hb. revert db o Ho.
  induction calls as [|[now status] calls IH]; intros db o Ho.
  { cbn. exists o. split; [done|]. split; [done|lia]. }
  cbn [OrderWrites.run_status_changes].
  rewrite (OrderService_updateOrderStatus_unfold now db id o status Ho).
  destruct (OrderService.isValidOrderStatusTransition _ _) eqn:Hv;
    [|by apply IH].
  destruct (_ && _); [by apply IH|].
  apply order_transition_rank in Hv.
  set (db' := mkFirestore _ _).
  assert (Ho' : orders db' !! id
                = Some (OrderService.order_status_update status now o))
    by (cbn; by rewrite lookup_alter_eq, Ho).
  destruct (run_status_changes_bound db' id calls _ Ho')
    as (_ & o' & Hl & Hr).
  cbn in Hr. cbn [fst snd]. exists o'. split; [done|].
  split; [lia|]. intros _.
  assert (Hlt : (Store.rank (Order.status o) < Store.rank (Order.status o'))%nat)
    by lia.
  split.
  - intros Heq. rewrite Heq in Hlt. lia.
  - destruct (OrderService.isValidOrderStatusTransition _ _) eqn:Hback; [|done].
    apply order_transition_rank in Hback. lia.
Qed.

(** X16. Every payment that is neither COMPLETED nor REFUNDED can still be
    completed: from its status, at most two transitions the service allows
    lead to COMPLETED. *)
Theorem unsettled_payment_can_complete (s : PaymentStatus.t) :
  s ≠ PaymentStatus.COMPLETED →
  s ≠ PaymentStatus.REFUNDED →
  ∃ path, (length path ≤ 2)%nat
          ∧ PaymentHistory.valid_path s path = true
          ∧ last path = Some PaymentStatus.COMPLETED.
Proof.
  intros Hc Hr. destruct s; try done.
  - exists [PaymentStatus.COMPLETED]. cbn. split; [lia|done].
  - exists [PaymentStatus.COMPLETED]. cbn. split; [lia|done].
  - exists [PaymentStatus.PENDING; PaymentStatus.COMPLETED]. cbn. split; [lia|done].
  - exists [PaymentStatus.PENDING; PaymentStatus.COMPLETED]. cbn. split; [lia|done].
Qed.

(** ** Creating orders *)

Lemma order_id_not_empty (stamp : string) : "order_" +:+ stamp ≠ "".
Proof. cbn. discriminate. Qed.

Lemma payment_id_not_empty (stamp : string) : "payment_" +:+ stamp ≠ "".
Proof. cbn. discriminate. Qed.

(** X17. [saveOrder] stores the order under the id it returns, which is the
    id given when there is one and the fresh id otherwise, and writes that
    id into the document.  The items, total, status and paid flag are
    stored as given, no other order and no payment is touched, and if
    every order document carried its key as [id] before, this still
    holds. *)
Theorem saveOrder_round_trip
    (fresh_id : string) (timestamp : Z) (db : Firestore) (o : Order.t) :
  fresh_id ≠ "" →
  (OrderService.saveOrder fresh_id timestamp db o).2 ≠ ""
  ∧ (Order.id o ≠ "" →
     (OrderService.saveOrder fresh_id timestamp db o).2 = Order.id o)
  ∧ (∃ o', OrderService.getOrderById
             (OrderService.saveOrder fresh_id timestamp db o).1
             (OrderService.saveOrder fresh_id timestamp db o).2 = Some o'
           ∧ Order.id o' = (OrderService.saveOrder fresh_id timestamp db o).2
           ∧ Order.items o' = Order.items o
           ∧ Order.total o' = Order.total o
           ∧ Order.status o' = Order.status o
           ∧ Order.isPaid o' = Order.isPaid o
           ∧ Order.updatedAt o' = Some timestamp)
  ∧ (∀ k, k ≠ (OrderService.saveOrder fresh_id timestamp db o).2 →
          orders (OrderService.saveOrder fresh_id timestamp db o).1 !! k
          = orders db !! k)
  ∧ payments (OrderService.saveOrder fresh_id timestamp db o).1 = payments db
  ∧ (Store.order_ids_match db →
     Store.order_ids_match (OrderService.saveOrder fresh_id timestamp db o).1).
Proof.
  intros Hfresh. unfold OrderService.saveOrder, OrderService.getOrderById.
  cbn [fst snd orders payments].
  set (id := if falsy (Order.id o) then fresh_id else Order.id o).
  assert (Hid : id ≠ "").
  { unfold id. destruct (falsy (Order.id o)) eqn:Hf; [done|].
    intros Hc. apply falsy_true_iff in Hc. congruence. }
  split_and!; try done.
  - intros Ho. unfold id. by rewrite (falsy_false _ Ho).
  - rewrite lookup_insert_eq. by eexists.
  - intros k Hk. by rewrite lookup_insert_ne.
  - intros Hm k o'. cbn [orders]. destruct (decide (id = k)) as [<-|Hne].
    + rewrite lookup_insert_eq. by intros [= <-].
    + rewrite lookup_insert_ne by done. apply Hm.
Qed.

Lemma updatePaymentStatus_completed_orders clk db id p o :
  id ≠ "" → payments db !! id = Some p →
  isValidStatusTransition (Payment.status p) PaymentStatus.COMPLETED = true →
  Payment.orderId p ≠ "" →
  orders db !! Payment.orderId p = Some o →
  orders (updatePaymentStatus clk db id PaymentStatus.COMPLETED).1
  = <[Payment.orderId p := order_payment_update true (now_order clk) o]>
      (orders db).
Proof.
  intros Hid Hp Hv Hoid Ho.
  rewrite (updatePaymentStatus_valid _ _ _ _ _ Hid Hp Hv). cbn [fst].
  rewrite payment_eqb_refl, updateOrderPaymentStatus_orders.
  rewrite (falsy_false _ Hoid). cbn. by rewrite Ho.
Qed.

Section CreateOrder.
Import OrderWrites.

Lemma createOrderWithPayment_unfold f db orderData paymentMethod code :
  createOrderWithPayment f db orderData paymentMethod code
  = (mkFirestore
       (<["payment_" +:+ payment_stamp f :=
            Payment.mk ("payment_" +:+ payment_stamp f)
              ("order_" +:+ order_stamp f) (Order.userId orderData)
              (Order.total orderData)
              (match code with
               | Some c => if falsy c then generatedReferenceCode f else c
               | None => generatedReferenceCode f
               end)
              paymentMethod PaymentStatus.PENDING (payment_createdAt f)
              None None]> (payments db))
       (<["order_" +:+ order_stamp f :=
            Order.mk ("order_" +:+ order_stamp f)
              (if bool_decide (order_createdAt f = 0) then save_now f
               else order_createdAt f)
              (Order.items orderData) (Order.notes orderData)
              (orderNumber f) (Order.paymentMethod orderData)
              (Order.receiptNumber orderData)
              (Order.shippingAddress orderData) OrderStatus.PENDING
              (Order.total orderData) (Order.userId orderData) false
              (Order.paymentId orderData)
              (Some (match code with
                     | Some c => if falsy c then generatedReferenceCode f else c
                     | None => generatedReferenceCode f
                     end))
              (Some (save_now f))]> (orders db)),
     ("order_" +:+ order_stamp f, "payment_" +:+ payment_stamp f)).
Proof.
  unfold createOrderWithPayment, OrderService.saveOrder.
  cbn [fst snd payments orders Order.id Order.createdAt Order.items Order.notes
       Order.orderNumber Order.paymentMethod Order.receiptNumber
       Order.shippingAddress Order.status Order.total Order.userId
       Order.isPaid Order.paymentId Order.paymentReferenceCode Order.updatedAt].
  by rewrite (falsy_false _ (order_id_not_empty (order_stamp f))).
Qed.

End CreateOrder.

(** X10. [createOrderWithPayment] stores a PENDING, unpaid order and a
    PENDING payment without completion time that belongs to it: the
    payment's [orderId] is the order's id, its amount is the order's total
    (the total given by the caller, which is not recomputed from the
    items), and both carry the same reference code.  The two ids it
    returns are the keys of the two documents and are not empty. *)
Theorem createOrderWithPayment_links
    (f : OrderWrites.Fresh) (db db' : Firestore) (orderData : Order.t)
    (paymentMethod : string) (code : option string) (oid pid : string) :
  OrderWrites.createOrderWithPayment f db orderData paymentMethod code
  = (db', (oid, pid)) →
  oid ≠ "" ∧ pid ≠ ""
  ∧ ∃ o p, orders db' !! oid = Some o
           ∧ payments db' !! pid = Some p
           ∧ Order.id o = oid
           ∧ Order.status o = OrderStatus.PENDING
           ∧ Order.isPaid o = false
           ∧ Order.items o = Order.items orderData
           ∧ Order.total o = Order.total orderData
           ∧ Payment.id p = pid
           ∧ Payment.orderId p = oid
           ∧ Payment.amount p = Order.total o
           ∧ Payment.status p = PaymentStatus.PENDING
           ∧ Payment.completedAt p = None
           ∧ Order.paymentReferenceCode o = Some (Payment.referenceCode p).
Proof.
  rewrite createOrderWithPayment_unfold. intros [= <- <- <-].
  split; [apply order_id_not_empty|]. split; [apply payment_id_not_empty|].
  cbn [orders payments]. do 2 eexists.
  split; [apply lookup_insert_eq|]. split; [apply lookup_insert_eq|]. done.
Qed.

(** X11. Order creation followed by the completion of its payment: the
    status change is accepted, the order becomes paid and PROCESSING with
    its total unchanged, the payment is COMPLETED with the completion time
    of the call, and, the payment id being new, the total revenue grows by
    the order's total. *)
Theorem create_then_complete
    (f : OrderWrites.Fresh) (clk : Clock) (db db' : Firestore)
    (orderData : Order.t) (paymentMethod : string) (code : option string)
    (oid pid : string) :
  OrderWrites.createOrderWithPayment f db orderData paymentMethod code
  = (db', (oid, pid)) →
  (updatePaymentStatus clk db' pid PaymentStatus.COMPLETED).2 = Updated
  ∧ (∃ o p,
       orders (updatePaymentStatus clk db' pid PaymentStatus.COMPLETED).1
         !! oid = Some o
       ∧ payments (updatePaymentStatus clk db' pid PaymentStatus.COMPLETED).1
           !! pid = Some p
       ∧ Order.isPaid o = true
       ∧ Order.status o = OrderStatus.PROCESSING
       ∧ Order.total o = Order.total orderData
       ∧ Payment.status p = PaymentStatus.COMPLETED
       ∧ Payment.completedAt p = Some (now_completedAt clk))
  ∧ (payments db !! pid = None →
     getTotalRevenue (updatePaymentStatus clk db' pid PaymentStatus.COMPLETED).1
     = getTotalRevenue db + Order.total orderData).
Proof.
  rewrite createOrderWithPayment_unfold. intros [= <- <- <-].
  set (oid := "order_" +:+ OrderWrites.order_stamp f).
  set (pid := "payment_" +:+ OrderWrites.payment_stamp f).
  set (db' := mkFirestore _ _).
  assert (Hpid : pid ≠ "") by apply payment_id_not_empty.
  assert (Hoid : oid ≠ "") by apply order_id_not_empty.
  destruct (payments db' !! pid) as [p|] eqn:Hp;
    [|by (cbn in Hp; rewrite lookup_insert_eq in Hp)].
  assert (Hp' := Hp). cbn in Hp'. rewrite lookup_insert_eq in Hp'.
  injection Hp' as Hpe.
  assert (Hv : isValidStatusTransition (Payment.status p)
                 PaymentStatus.COMPLETED = true) by (by rewrite <- Hpe).
  assert (Hok : (updatePaymentStatus clk db' pid PaymentStatus.COMPLETED).2
                = Updated)
    by (by rewrite (updatePaymentStatus_valid _ _ _ _ _ Hpid Hp Hv)).
  split; [done|]. split.
  - assert (Ho : orders db' !! Payment.orderId p
                 = Some (Order.mk oid
                           (if bool_decide (OrderWrites.order_createdAt f = 0)
                            then OrderWrites.save_now f
                            else OrderWrites.order_createdAt f)
                           (Order.items orderData) (Order.notes orderData)
                           (OrderWrites.orderNumber f)
                           (Order.paymentMethod orderData)
                           (Order.receiptNumber orderData)
                           (Order.shippingAddress orderData)
                           OrderStatus.PENDING (Order.total orderData)
                           (Order.userId orderData) false
                           (Order.paymentId orderData)
                           (Some (Payment.referenceCode p))
                           (Some (OrderWrites.save_now f))))
      by (rewrite <- Hpe; apply lookup_insert_eq).
    assert (Hoidp : Payment.orderId p ≠ "") by (by rewrite <- Hpe).
    rewrite (updatePaymentStatus_completed_orders _ _ _ _ _ Hpid Hp Hv Hoidp Ho).
    rewrite (updatePaymentStatus_payments _ _ _ _ Hok).
    assert (Hoe : Payment.orderId p = oid) by (by rewrite <- Hpe).
    rewrite lookup_alter_eq, Hp, Hoe.
    rewrite lookup_insert_eq. do 2 eexists.
    split; [done|]. split; [done|]. by rewrite <- Hpe.
  - intros Hnew. rewrite !getTotalRevenue_share.
    rewrite (updatePaymentStatus_payments _ _ _ _ Hok).
    rewrite (total_share_alter _ _ _ _ Hp). cbn [db' payments].
    rewrite (total_share_insert _ _ _ Hnew). rewrite <- Hpe.
    unfold revenue_share. cbn. rewrite payment_eqb_refl.
    assert (PaymentStatus.eqb PaymentStatus.PENDING PaymentStatus.COMPLETED
            = false) as -> by done.
    lia.
Qed.

(** X12. [createOrderWithPayment] keeps every order paid exactly when one of
    its payments is COMPLETED, provided its two ids are new: no payment is
    stored under the payment id and no stored payment refers to the order
    id. *)
Theorem createOrderWithPayment_keeps_ledger
    (f : OrderWrites.Fresh) (db db' : Firestore) (orderData : Order.t)
    (paymentMethod : string) (code : option string) (oid pid : string) :
  OrderWrites.createOrderWithPayment f db orderData paymentMethod code
  = (db', (oid, pid)) →
  payments db !! pid = None →
  (∀ k q, payments db !! k = Some q → Payment.orderId q ≠ oid) →
  paid_iff_completed db →
  paid_iff_completed db'.
Proof.
  rewrite createOrderWithPayment_unfold. intros [= <- <- <-] Hnew Hunref Hinv.
  set (oid := "order_" +:+ OrderWrites.order_stamp f) in *.
  set (pid := "payment_" +:+ OrderWrites.payment_stamp f) in *.
  intros k o. cbn [orders]. unfold has_completed_payment. cbn [payments].
  destruct (decide (oid = k)) as [<-|Hne].
  - rewrite lookup_insert_eq. intros [= <-]. cbn [Order.isPaid].
    split; [done|]. intros (k' & q & Hq & Ho & Hs).
    destruct (decide (pid = k')) as [<-|Hk'].
    + rewrite lookup_insert_eq in Hq. injection Hq as <-. done.
    + rewrite lookup_insert_ne in Hq by done. by destruct (Hunref _ _ Hq).
  - rewrite lookup_insert_ne by done. intros Ho.
    rewrite (Hinv _ _ Ho). unfold has_completed_payment. split.
    + intros (k' & q & Hq & H). exists k', q. split; [|done].
      rewrite lookup_insert_ne; [done|]. intros Heq. rewrite <- Heq in Hq.
      congruence.
    + intros (k' & q & Hq & Hoq & Hs).
      destruct (decide (pid = k')) as [<-|Hk'].
      * rewrite lookup_insert_eq in Hq. injection Hq as <-. done.
      * rewrite lookup_insert_ne in Hq by done. by exists k', q.
Qed.

(** ** Recording a payment on the payment creation page *)

Section NewPayment.
Import NewPaymentPage.

Lemma handleSubmit_valid parseFloat f db formData selected a :
  orderId formData ≠ "" → amount formData ≠ "" →
  paymentMethod formData ≠ "" →
  Order.isPaid selected = false →
  parseFloat (amount formData) = Some a → 0 < a →
  handleSubmit parseFloat f db formData (Some selected)
  = match orders db !! orderId formData with
    | None =>
        (mkFirestore
           (<["payment_" +:+ payment_stamp f :=
                submitted_payment f formData selected a]> (payments db))
           (orders db),
         OrderUpdateFailed)
    | Some o =>
        (mkFirestore
           (<["payment_" +:+ payment_stamp f :=
                submitted_payment f formData selected a]> (payments db))
           (<[orderId formData :=
                OrderWrites.order_payment_record
                  ("payment_" +:+ payment_stamp f) (referenceCode f)
                  (order_now f) o]> (orders db)),
         Created ("payment_" +:+ payment_stamp f))
    end.
Proof.
  intros Ho Ha Hm Hpaid Hparse Hpos. unfold handleSubmit.
  rewrite (falsy_false _ Ho), (falsy_false _ Ha), (falsy_false _ Hm).
  cbn [orb]. rewrite Hpaid, Hparse.
  rewrite bool_decide_eq_false_2 by lia.
  unfold PaymentWrites.savePayment, OrderWrites.updateOrderPayment.
  cbn [fst snd payments orders Payment.id Payment.orderId Payment.userId
       Payment.amount Payment.referenceCode Payment.paymentMethod
       Payment.status Payment.createdAt Payment.completedAt].
  rewrite (falsy_false _ (payment_id_not_empty (payment_stamp f))).
  rewrite payment_eqb_refl. cbn [PaymentWrites.falsy_num andb].
  by destruct (orders db !! orderId formData).
Qed.

End NewPayment.

(** X13. A valid submit of the payment creation page (order, amount and
    method filled in, the order loaded by the page unpaid, the amount a
    positive number) for an order that is stored: the payment is saved as
    COMPLETED with the amount and a completion time, and the stored order
    becomes paid and PROCESSING, whatever its status was, with the id and
    reference code of the payment.  The payment id being new, the total
    revenue grows by the amount, and every order is still paid exactly
    when one of its payments is COMPLETED if that held before. *)
Theorem new_payment_marks_order_paid
    (parseFloat : string → option Z) (f : NewPaymentPage.Fresh)
    (db : Firestore) (formData : NewPaymentPage.FormData)
    (selected o : Order.t) (a : Z) :
  NewPaymentPage.orderId formData ≠ "" →
  NewPaymentPage.amount formData ≠ "" →
  NewPaymentPage.paymentMethod formData ≠ "" →
  Order.isPaid selected = false →
  parseFloat (NewPaymentPage.amount formData) = Some a →
  0 < a →
  orders db !! NewPaymentPage.orderId formData = Some o →
  ∃ db' pid p o',
    NewPaymentPage.handleSubmit parseFloat f db formData (Some selected)
    = (db', NewPaymentPage.Created pid)
    ∧ pid ≠ ""
    ∧ payments db' !! pid = Some p
    ∧ Payment.status p = PaymentStatus.COMPLETED
    ∧ Payment.amount p = a
    ∧ Payment.orderId p = NewPaymentPage.orderId formData
    ∧ Payment.completedAt p = Some (NewPaymentPage.save_now f)
    ∧ orders db' !! NewPaymentPage.orderId formData = Some o'
    ∧ Order.isPaid o' = true
    ∧ Order.status o' = OrderStatus.PROCESSING
    ∧ Order.paymentId o' = Some pid
    ∧ Order.paymentReferenceCode o' = Some (Payment.referenceCode p)
    ∧ Order.total o' = Order.total o
    ∧ (payments db !! pid = None →
       getTotalRevenue db' = getTotalRevenue db + a
       ∧ (paid_iff_completed db → paid_iff_completed db')).
Proof.
  intros Ho Ha Hm Hpaid Hparse Hpos Hstored.
  rewrite (handleSubmit_valid _ _ _ _ _ _ Ho Ha Hm Hpaid Hparse Hpos), Hstored.
  set (pid := "payment_" +:+ NewPaymentPage.payment_stamp f).
  set (oid := NewPaymentPage.orderId formData) in *.
  do 4 eexists. split; [done|]. split; [apply payment_id_not_empty|].
  cbn [payments orders].
  split; [apply lookup_insert_eq|]. do 4 (split; [done|]).
  split; [apply lookup_insert_eq|]. do 5 (split; [done|]).
  intros Hnew. split.
  - rewrite !getTotalRevenue_share. cbn [payments].
    rewrite (total_share_insert _ _ _ Hnew). unfold revenue_share. cbn.
    rewrite payment_eqb_refl. lia.
  - intros Hinv k o'. cbn [orders]. unfold has_completed_payment.
    cbn [payments].
    destruct (decide (oid = k)) as [<-|Hne].
    + rewrite lookup_insert_eq. intros [= <-]. cbn [Order.isPaid].
      split; [|done]. intros _. eexists pid, _.
      split; [apply lookup_insert_eq|done].
    + rewrite lookup_insert_ne by done. intros Hk.
      rewrite (Hinv _ _ Hk). unfold has_completed_payment. split.
      * intros (k' & q & Hq & H). exists k', q. split; [|done].
        rewrite lookup_insert_ne; [done|]. intros Heq. rewrite <- Heq in Hq.
        congruence.
      * intros (k' & q & Hq & Hoq & Hs).
        destruct (decide (pid = k')) as [<-|Hk'].
        -- rewrite lookup_insert_eq in Hq. injection Hq as <-. done.
        -- rewrite lookup_insert_ne in Hq by done. by exists k', q.
Qed.

(** X14. The other ways a submit of the payment creation page ends.  An
    order already paid on the page, an amount that is no number or not
    positive, a missing field or a missing order on the page are refused
    with the store as it was.  When the form is valid but the order is no
    longer stored, the COMPLETED payment is saved all the same, no order is
    written, and the update of the order is reported as failed. *)
Theorem new_payment_refusals
    (parseFloat : string → option Z) (f : NewPaymentPage.Fresh)
    (db : Firestore) (formData : NewPaymentPage.FormData) :
  (∀ selectedOrder,
     (∀ paymentId,
        (NewPaymentPage.handleSubmit parseFloat f db formData selectedOrder).2
        ≠ NewPaymentPage.Created paymentId) →
     (NewPaymentPage.handleSubmit parseFloat f db formData selectedOrder).2
     ≠ NewPaymentPage.OrderUpdateFailed →
     (NewPaymentPage.handleSubmit parseFloat f db formData selectedOrder).1
     = db)
  ∧ (∀ selected,
       Order.isPaid selected = true →
       (NewPaymentPage.handleSubmit parseFloat f db formData
          (Some selected)).1 = db)
  ∧ (∀ selected a,
       NewPaymentPage.orderId formData ≠ "" →
       NewPaymentPage.amount formData ≠ "" →
       NewPaymentPage.paymentMethod formData ≠ "" →
       Order.isPaid selected = false →
       parseFloat (NewPaymentPage.amount formData) = Some a →
       0 < a →
       orders db !! NewPaymentPage.orderId formData = None →
       ∃ db' p,
         NewPaymentPage.handleSubmit parseFloat f db formData (Some selected)
         = (db', NewPaymentPage.OrderUpdateFailed)
         ∧ payments db' !! ("payment_" +:+ NewPaymentPage.payment_stamp f)
           = Some p
         ∧ Payment.status p = PaymentStatus.COMPLETED
         ∧ Payment.amount p = a
         ∧ Payment.orderId p = NewPaymentPage.orderId formData
         ∧ orders db' = orders db).
Proof.
  split_and!.
  - intros selectedOrder. unfold NewPaymentPage.handleSubmit.
    destruct (_ || _); [done|].
    destruct selectedOrder as [order|]; [|done].
    destruct (Order.isPaid order); [done|].
    destruct (parseFloat _) as [a|]; [|done].
    destruct (bool_decide (a ≤ 0)); [done|].
    destruct (OrderWrites.updateOrderPayment _ _ _ _ _) as [db'|];
      cbn [fst snd].
    + intros H _. exfalso. by eapply H.
    + by intros _ H.
  - intros selected Hpaid. unfold NewPaymentPage.handleSubmit.
    destruct (_ || _); [done|]. by rewrite Hpaid.
  - intros selected a Ho Ha Hm Hpaid Hparse Hpos Hmissing.
    rewrite (handleSubmit_valid _ _ _ _ _ _ Ho Ha Hm Hpaid Hparse Hpos).
    rewrite Hmissing. do 2 eexists. split; [done|]. cbn [payments orders].
    split; [apply lookup_insert_eq|]. done.
Qed.

(** ** The selected products of the order creation page *)

Section Cart.
Import NewOrderCart Store.
Implicit Types (cart : list OrderItem.t) (item : OrderItem.t).
Implicit Types (productId : string) (g : OrderItem.t → Z).

Lemma calculateOrderTotal_items_total items :
  OrderService.calculateOrderTotal items = items_total items.
Proof.
  unfold OrderService.calculateOrderTotal. rewrite foldl_order_total. lia.
Qed.

Lemma requantify_id g productId item :
  OrderItem.id (requantify g productId item) = OrderItem.id item.
Proof. unfold requantify. by case_bool_decide. Qed.

Lemma requantify_ids g productId cart :
  OrderItem.id <$> (requantify g productId <$> cart) = OrderItem.id <$> cart.
Proof.
  induction cart as [|item cart IH]; [done|]. cbn.
  by rewrite requantify_id, IH.
Qed.

Lemma requantify_absent g productId cart :
  productId ∉ OrderItem.id <$> cart → requantify g productId <$> cart = cart.
Proof.
  induction cart as [|item cart IH]; [done|]. cbn.
  intros [Hne Hrest]%not_elem_of_cons. rewrite IH by done.
  unfold requantify. by rewrite bool_decide_eq_false_2.
Qed.

Lemma find_item_spec productId cart item :
  List.find (fun it => bool_decide (OrderItem.id it = productId)) cart
  = Some item →
  item ∈ cart ∧ OrderItem.id item = productId.
Proof.
  intros [Hin Hid]%find_some. split; [by apply list_elem_of_In|].
  by apply bool_decide_eq_true in Hid.
Qed.

Lemma find_item_none productId cart :
  List.find (fun it => bool_decide (OrderItem.id it = productId)) cart = None
  ↔ productId ∉ OrderItem.id <$> cart.
Proof.
  induction cart as [|item cart IH]; cbn.
  - split; [intros _; apply not_elem_of_nil | done].
  - rewrite not_elem_of_cons. case_bool_decide as Hid.
    + split; [done|]. by intros [? _].
    + rewrite IH. split; [by intros ?; split|by intros [_ ?]].
Qed.

Lemma find_item_unique productId cart item :
  NoDup (OrderItem.id <$> cart) → item ∈ cart →
  OrderItem.id item = productId →
  List.find (fun it => bool_decide (OrderItem.id it = productId)) cart
  = Some item.
Proof.
  induction cart as [|it cart IH]; cbn; [by intros _ ?%elem_of_nil|].
  intros [Hnot Hnd]%NoDup_cons Hin Hid.
  apply elem_of_cons in Hin as [<-|Hin].
  - by rewrite bool_decide_eq_true_2.
  - rewrite bool_decide_eq_false_2; [by apply IH|].
    intros Heq. apply Hnot. rewrite Heq, <- Hid.
    by apply list_elem_of_fmap_2.
Qed.

Lemma requantify_total g productId cart item :
  NoDup (OrderItem.id <$> cart) →
  List.find (fun it => bool_decide (OrderItem.id it = productId)) cart
  = Some item →
  items_total (requantify g productId <$> cart)
  = items_total cart
    + OrderItem.price item * (g item - OrderItem.quantity item).
Proof.
  induction cart as [|it cart IH]; cbn; [done|].
  intros [Hnot Hnd]%NoDup_cons.
  destruct (decide (OrderItem.id it = productId)) as [Hid|Hid].
  - rewrite (bool_decide_eq_true_2 _ Hid). intros [= <-].
    rewrite requantify_absent by (by rewrite <- Hid).
    unfold requantify. rewrite (bool_decide_eq_true_2 _ Hid). cbn. lia.
  - rewrite (bool_decide_eq_false_2 _ Hid). intros Hfind.
    rewrite (IH Hnd Hfind).
    unfold requantify. rewrite (bool_decide_eq_false_2 _ Hid). lia.
Qed.

Lemma handleAddProduct_cases products cart productId :
  handleAddProduct products cart productId
  = if includes "$" productId then cart
    else match List.find (fun p => bool_decide (Product.id p = productId))
                 products with
         | None => cart
         | Some product =>
             match List.find
                     (fun it => bool_decide (OrderItem.id it = productId))
                     cart with
             | Some _ =>
                 requantify (fun it => OrderItem.quantity it + 1) productId
                   <$> cart
             | None =>
                 cart ++
                   [OrderItem.mk (Product.id product)
                      (if falsy (Product.imageUrl product) then ""
                       else Product.imageUrl product)
                      (Product.name product) (Product.price product) 1
                      (Some (Product.category product))]
             end
         end.
Proof. done. Qed.

Lemma handleQuantityChange_cases cart productId quantity :
  handleQuantityChange cart productId quantity
  = if bool_decide (quantity < 1) then cart
    else requantify (fun _ => quantity) productId <$> cart.
Proof. done. Qed.

Lemma items_total_app (l1 l2 : list OrderItem.t) :
  items_total (l1 ++ l2) = items_total l1 + items_total l2.
Proof. induction l1 as [|it l1 IH]; cbn; [lia|]. rewrite IH. lia. Qed.

Lemma requantify_ok g productId cart :
  (∀ it, 1 ≤ OrderItem.quantity it → 1 ≤ g it) →
  cart_ok cart → cart_ok (requantify g productId <$> cart).
Proof.
  intros Hg [Hnd Hq]. split; [by rewrite requantify_ids|].
  apply Forall_fmap. eapply Forall_impl; [exact Hq|].
  intros it Hit. unfold requantify. cbn. case_bool_decide; cbn; [|done].
  by apply Hg.
Qed.

Lemma step_ok products cart a : cart_ok cart → cart_ok (step products cart a).
Proof.
  intros Hok. destruct a as [productId | productId | productId quantity]; cbn.
  - rewrite handleAddProduct_cases.
    destruct (includes "$" productId); [done|].
    destruct (List.find _ products) as [product|] eqn:Hp; [|done].
    destruct (List.find _ cart) as [item|] eqn:Hc.
    + apply requantify_ok; [|done]. intros it Hit. lia.
    + destruct Hok as [Hnd Hq].
      apply find_some in Hp as [_ Hpid]. apply bool_decide_eq_true in Hpid.
      apply find_item_none in Hc. split.
      * rewrite fmap_app. cbn. apply NoDup_app. split; [done|].
        split; [|apply NoDup_singleton].
        intros x Hx ->%list_elem_of_singleton. congruence.
      * apply Forall_app. split; [done|]. by apply Forall_singleton.
  - unfold handleRemoveProduct. destruct Hok as [Hnd Hq]. split.
    + eapply sublist_NoDup; [exact Hnd|].
      apply fmap_sublist, sublist_filter.
    + apply Forall_forall. intros x [_ Hx]%list_elem_of_filter.
      by apply (proj1 (Forall_forall _ _) Hq).
  - rewrite handleQuantityChange_cases. case_bool_decide as Hq; [done|].
    apply requantify_ok; [|done]. intros it _. lia.
Qed.

End Cart.

(** X18. Whatever the user does on the order creation page (adding
    products, removing them, changing quantities, in any order and with
    any arguments), the selected products have pairwise distinct ids and
    quantities of at least one. *)
Theorem selected_products_stay_distinct
    (products : list Product.t) (actions : list NewOrderCart.Action) :
  NoDup (OrderItem.id <$> NewOrderCart.run products actions)
  ∧ Forall (fun item => 1 ≤ OrderItem.quantity item)
      (NewOrderCart.run products actions).
Proof.
  unfold NewOrderCart.run.
  assert (H : ∀ cart, Store.cart_ok cart →
                      Store.cart_ok (foldl (NewOrderCart.step products) cart
                                       actions)).
  { induction actions as [|a actions IH]; intros cart Hok; [done|].
    cbn. by apply IH, step_ok. }
  apply H. split; [apply NoDup_nil_2 | apply Forall_nil_2].
Qed.

(** X19. [handleAddProduct] leaves the selection as it is for an id that
    contains a dollar sign or that no product carries.  Otherwise, on a
    selection with distinct ids, it adds a line with quantity one for a
    product not yet selected and raises by one the quantity of the line of
    a product already selected; the order total grows by the price of the
    product in the first case and by the price recorded on the line in the
    second. *)
Theorem add_product_total
    (products : list Product.t) (cart : list OrderItem.t)
    (productId : string) :
  (NewOrderCart.includes "$" productId = true
   ∨ List.find (fun p => bool_decide (Product.id p = productId)) products
     = None →
   NewOrderCart.handleAddProduct products cart productId = cart)
  ∧ (∀ product,
       NoDup (OrderItem.id <$> cart) →
       NewOrderCart.includes "$" productId = false →
       List.find (fun p => bool_decide (Product.id p = productId)) products
       = Some product →
       (productId ∉ OrderItem.id <$> cart →
        length (NewOrderCart.handleAddProduct products cart productId)
        = S (length cart)
        ∧ OrderService.calculateOrderTotal
            (NewOrderCart.handleAddProduct products cart productId)
          = OrderService.calculateOrderTotal cart + Product.price product)
       ∧ (∀ item, item ∈ cart → OrderItem.id item = productId →
            length (NewOrderCart.handleAddProduct products cart productId)
            = length cart
            ∧ OrderService.calculateOrderTotal
                (NewOrderCart.handleAddProduct products cart productId)
              = OrderService.calculateOrderTotal cart + OrderItem.price item)).
Proof.
  rewrite handleAddProduct_cases. split.
  - intros [-> | ->]; [done|]. by destruct (NewOrderCart.includes _ _).
  - intros product Hnd -> ->. split.
    + intros Habs. apply find_item_none in Habs. rewrite Habs.
      rewrite length_app, !calculateOrderTotal_items_total, items_total_app.
      cbn. split; lia.
    + intros item Hin Hid.
      rewrite (find_item_unique _ _ _ Hnd Hin Hid).
      rewrite length_fmap, !calculateOrderTotal_items_total.
      rewrite (requantify_total _ _ _ item Hnd);
        [|by apply find_item_unique].
      split; [done|]. lia.
Qed.

(** X20. [handleRemoveProduct] removes every line with the given id and
    keeps the others in order; on a selection with distinct ids the order
    total drops by the price times the quantity of the removed line, and an
    id that is not selected changes nothing. *)
Theorem remove_product_total (cart : list OrderItem.t) (productId : string) :
  (productId ∉ OrderItem.id <$> NewOrderCart.handleRemoveProduct cart productId)
  ∧ (∀ item, item ∈ NewOrderCart.handleRemoveProduct cart productId
             ↔ item ∈ cart ∧ OrderItem.id item ≠ productId)
  ∧ (NewOrderCart.handleRemoveProduct cart productId) `sublist_of` cart
  ∧ (productId ∉ OrderItem.id <$> cart →
     NewOrderCart.handleRemoveProduct cart productId = cart)
  ∧ (∀ item, NoDup (OrderItem.id <$> cart) → item ∈ cart →
             OrderItem.id item = productId →
             OrderService.calculateOrderTotal
               (NewOrderCart.handleRemoveProduct cart productId)
             = OrderService.calculateOrderTotal cart
               - OrderItem.price item * OrderItem.quantity item).
Proof.
  unfold NewOrderCart.handleRemoveProduct.
  assert (Hmem : ∀ (l : list OrderItem.t) item,
            item ∈ filter (fun it => OrderItem.id it ≠ productId) l
            ↔ item ∈ l ∧ OrderItem.id item ≠ productId).
  { intros l item. rewrite list_elem_of_filter. tauto. }
  assert (Habs : ∀ l : list OrderItem.t,
            productId ∉ OrderItem.id <$> l →
            filter (fun it => OrderItem.id it ≠ productId) l = l).
  { induction l as [|it l IH]; [done|]. rewrite fmap_cons.
    intros [Hne Hrest]%not_elem_of_cons.
    rewrite filter_cons_True by (intros Hc; by apply Hne).
    by rewrite IH. }
  split_and!.
  - intros (item & Hid & Hin)%list_elem_of_fmap. apply Hmem in Hin as [_ Hne].
    congruence.
  - apply Hmem.
  - apply sublist_filter.
  - apply Habs.
  - intros item Hnd Hin Hid. rewrite !calculateOrderTotal_items_total.
    induction cart as [|it cart IH]; [by apply elem_of_nil in Hin|].
    rewrite fmap_cons in Hnd. apply NoDup_cons in Hnd as [Hnot Hnd].
    apply elem_of_cons in Hin as [<-|Hin].
    + rewrite filter_cons_False by (intros Hc; by apply Hc).
      rewrite Habs by (by rewrite <- Hid). cbn. lia.
    + rewrite filter_cons_True.
      * cbn. rewrite IH by done. lia.
      * intros Heq. apply Hnot. rewrite Heq, <- Hid.
        by apply list_elem_of_fmap_2.
Qed.

(** X21. [handleQuantityChange] ignores a quantity below one.  Otherwise it
    sets the quantity of the lines with the given id and keeps the number
    and the ids of the lines; on a selection with distinct ids the order
    total changes by the price of the line times the change of its
    quantity. *)
Theorem quantity_change_total
    (cart : list OrderItem.t) (productId : string) (quantity : Z) :
  (quantity < 1 →
   NewOrderCart.handleQuantityChange cart productId quantity = cart)
  ∧ OrderItem.id <$> NewOrderCart.handleQuantityChange cart productId quantity
    = OrderItem.id <$> cart
  ∧ (1 ≤ quantity →
     ∀ item, item ∈ NewOrderCart.handleQuantityChange cart productId quantity →
             OrderItem.id item = productId → OrderItem.quantity item = quantity)
  ∧ (1 ≤ quantity →
     ∀ item, NoDup (OrderItem.id <$> cart) → item ∈ cart →
             OrderItem.id item = productId →
             OrderService.calculateOrderTotal
               (NewOrderCart.handleQuantityChange cart productId quantity)
             = OrderService.calculateOrderTotal cart
               + OrderItem.price item * (quantity - OrderItem.quantity item)).
Proof.
  rewrite handleQuantityChange_cases. split_and!.
  - intros Hq. by rewrite bool_decide_eq_true_2.
  - case_bool_decide; [done|]. apply requantify_ids.
  - intros Hq item. rewrite bool_decide_eq_false_2 by lia.
    intros (it & -> & Hin)%list_elem_of_fmap. unfold Store.requantify.
    case_bool_decide as Hid; cbn; [done|]. intros Hc. congruence.
  - intros Hq item Hnd Hin Hid. rewrite bool_decide_eq_false_2 by lia.
    rewrite !calculateOrderTotal_items_total.
    by rewrite (requantify_total _ _ _ item Hnd);
      [|by apply find_item_unique].
Qed.

(** ** The status controls of the detail pages *)

(** No status is offered, or allowed, from itself. *)
Lemma no_self_transition (s : PaymentStatus.t) :
  isValidStatusTransition s s = false ∧ PaymentDetailClient.offers s s = false.
Proof. by destruct s. Qed.

Lemma offered_and_valid (from to : PaymentStatus.t) :
  PaymentDetailClient.offers from to = true →
  isValidStatusTransition from to = true
  ↔ ¬ (from = PaymentStatus.FAILED ∧ to = PaymentStatus.PROCESSING).
Proof.
  intros Hoff. split.
  - intros Hv [-> ->]. by vm_compute in Hv.
  - intros Hn. destruct from, to; try done. exfalso. by apply Hn.
Qed.

(** X22. The payment detail page does not read the result of
    [updatePaymentStatus].  For a page that holds a copy [p] of a stored
    payment [q]: after [handleUpdateStatus] the copy always shows the
    picked status and the selection is cleared, while the stored payment
    has that status only if the service allows the transition from the
    stored status.  Provided the copy shows the stored status before the
    call, as it does once the page has loaded the payment, then for the
    statuses the page offers, page and store agree afterwards except for
    FAILED to PROCESSING, which the page offers and the service refuses:
    the page then shows PROCESSING and the store keeps FAILED.  From then
    on the copy no longer shows the stored status. *)
Theorem payment_page_may_disagree_with_store
    (clk : Clock) (now_local now_local_completed : Z) (db : Firestore)
    (p q : Payment.t) (status : PaymentStatus.t) :
  Payment.id p ≠ "" →
  payments db !! Payment.id p = Some q →
  ∃ shown stored,
    PaymentDetailPage.handleUpdateStatus clk now_local now_local_completed db
      (Some p) (Some status)
    = ((updatePaymentStatus clk db (Payment.id p) status).1, Some shown, None)
    ∧ Payment.status shown = status
    ∧ payments (updatePaymentStatus clk db (Payment.id p) status).1
        !! Payment.id p = Some stored
    ∧ (Payment.status stored = status
       ↔ status ∈ validTransitions (Payment.status q)
         ∨ status = Payment.status q)
    ∧ (status ∉ validTransitions (Payment.status q) →
       Payment.status stored = Payment.status q)
    ∧ (Payment.status p = Payment.status q →
       PaymentDetailClient.offers (Payment.status p) status = true →
       Payment.status stored = Payment.status shown
       ↔ ¬ (Payment.status p = PaymentStatus.FAILED
            ∧ status = PaymentStatus.PROCESSING)).
Proof.
  intros Hid Hq.
  cbn [PaymentDetailPage.handleUpdateStatus].
  destruct (isValidStatusTransition (Payment.status q) status) eqn:Hv.
  - assert (Hok : (updatePaymentStatus clk db (Payment.id p) status).2 = Updated)
      by (by rewrite (updatePaymentStatus_valid _ _ _ _ _ Hid Hq Hv)).
    rewrite (updatePaymentStatus_payments _ _ _ _ Hok).
    rewrite lookup_alter_eq, Hq. cbn. do 2 eexists.
    split; [done|]. split; [done|]. split; [done|]. cbn.
    split_and!.
    + split; [|done]. intros _. left. by apply isValidStatusTransition_spec.
    + intros Hn. by apply isValidStatusTransition_spec in Hv.
    + intros Hst Hoff. split; [|done]. intros _.
      rewrite <- Hst in Hv. by apply (offered_and_valid _ _ Hoff).
  - assert (Hrej : (updatePaymentStatus clk db (Payment.id p) status).2
                   ≠ Updated).
    { intros Hok. apply updatePaymentStatus_accepted in Hok
        as (_ & q' & Hq' & Hv'). congruence. }
    rewrite (updatePaymentStatus_rejected _ _ _ _ Hrej), Hq.
    do 2 eexists. split; [done|]. split; [done|]. split; [done|]. cbn.
    split_and!.
    + split.
      * intros Heq. by right.
      * intros [Hin | Heq]; [|done].
        apply isValidStatusTransition_spec in Hin. congruence.
    + done.
    + intros Hst Hoff. rewrite <- Hst in Hv |- *. split.
      * intros Heq. rewrite <- Heq in Hoff.
        destruct (no_self_transition (Payment.status p)) as [_ Hs]. congruence.
      * intros Hn. apply (offered_and_valid _ _ Hoff) in Hn. congruence.
Qed.

(** X23. The order detail page changes its copy of the order only when
    [updateOrderStatus] succeeds.  Provided the copy [o] shows the status
    and the paid flag of the stored order before the call, as it does once
    the page has loaded the order, then after [handleStatusChange] the
    status and the paid flag shown are again those of the stored order, so
    that this holds for every further change made on the same page; and a
    refused change leaves both the page and the store as they were. *)
Theorem order_page_agrees_with_store
    (now : Z) (db : Firestore) (o before : Order.t)
    (newStatus : OrderStatus.t) :
  orders db !! Order.id o = Some before →
  Order.status o = Order.status before →
  Order.isPaid o = Order.isPaid before →
  ∃ shown stored,
    (OrderDetailPage.handleStatusChange now db (Some o) newStatus).2
    = Some shown
    ∧ orders (OrderDetailPage.handleStatusChange now db (Some o) newStatus).1
        !! Order.id o = Some stored
    ∧ Order.status shown = Order.status stored
    ∧ Order.isPaid shown = Order.isPaid stored
    ∧ Order.id shown = Order.id o
    ∧ (Order.status shown = newStatus
       ∨ OrderDetailPage.handleStatusChange now db (Some o) newStatus
         = (db, Some o)).
Proof.
  intros Ho Hst Hpaid. cbn [OrderDetailPage.handleStatusChange].
  rewrite (OrderService_updateOrderStatus_unfold now db _ before newStatus Ho).
  destruct (OrderService.isValidOrderStatusTransition _ _).
  - destruct (_ && _).
    + exists o, before. cbn. split_and!; try done. by right.
    + do 2 eexists. cbn. rewrite lookup_alter_eq, Ho. cbn.
      split_and!; try done. by left.
  - exists o, before. cbn. split_and!; try done. by right.
Qed.

(** ** Reading the payments of an order *)

(** X26. [getPaymentsByOrderId] returns nothing for the empty order id.
    For any other id it returns exactly the stored payments of that order,
    each under the id of its document and each once. *)
Theorem getPaymentsByOrderId_exact (db : Firestore) (orderId : string) :
  (orderId = "" → getPaymentsByOrderId db orderId = [])
  ∧ (orderId ≠ "" →
     ∀ p, p ∈ getPaymentsByOrderId db orderId
          ↔ ∃ k q, payments db !! k = Some q
                   ∧ Payment.orderId q = orderId
                   ∧ p = Payment.with_id k q)
  ∧ Forall (fun p => Payment.orderId p = orderId)
      (getPaymentsByOrderId db orderId)
  ∧ NoDup (Payment.id <$> getPaymentsByOrderId db orderId).
Proof.
  unfold getPaymentsByOrderId. split_and!.
  - by intros ->.
  - intros Hne p. rewrite (falsy_false _ Hne), list_elem_of_fmap. split.
    + intros ([k q] & -> & [Ho Hin]%list_elem_of_filter).
      apply elem_of_map_to_list in Hin. by exists k, q.
    + intros (k & q & Hq & Ho & ->). exists (k, q). split; [done|].
      apply list_elem_of_filter. split; [done|].
      by apply elem_of_map_to_list.
  - destruct (falsy orderId); [by apply Forall_nil_2|].
    apply Forall_fmap, Forall_forall.
    by intros [k q] [Ho _]%list_elem_of_filter.
  - destruct (falsy orderId); [apply NoDup_nil_2|].
    rewrite <- list_fmap_compose.
    eapply sublist_NoDup; [apply (NoDup_fst_map_to_list (payments db))|].
    apply fmap_sublist, sublist_filter.
Qed.

(** ** User roles *)

(** X24. A role is valid exactly when it is one of admin, user,
    community_admin, player and fan; [getUserRoleDisplayName] answers
    "Unknown Role" exactly for the roles that are not valid, and gives
    different names to different valid roles. *)
Theorem user_role_names (role : string) :
  (UserRoles.isValidRole role = true ↔ role ∈ UserRoles.getAllUserRoles)
  ∧ (UserRoles.getUserRoleDisplayName role = "Unknown Role"
     ↔ UserRoles.isValidRole role = false)
  ∧ (∀ other, UserRoles.isValidRole role = true →
              UserRoles.getUserRoleDisplayName other
              = UserRoles.getUserRoleDisplayName role →
              other = role).
Proof.
  assert (Hvalid : UserRoles.isValidRole role = true
                   ↔ role ∈ UserRoles.getAllUserRoles).
  { unfold UserRoles.isValidRole. rewrite existsb_exists. split.
    - intros (r & Hin & Heq). apply bool_decide_eq_true in Heq. subst r.
      by apply list_elem_of_In.
    - intros Hin. exists role. split; [by apply list_elem_of_In|].
      by apply bool_decide_eq_true. }
  split; [done|]. split.
  - rewrite <- not_true_iff_false, Hvalid.
    unfold UserRoles.getUserRoleDisplayName, UserRoles.getAllUserRoles.
    rewrite !elem_of_cons, elem_of_nil.
    repeat case_bool_decide; subst; (split; [try done | try tauto]).
    all: try (intros _; intros Hc;
              by destruct Hc as [? | [? | [? | [? | [? | ?]]]]]).
  - intros other Hrole. apply Hvalid in Hrole.
    unfold UserRoles.getAllUserRoles in Hrole.
    rewrite !elem_of_cons, elem_of_nil in Hrole.
    unfold UserRoles.getUserRoleDisplayName.
    destruct Hrole as [-> | [-> | [-> | [-> | [-> | []]]]]]; cbn;
      repeat case_bool_decide; subst; try done.
Qed.

(** ** Orders by status *)

Section Breakdown.
Import Analytics Store.
Implicit Types (sd : list (OrderStatus.t * Z)) (docs : list Order.t).
Implicit Types (s : OrderStatus.t).

Lemma order_eqb_eq (a b : OrderStatus.t) : OrderStatus.eqb a b = true ↔ a = b.
Proof. unfold OrderStatus.eqb. by rewrite bool_decide_eq_true. Qed.

Lemma order_eqb_neq (a b : OrderStatus.t) : OrderStatus.eqb a b = false ↔ a ≠ b.
Proof. unfold OrderStatus.eqb. by rewrite bool_decide_eq_false. Qed.

Lemma order_value_inj (a b : OrderStatus.t) :
  OrderStatus.value a = OrderStatus.value b → a = b.
Proof. by destruct a, b. Qed.

Lemma order_value_truthy s : falsy (OrderStatus.value s) = false.
Proof. by destruct s. Qed.

Lemma recorded_elem sd s n :
  status_data_ok sd → (s, n) ∈ sd ↔ recorded sd s = n ∧ 0 < n.
Proof.
  induction sd as [|[s' m] sd IH]; intros [Hnd Hpos].
  { cbn. split; [by intros ?%elem_of_nil | lia]. }
  rewrite fmap_cons in Hnd. apply NoDup_cons in Hnd as [Hnot Hnd].
  apply Forall_cons in Hpos as [Hm Hpos]. cbn in Hm, Hnot.
  rewrite elem_of_cons. cbn [recorded].
  destruct (OrderStatus.eqb s' s) eqn:He.
  - apply order_eqb_eq in He as ->. split.
    + intros [[= ->] | Hin]; [done|].
      exfalso. apply Hnot. by apply (list_elem_of_fmap_2 fst _ (s, n)).
    + intros [-> _]. by left.
  - apply order_eqb_neq in He. rewrite <- (IH (conj Hnd Hpos)). split.
    + intros [[= -> ->] | Hin]; done.
    + by right.
Qed.

Lemma count_status_keys s sd :
  (count_status s sd).*1
  = if bool_decide (s ∈ sd.*1) then sd.*1 else sd.*1 ++ [s].
Proof.
  induction sd as [|[s' n] sd IH].
  { cbn. rewrite bool_decide_eq_false_2; [done|]. apply not_elem_of_nil. }
  cbn [count_status]. destruct (OrderStatus.eqb s' s) eqn:He.
  - apply order_eqb_eq in He as ->. rewrite !fmap_cons. cbn.
    rewrite bool_decide_eq_true_2; [done|]. by left.
  - apply order_eqb_neq in He. rewrite !fmap_cons, IH. cbn.
    destruct (decide (s ∈ sd.*1)) as [Hin|Hin].
    + rewrite !bool_decide_eq_true_2; [done|by right|done].
    + rewrite !bool_decide_eq_false_2; [done| |done].
      by intros [?|?]%elem_of_cons.
Qed.

Lemma count_status_recorded s sd s' :
  recorded (count_status s sd) s'
  = recorded sd s' + (if OrderStatus.eqb s s' then 1 else 0).
Proof.
  induction sd as [|[s1 n] sd IH]; cbn [count_status recorded].
  { destruct (OrderStatus.eqb s s'); lia. }
  destruct (OrderStatus.eqb s1 s) eqn:He; cbn [recorded].
  - apply order_eqb_eq in He as ->.
    destruct (OrderStatus.eqb s s'); [case_bool_decide|]; lia.
  - rewrite IH. destruct (OrderStatus.eqb s1 s') eqn:He'; [|done].
    apply order_eqb_eq in He'. subst s1. apply order_eqb_neq in He.
    assert (OrderStatus.eqb s s' = false) as ->
      by (apply order_eqb_neq; congruence).
    lia.
Qed.

Lemma count_status_sum s sd :
  sumZ (count_status s sd).*2 = sumZ sd.*2 + 1.
Proof.
  unfold sumZ. induction sd as [|[s1 n] sd IH]; cbn; [done|].
  destruct (OrderStatus.eqb s1 s); cbn; [case_bool_decide; lia|].
  cbn in IH. rewrite IH. lia.
Qed.

Lemma count_status_ok s sd :
  status_data_ok sd → status_data_ok (count_status s sd).
Proof.
  intros [Hnd Hpos]. split.
  - rewrite count_status_keys. case_bool_decide as Hin; [done|].
    apply NoDup_app. split; [done|]. split; [|apply NoDup_singleton].
    intros x Hx ->%list_elem_of_singleton. done.
  - clear Hnd. induction sd as [|[s1 n] sd IH]; cbn.
    { by apply Forall_singleton. }
    apply Forall_cons in Hpos as [Hn Hpos]. cbn in Hn.
    destruct (OrderStatus.eqb s1 s).
    + apply Forall_cons. split; [|done]. cbn. case_bool_decide; lia.
    + apply Forall_cons. split; [done|]. by apply IH.
Qed.

Lemma orders_with_status_cons s o docs :
  Z.of_nat (orders_with_status s (o :: docs))
  = (if OrderStatus.eqb (Order.status o) s then 1 else 0)
    + Z.of_nat (orders_with_status s docs).
Proof.
  unfold orders_with_status. rewrite filter_cons. unfold OrderStatus.eqb.
  case_decide as Hs.
  - rewrite (bool_decide_eq_true_2 _ Hs). cbn [length]. lia.
  - rewrite (bool_decide_eq_false_2 _ Hs). lia.
Qed.

Lemma group_fold sd docs :
  let grouped :=
    foldl (fun statusData order =>
             if falsy (OrderStatus.value (Order.status order)) then statusData
             else count_status (Order.status order) statusData) sd docs in
  (∀ s, recorded grouped s
        = recorded sd s + Z.of_nat (orders_with_status s docs))
  ∧ sumZ grouped.*2 = sumZ sd.*2 + Z.of_nat (length docs)
  ∧ (status_data_ok sd → status_data_ok grouped).
Proof.
  revert sd. induction docs as [|o docs IH]; intros sd; cbn zeta.
  { unfold orders_with_status, sumZ. cbn.
    split_and!; [intros s; lia | lia | done]. }
  cbn [foldl]. rewrite order_value_truthy.
  destruct (IH (count_status (Order.status o) sd)) as (Hrec & Hsum & Hok).
  cbn zeta in Hrec, Hsum, Hok. split_and!.
  - intros s. rewrite Hrec, count_status_recorded, orders_with_status_cons.
    lia.
  - rewrite Hsum, count_status_sum. cbn [length]. lia.
  - intros H. by apply Hok, count_status_ok.
Qed.

End Breakdown.

(** X25. [getOrderStatusBreakdown] lists every status that some stored
    order has, once, with the number of stored orders in that status, and
    no other status; the numbers add up to the number of stored orders. *)
Theorem order_status_breakdown_counts (db : Firestore) :
  NoDup (Analytics.getOrderStatusBreakdown db).*1
  ∧ (∀ s n,
       (OrderStatus.value s, n) ∈ Analytics.getOrderStatusBreakdown db
       ↔ n = Z.of_nat (Store.orders_with_status s (map_to_list (orders db)).*2)
         ∧ 0 < n)
  ∧ (∀ name n, (name, n) ∈ Analytics.getOrderStatusBreakdown db →
               ∃ s, name = OrderStatus.value s)
  ∧ sumZ (Analytics.getOrderStatusBreakdown db).*2
    = Z.of_nat (size (orders db)).
Proof.
  unfold Analytics.getOrderStatusBreakdown, Analytics.group_by_status.
  destruct (group_fold [] (map_to_list (orders db)).*2) as (Hrec & Hsum & Hok).
  cbn zeta in Hrec, Hsum, Hok.
  set (grouped := foldl _ [] _) in *.
  assert (Hgood : Store.status_data_ok grouped).
  { apply Hok. split; [apply NoDup_nil_2 | apply Forall_nil_2]. }
  split_and!.
  - rewrite <- list_fmap_compose.
    apply (NoDup_fmap_2_strong (fun e => OrderStatus.value e.1)).
    + intros [s1 n1] [s2 n2] H1 H2 Heq. cbn in Heq.
      apply order_value_inj in Heq as ->.
      apply (recorded_elem _ _ _ Hgood) in H1 as [<- _].
      by apply (recorded_elem _ _ _ Hgood) in H2 as [<- _].
    + destruct Hgood as [Hnd _]. by apply NoDup_fmap_1 in Hnd.
  - intros s n. rewrite list_elem_of_fmap. split.
    + intros ([s' n'] & [= Hs ->] & Hin). apply order_value_inj in Hs as <-.
      apply (recorded_elem _ _ _ Hgood) in Hin as [<- Hpos].
      split; [|done]. rewrite Hrec. cbn. lia.
    + intros [-> Hpos]. exists (s, Z.of_nat
        (Store.orders_with_status s (map_to_list (orders db)).*2)).
      split; [done|]. apply (recorded_elem _ _ _ Hgood).
      split; [|done]. rewrite Hrec. cbn. lia.
  - intros name n ([s' n'] & [= -> ->] & _)%list_elem_of_fmap. by exists s'.
  - rewrite <- list_fmap_compose.
    replace (sumZ ((snd ∘ (fun e : OrderStatus.t * Z => (OrderStatus.value e.1, e.2)))
                     <$> grouped)) with (sumZ grouped.*2) by done.
    rewrite Hsum. cbn. rewrite length_fmap, length_map_to_list. lia.
Qed.

(** ** The further theorems at sample data *)

Lemma savePayment_stores_and_stamps_witness :
  5000 ≠ 0
  ∧ ∃ p', payments
            (PaymentWrites.savePayment "payment_5000" 5000 Sample.db_new
               MoreSamples.entered).1 !! "payment_5000" = Some p'
          ∧ Payment.status p' = PaymentStatus.COMPLETED
          ∧ ∃ t, Payment.completedAt p' = Some t ∧ t ≠ 0.
Proof.
  assert (H1 : 5000 ≠ 0) by lia.
  split; [exact H1|].
  destruct (savePayment_stores_and_stamps "payment_5000" 5000 Sample.db_new
              MoreSamples.entered H1)
    as (p' & Hp & _ & Hs & _ & _ & _ & Hc & _).
  exists p'. split; [exact Hp|]. split; [exact Hs|]. by apply Hc.
Defined.


Lemma admin_actions_keep_ledger_witness :
  paid_iff_completed Sample.db_shipped
  ∧ orders Sample.db_shipped !! "" = None
  ∧ Store.order_ids_match Sample.db_shipped
  ∧ Forall Store.no_refund MoreSamples.actions
  ∧ paid_iff_completed
      (foldl Store.admin_step Sample.db_shipped MoreSamples.actions).
Proof.
  assert (H1 : paid_iff_completed Sample.db_shipped)
    by (apply paid_iff_completed_b_spec; vm_compute; reflexivity).
  assert (H2 : orders Sample.db_shipped !! "" = None)
    by (vm_compute; reflexivity).
  assert (H3 : Store.order_ids_match Sample.db_shipped).
  { change (map_Forall (fun k o => Order.id o = k) (orders Sample.db_shipped)).
    compute_done. }
  assert (H4 : Forall Store.no_refund MoreSamples.actions)
    by (repeat constructor; discriminate).
  split; [exact H1|]. split; [exact H2|]. split; [exact H3|].
  split; [exact H4|].
  exact (proj1 (admin_actions_keep_ledger Sample.db_shipped
                  MoreSamples.actions H1 H2 H3 H4)).
Defined.

Lemma updatePaymentStatus_frame_witness :
  payments Sample.db_shipped !! "p2"
  = Some (Sample.payment "p2" "o1" 25 PaymentStatus.PENDING None)
  ∧ ∀ k, k ≠ "p2" →
         payments (updatePaymentStatus Sample.clk Sample.db_shipped "p2"
                     PaymentStatus.COMPLETED).1 !! k
         = payments Sample.db_shipped !! k.
Proof.
  assert (H1 : payments Sample.db_shipped !! "p2"
               = Some (Sample.payment "p2" "o1" 25 PaymentStatus.PENDING None))
    by (vm_compute; reflexivity).
  split; [exact H1|].
  exact (proj1 (updatePaymentStatus_frame Sample.clk Sample.db_shipped "p2"
                  PaymentStatus.COMPLETED _ H1)).
Defined.

Lemma failed_payment_shielded_by_completed_witness :
  (updatePaymentStatus Sample.clk Sample.db_shipped "p2"
     PaymentStatus.FAILED).2 = Updated
  ∧ orders (updatePaymentStatus Sample.clk Sample.db_shipped "p2"
              PaymentStatus.FAILED).1 = orders Sample.db_shipped.
Proof.
  apply (failed_payment_shielded_by_completed Sample.clk Sample.db_shipped
           "p2" (Sample.payment "p2" "o1" 25 PaymentStatus.PENDING None)).
  - discriminate.
  - vm_compute; reflexivity.
  - by left.
  - apply isValidStatusTransition_spec. vm_compute; reflexivity.
  - discriminate.
  - apply hasCompletedPayment_spec; [discriminate|]. vm_compute; reflexivity.
Defined.

Lemma payment_of_deleted_order_witness :
  (updatePaymentStatus Sample.clk (OrderWrites.deleteOrder Sample.db_new "o1")
     "p1" PaymentStatus.COMPLETED).2 = Updated
  ∧ orders (updatePaymentStatus Sample.clk
              (OrderWrites.deleteOrder Sample.db_new "o1") "p1"
              PaymentStatus.COMPLETED).1
    = delete "o1" (orders Sample.db_new).
Proof.
  destruct (payment_of_deleted_order Sample.clk Sample.db_new "p1"
              (Sample.payment "p1" "o1" 25 PaymentStatus.PENDING None)
              PaymentStatus.COMPLETED)
    as (_ & _ & Hok & Ho & _).
  - discriminate.
  - vm_compute; reflexivity.
  - apply isValidStatusTransition_spec. vm_compute; reflexivity.
  - split; [exact Hok | exact Ho].
Defined.

Lemma createOrderWithPayment_links_witness :
  ∃ db',
    OrderWrites.createOrderWithPayment MoreSamples.fresh Sample.db_paid
      MoreSamples.orderData "cash" None
    = (db', ("order_7000", "payment_7002"))
    ∧ ∃ o p, orders db' !! "order_7000" = Some o
             ∧ payments db' !! "payment_7002" = Some p
             ∧ Payment.orderId p = "order_7000"
             ∧ Payment.amount p = Order.total o.
Proof.
  destruct (OrderWrites.createOrderWithPayment MoreSamples.fresh
              Sample.db_paid MoreSamples.orderData "cash" None)
    as [db' ids] eqn:H1.
  assert (Hids : ids = ("order_7000", "payment_7002")).
  { apply (f_equal snd) in H1. vm_compute in H1. by symmetry. }
  subst ids. exists db'. split; [done|].
  destruct (createOrderWithPayment_links _ _ _ _ _ _ _ _ H1)
    as (_ & _ & o & p & Ho & Hp & _ & _ & _ & _ & _ & _ & Hl & Ha & _).
  by exists o, p.
Defined.

Lemma create_then_complete_witness :
  ∃ db',
    OrderWrites.createOrderWithPayment MoreSamples.fresh Sample.db_paid
      MoreSamples.orderData "cash" None
    = (db', ("order_7000", "payment_7002"))
    ∧ (updatePaymentStatus Sample.clk db' "payment_7002"
         PaymentStatus.COMPLETED).2 = Updated
    ∧ getTotalRevenue
        (updatePaymentStatus Sample.clk db' "payment_7002"
           PaymentStatus.COMPLETED).1
      = getTotalRevenue Sample.db_paid + 25.
Proof.
  destruct (OrderWrites.createOrderWithPayment MoreSamples.fresh
              Sample.db_paid MoreSamples.orderData "cash" None)
    as [db' ids] eqn:H1.
  assert (Hids : ids = ("order_7000", "payment_7002")).
  { apply (f_equal snd) in H1. vm_compute in H1. by symmetry. }
  subst ids. exists db'. split; [done|].
  destruct (create_then_complete _ Sample.clk _ _ _ _ _ _ _ H1)
    as (Hok & _ & Hrev).
  split; [exact Hok|]. apply Hrev. vm_compute; reflexivity.
Defined.

Lemma createOrderWithPayment_keeps_ledger_witness :
  paid_iff_completed Sample.db_paid
  ∧ paid_iff_completed
      (OrderWrites.createOrderWithPayment MoreSamples.fresh Sample.db_paid
         MoreSamples.orderData "cash" None).1.
Proof.
  assert (H1 : paid_iff_completed Sample.db_paid)
    by (apply paid_iff_completed_b_spec; vm_compute; reflexivity).
  split; [exact H1|].
  destruct (OrderWrites.createOrderWithPayment MoreSamples.fresh
              Sample.db_paid MoreSamples.orderData "cash" None)
    as [db' ids] eqn:H0.
  assert (Hids : ids = ("order_7000", "payment_7002")).
  { apply (f_equal snd) in H0. vm_compute in H0. by symmetry. }
  subst ids.
  apply (createOrderWithPayment_keeps_ledger _ _ _ _ _ _ _ _ H0).
  - vm_compute; reflexivity.
  - change (map_Forall (fun _ q => Payment.orderId q ≠ "order_7000")
              (payments Sample.db_paid)).
    compute_done.
  - exact H1.
Defined.

Lemma new_payment_marks_order_paid_witness :
  ∃ db' pid,
    NewPaymentPage.handleSubmit MoreSamples.parseFloat
      MoreSamples.paymentFresh MoreSamples.db_unpaid MoreSamples.paymentForm
      (Some (Sample.order "o1" OrderStatus.PENDING false None))
    = (db', NewPaymentPage.Created pid)
    ∧ ∃ o', orders db' !! "o1" = Some o'
            ∧ Order.isPaid o' = true
            ∧ Order.status o' = OrderStatus.PROCESSING
            ∧ Order.paymentId o' = Some pid.
Proof.
  destruct (new_payment_marks_order_paid MoreSamples.parseFloat
              MoreSamples.paymentFresh MoreSamples.db_unpaid
              MoreSamples.paymentForm
              (Sample.order "o1" OrderStatus.PENDING false None)
              (Sample.order "o1" OrderStatus.PENDING false None) 25)
    as (db' & pid & p & o' & Hrun & _ & _ & _ & _ & _ & _ & Ho' & Hpaid & Hst
        & Hpid & _).
  - discriminate.
  - discriminate.
  - discriminate.
  - reflexivity.
  - vm_compute; reflexivity.
  - lia.
  - vm_compute; reflexivity.
  - exists db', pid. split; [exact Hrun|]. by exists o'.
Defined.

Lemma order_status_only_moves_forward_witness :
  orders Sample.db_paid !! "o1"
  = Some (Sample.order "o1" OrderStatus.PROCESSING true None)
  ∧ ((OrderWrites.run_status_changes Sample.db_paid "o1"
        MoreSamples.status_calls).2 ≤ 5)%nat.
Proof.
  assert (H1 : orders Sample.db_paid !! "o1"
               = Some (Sample.order "o1" OrderStatus.PROCESSING true None))
    by (vm_compute; reflexivity).
  split; [exact H1|].
  exact (proj1 (order_status_only_moves_forward Sample.db_paid "o1" _ _ H1)).
Defined.

Lemma unsettled_payment_can_complete_witness :
  ∃ path, (length path ≤ 2)%nat
          ∧ PaymentHistory.valid_path PaymentStatus.FAILED path = true
          ∧ last path = Some PaymentStatus.COMPLETED.
Proof.
  apply (unsettled_payment_can_complete PaymentStatus.FAILED); discriminate.
Defined.

Lemma saveOrder_round_trip_witness :
  "order_3001" ≠ ""
  ∧ (OrderService.saveOrder "order_3001" 3001 Sample.db_new
       MoreSamples.orderData).2 ≠ "".
Proof.
  assert (H1 : "order_3001" ≠ "") by discriminate.
  split; [exact H1|].
  exact (proj1 (saveOrder_round_trip "order_3001" 3001 Sample.db_new
                  MoreSamples.orderData H1)).
Defined.

Lemma payment_page_may_disagree_with_store_witness :
  "p1" ≠ ""
  ∧ payments MoreSamples.db_failed !! "p1"
    = Some (Sample.payment "p1" "o1" 25 PaymentStatus.FAILED None)
  ∧ ∃ shown stored,
      PaymentDetailPage.handleUpdateStatus Sample.clk 9400 9401
        MoreSamples.db_failed
        (Some (Sample.payment "p1" "o1" 25 PaymentStatus.FAILED None))
        (Some PaymentStatus.PROCESSING)
      = ((updatePaymentStatus Sample.clk MoreSamples.db_failed "p1"
            PaymentStatus.PROCESSING).1, Some shown, None)
      ∧ Payment.status shown = PaymentStatus.PROCESSING
      ∧ payments (updatePaymentStatus Sample.clk MoreSamples.db_failed "p1"
                    PaymentStatus.PROCESSING).1 !! "p1" = Some stored
      ∧ Payment.status stored = PaymentStatus.FAILED.
Proof.
  assert (H1 : "p1" ≠ "") by discriminate.
  assert (H2 : payments MoreSamples.db_failed !! "p1"
               = Some (Sample.payment "p1" "o1" 25 PaymentStatus.FAILED None))
    by (vm_compute; reflexivity).
  split; [exact H1|]. split; [exact H2|].
  destruct (payment_page_may_disagree_with_store Sample.clk 9400 9401
              MoreSamples.db_failed
              (Sample.payment "p1" "o1" 25 PaymentStatus.FAILED None)
              (Sample.payment "p1" "o1" 25 PaymentStatus.FAILED None)
              PaymentStatus.PROCESSING H1 H2)
    as (shown & stored & Hrun & Hshown & Hstored & _ & Hkeep & _).
  exists shown, stored. split; [exact Hrun|]. split; [exact Hshown|].
  split; [exact Hstored|]. apply Hkeep. compute_done.
Defined.

Lemma order_page_agrees_with_store_witness :
  orders Sample.db_shipped !! "o1"
  = Some (Sample.order "o1" OrderStatus.SHIPPED true (Some "p1"))
  ∧ Order.status (Sample.order "o1" OrderStatus.SHIPPED true None)
    = Order.status (Sample.order "o1" OrderStatus.SHIPPED true (Some "p1"))
  ∧ Order.isPaid (Sample.order "o1" OrderStatus.SHIPPED true None)
    = Order.isPaid (Sample.order "o1" OrderStatus.SHIPPED true (Some "p1"))
  ∧ ∃ shown stored,
      (OrderDetailPage.handleStatusChange 9500 Sample.db_shipped
         (Some (Sample.order "o1" OrderStatus.SHIPPED true None))
         OrderStatus.DELIVERED).2 = Some shown
      ∧ orders (OrderDetailPage.handleStatusChange 9500 Sample.db_shipped
                  (Some (Sample.order "o1" OrderStatus.SHIPPED true None))
                  OrderStatus.DELIVERED).1 !! "o1" = Some stored
      ∧ Order.status shown = Order.status stored
      ∧ Order.isPaid shown = Order.isPaid stored.
Proof.
  assert (H1 : orders Sample.db_shipped !! "o1"
               = Some (Sample.order "o1" OrderStatus.SHIPPED true (Some "p1")))
    by (vm_compute; reflexivity).
  assert (H2 : Order.status (Sample.order "o1" OrderStatus.SHIPPED true None)
               = Order.status
                   (Sample.order "o1" OrderStatus.SHIPPED true (Some "p1")))
    by reflexivity.
  assert (H3 : Order.isPaid (Sample.order "o1" OrderStatus.SHIPPED true None)
               = Order.isPaid
                   (Sample.order "o1" OrderStatus.SHIPPED true (Some "p1")))
    by reflexivity.
  split; [exact H1|]. split; [exact H2|]. split; [exact H3|].
  destruct (order_page_agrees_with_store 9500 Sample.db_shipped
              (Sample.order "o1" OrderStatus.SHIPPED true None)
              (Sample.order "o1" OrderStatus.SHIPPED true (Some "p1"))
              OrderStatus.DELIVERED H1 H2 H3)
    as (shown & stored & Hs & Ho & Heq & Hpaid & _).
  by exists shown, stored.
Defined.
